(** * Trader-performance dashboard: the data preparation pipeline

    A shallow embedding of [load_and_preprocess_data] of [dashboard.py]
    and the properties of the daily summary table it returns.

    Data frames are lists of records, one record per row, in row order.
    A cell that pandas holds as NaN / NaT / None is [None]; the money
    columns are IEEE binary64 values ([spec_float] at precision 53), so NaN,
    infinities and signed zeros are there as in the source.  Times are
    the nanosecond counts of [datetime64[ns]]; the zone [Asia/Kolkata] is
    the table of the time-zone database; the clock of the machine, which
    the texts [now] and [today] make the load read, is a parameter. *)

From Stdlib Require Import ZArith String Ascii List Bool Lia QArith.
From Stdlib Require Import SpecFloat Sorted Permutation.
Import ListNotations.
Open Scope Z_scope.

(* ================================================================== *)
(** * Calendar dates *)
(* ================================================================== *)

(** A [datetime.date]: proleptic Gregorian year, month, day. *)
Record CalendarDate : Type := mkDate { year : Z; month : Z; day : Z }.

Definition date_eqb (a b : CalendarDate) : bool :=
  (year a =? year b) && (month a =? month b) && (day a =? day b).

(** Python orders dates as the tuples (year, month, day). *)
Definition date_ltb (a b : CalendarDate) : bool :=
  (year a <? year b)
  || ((year a =? year b)
      && ((month a <? month b)
          || ((month a =? month b) && (day a <? day b)))).

Definition date_leb (a b : CalendarDate) : bool := negb (date_ltb b a).

Definition is_leap (y : Z) : bool :=
  (y mod 4 =? 0) && (negb (y mod 100 =? 0) || (y mod 400 =? 0)).

Definition days_in_month (y m : Z) : Z :=
  if m =? 2 then (if is_leap y then 29 else 28)
  else if (m =? 4) || (m =? 6) || (m =? 9) || (m =? 11) then 30
  else 31.

Definition valid_date (y m d : Z) : bool :=
  (1 <=? m) && (m <=? 12) && (1 <=? d) && (d <=? days_in_month y m).

(** Day number of a civil date, counted from 1970-01-01 (day 0): what a
    [datetime64] stores, divided by the length of a day. *)
Definition days_from_civil (y m d : Z) : Z :=
  let y' := if m <=? 2 then y - 1 else y in
  let era := y' / 400 in
  let yoe := y' - era * 400 in
  let mp := if 2 <? m then m - 3 else m + 9 in
  let doy := (153 * mp + 2) / 5 + d - 1 in
  let doe := yoe * 365 + yoe / 4 - yoe / 100 + doy in
  era * 146097 + doe - 719468.

(** The civil date of a day number: what [.dt.date] reads off. *)
Definition civil_from_days (z : Z) : CalendarDate :=
  let z' := z + 719468 in
  let era := z' / 146097 in
  let doe := z' - era * 146097 in
  let yoe := (doe - doe / 1460 + doe / 36524 - doe / 146096) / 365 in
  let doy := doe - (365 * yoe + yoe / 4 - yoe / 100) in
  let mp := (5 * doy + 2) / 153 in
  let d := doy - (153 * mp + 2) / 5 + 1 in
  let m := if mp <? 10 then mp + 3 else mp - 9 in
  mkDate (if m <=? 2 then yoe + era * 400 + 1 else yoe + era * 400) m d.

(* ================================================================== *)
(** * Reading [Timestamp IST] with the format [%d-%m-%Y %H:%M] *)
(* ================================================================== *)

(** The format is matched as the regular expression the library builds
    from it; a directive is an ordered list of alternatives.  A matcher
    returns every way of matching a prefix of the text, in the order in
    which a backtracking matcher tries them, so that the head of the list is
    the match that [re.match] finds. *)
Definition matcher (A : Type) : Type := string -> list (A * string).

Definition is_digit (c : ascii) : bool :=
  let n := nat_of_ascii c in (48 <=? n)%nat && (n <=? 57)%nat.

Definition digit_val (c : ascii) : Z := Z.of_nat (nat_of_ascii c) - 48.

Definition in_range (lo hi : Z) (c : ascii) : bool :=
  is_digit c && (lo <=? digit_val c) && (digit_val c <=? hi).

(** [\s] of Python's regular expressions on ASCII characters: tab, line
    feed, vertical tab, form feed, carriage return (9 to 13), the four
    separators 28 to 31, and the space. *)
Definition is_space (c : ascii) : bool :=
  let n := nat_of_ascii c in
  ((n =? 32) || ((9 <=? n) && (n <=? 13)) || ((28 <=? n) && (n <=? 31)))%nat.

(** One digit within [lo, hi]. *)
Definition one (lo hi : Z) : matcher Z :=
  fun s => match s with
           | String c r => if in_range lo hi c then [(digit_val c, r)] else []
           | EmptyString => []
           end.

(** Two digits, the first within [lo1, hi1], the second within [lo2, hi2]. *)
Definition two (lo1 hi1 lo2 hi2 : Z) : matcher Z :=
  fun s => match s with
           | String c1 (String c2 r) =>
               if in_range lo1 hi1 c1 && in_range lo2 hi2 c2
               then [(10 * digit_val c1 + digit_val c2, r)] else []
           | _ => []
           end.

Definition lit (c : ascii) : matcher unit :=
  fun s => match s with
           | String c' r => if Ascii.eqb c c' then [(tt, r)] else []
           | EmptyString => []
           end.

Definition alt {A} (p q : matcher A) : matcher A := fun s => p s ++ q s.

Definition bind {A B} (p : matcher A) (f : A -> matcher B) : matcher B :=
  fun s => flat_map (fun ar => f (fst ar) (snd ar)) (p s).

Definition ret {A} (a : A) : matcher A := fun s => [(a, s)].

(** [\s+], greedy: the longest run first, then each shorter one. *)
Fixpoint spaces (s : string) : list (unit * string) :=
  match s with
  | String c r => if is_space c then spaces r ++ [(tt, r)] else []
  | EmptyString => []
  end.

(** [%d]: 3[0-1] | [1-2]\d | 0[1-9] | [1-9] | space [1-9]. *)
Definition re_d : matcher Z :=
  alt (two 3 3 0 1)
   (alt (two 1 2 0 9)
    (alt (two 0 0 1 9)
     (alt (one 1 9)
          (bind (lit " ") (fun _ => one 1 9))))).

(** [%m]: 1[0-2] | 0[1-9] | [1-9]. *)
Definition re_m : matcher Z :=
  alt (two 1 1 0 2) (alt (two 0 0 1 9) (one 1 9)).

(** [%Y]: four digits. *)
Definition re_Y : matcher Z :=
  bind (two 0 9 0 9) (fun hi =>
  bind (two 0 9 0 9) (fun lo => ret (100 * hi + lo))).

(** [%H]: 2[0-3] | [0-1]\d | \d. *)
Definition re_H : matcher Z :=
  alt (two 2 2 0 3) (alt (two 0 1 0 9) (one 0 9)).

(** [%M]: [0-5]\d | \d. *)
Definition re_M : matcher Z :=
  alt (two 0 5 0 9) (one 0 9).

(** The fields of a wall-clock time, as the format yields them. *)
Record Fields : Type :=
  mkFields { f_year : Z; f_month : Z; f_day : Z; f_hour : Z; f_minute : Z }.

Definition re_format : matcher Fields :=
  bind re_d (fun d =>
  bind (lit "-") (fun _ =>
  bind re_m (fun m =>
  bind (lit "-") (fun _ =>
  bind re_Y (fun y =>
  bind spaces (fun _ =>
  bind re_H (fun h =>
  bind (lit ":") (fun _ =>
  bind re_M (fun mi => ret (mkFields y m d h mi)))))))))).

(** [strptime]: the regular expression is matched at the start of the
    text, [re.match], and the first match counts; text left over after it
    is an error, and so is a day that the calendar does not have
    ([datetime.date] wants year 1 or later and a day of the month).  [None]
    is the [ValueError] the library raises.

    A text is held as the bytes of its UTF-8 form.  Python's [\d] and [\s]
    also match digits and spaces beyond ASCII; those are not read here, and
    a text with one of them is taken not to match. *)
Definition strptime (s : string) : option Fields :=
  match re_format s with
  | (f, rest) :: _ =>
      if String.eqb rest EmptyString
         && (1 <=? f_year f) && valid_date (f_year f) (f_month f) (f_day f)
      then Some f else None
  | [] => None
  end.

(** The texts that [to_datetime] reads as a missing time, next to the
    empty text; and the two texts it reads as the time of the call. *)
Definition nat_strings : list string :=
  ["NaT"%string; "nat"%string; "NAT"%string;
   "nan"%string; "NaN"%string; "NAN"%string].

Definition is_nat_string (s : string) : bool :=
  String.eqb s EmptyString || existsb (String.eqb s) nat_strings.

Definition reads_clock (s : string) : bool :=
  String.eqb s "now" || String.eqb s "today".

(** Times are what [datetime64[ns]] stores: nanoseconds from 1970-01-01
    00:00, in a signed 64-bit integer whose least value stands for NaT. *)
Definition ns_per_second : Z := 1000000000.
Definition ns_per_day : Z := 86400 * ns_per_second.

Definition ns (seconds : Z) : Z := seconds * ns_per_second.

Definition in_bounds (v : Z) : bool :=
  (-9223372036854775808 <? v) && (v <=? 9223372036854775807).

(** A timestamp without zone: the nanoseconds of its own wall clock. *)
Definition naive_ns (f : Fields) : Z :=
  ns (days_from_civil (f_year f) (f_month f) (f_day f) * 86400
      + f_hour f * 3600 + f_minute f * 60).

(** The zone [Asia/Kolkata] of the time-zone database: local mean time of
    Kolkata (+5:53:28) at first, then from each UTC second of the list the
    offset next to it, in seconds: Howrah mean time from 1854, Madras time
    from 1870, Indian Standard Time (+5:30) from 1906, war time (+6:30)
    from October 1941 to May 1942 and from September 1942 to 14 October
    1945, and Indian Standard Time since.  (A library that carries the
    offsets in whole minutes has the three before 1906 rounded.) *)
Definition Asia_Kolkata_LMT : Z := 21208.

Definition Asia_Kolkata : list (Z * Z) :=
  [ (-3645237208, 21200);
    (-3155694800, 19270);
    (-2019705670, 19800);
    (-891581400, 23400);
    (-872058600, 19800);
    (-862637400, 23400);
    (-764145000, 19800) ].

(** The offset in force at a UTC instant. *)
Fixpoint offset_in (first : Z) (rule : list (Z * Z)) (utc : Z) : Z :=
  match rule with
  | [] => first
  | (since, offset) :: later =>
      if utc <? ns since then first else offset_in offset later utc
  end.

Definition utcoffset (utc : Z) : Z := offset_in Asia_Kolkata_LMT Asia_Kolkata utc.

(** The offsets the zone ever had. *)
Definition zone_offsets : list Z :=
  nodup Z.eq_dec (Asia_Kolkata_LMT :: map snd Asia_Kolkata).

(** [.dt.date] of a UTC instant. *)
Definition dt_date (utc : Z) : CalendarDate :=
  civil_from_days (utc / ns_per_day).

(* ================================================================== *)
(** * Cells, floats and exceptions *)
(* ================================================================== *)

(** A float64 cell. *)
Definition float : Type := spec_float.

Definition fsub (x y : float) : float := SFsub 53 1024 x y.
Definition fzero : float := S754_zero false.
(** [x > y] and [x < y] on floats: both are [False] when either is NaN. *)
Definition fgt (x y : float) : bool := SFltb y x.
Definition flt (x y : float) : bool := SFltb x y.

(** The dtype of a [Date] column: [datetime64[ns]] or [object]. *)
Inductive dtype : Type := datetime64 | object.

(** What the load raises; the caller catches every [Exception] alike.  A
    text that cannot be read; a time outside [datetime64[ns]]; a wall-clock
    time that the zone skipped, or had twice; key columns that [pd.merge]
    refuses (a [ValueError] too). *)
Inductive exn : Type :=
| ValueError (column : string) (text : string)
| OutOfBoundsDatetime (column : string) (value : Z)
| NonExistentTimeError (local : Z)
| AmbiguousTimeError (local : Z)
| MergeError (left right : dtype).

Inductive result (A : Type) : Type :=
| Ok (a : A)
| Raise (e : exn).
Arguments Ok {A} a.
Arguments Raise {A} e.

Definition rbind {A B} (r : result A) (k : A -> result B) : result B :=
  match r with
  | Ok a => k a
  | Raise e => Raise e
  end.

Notation "x <- r ;; k" := (rbind r (fun x => k))
  (at level 61, r at next level, right associativity).

(** Apply a fallible conversion down a column; the first failure aborts. *)
Fixpoint traverse {A B} (f : A -> result B) (l : list A) : result (list B) :=
  match l with
  | [] => Ok []
  | a :: r => b <- f a ;; bs <- traverse f r ;; Ok (b :: bs)
  end.

(** [enumerate]: the rows with their positions. *)
Fixpoint enumerate_from {A} (i : nat) (l : list A) : list (nat * A) :=
  match l with
  | [] => []
  | a :: r => (i, a) :: enumerate_from (S i) r
  end.

Definition enumerate {A} (l : list A) : list (nat * A) := enumerate_from 0 l.

(** [.dt.tz_localize('Asia/Kolkata').dt.tz_convert('UTC')] on one time: the
    instant at which the wall clock of the zone showed the given time.  A
    time the wall clock never showed (it was put forward over it) raises,
    and so does a time it showed twice (it was put back over it): the
    defaults [nonexistent='raise'] and [ambiguous='raise'].  The instant
    must itself be in [datetime64[ns]]. *)
Definition tz_localize_convert (local : Z) : result Z :=
  match filter (fun o => utcoffset (local - ns o) =? o) zone_offsets with
  | [] => Raise (NonExistentTimeError local)
  | [o] =>
      if in_bounds (local - ns o) then Ok (local - ns o)
      else Raise (OutOfBoundsDatetime "Timestamp_IST_DT" local)
  | _ :: _ :: _ => Raise (AmbiguousTimeError local)
  end.

(* ================================================================== *)
(** * Data frame operations *)
(* ================================================================== *)

Section Frames.
Context {A K : Type}.
Variable eqb : K -> K -> bool.
Variable key : A -> K.

Definition mem (k : K) (seen : list K) : bool := existsb (eqb k) seen.

(** [drop_duplicates(subset=[key])], with the default [keep='first']. *)
Fixpoint drop_duplicates_from (seen : list K) (df : list A) : list A :=
  match df with
  | [] => []
  | r :: rest =>
      if mem (key r) seen then drop_duplicates_from seen rest
      else r :: drop_duplicates_from (key r :: seen) rest
  end.

Definition drop_duplicates (df : list A) : list A :=
  drop_duplicates_from [] df.
End Frames.

Section Sorting.
Context {A : Type}.
Variable leb : A -> A -> bool.

Fixpoint insert_sorted (x : A) (l : list A) : list A :=
  match l with
  | [] => [x]
  | y :: r => if leb x y then x :: l else y :: insert_sorted x r
  end.

(** [sort_values]: ascending; rows with equal keys keep their order. *)
Definition sort_values (l : list A) : list A :=
  fold_right insert_sorted [] l.
End Sorting.

(** Sum of a boolean column: the number of [True] cells. *)
Definition sum_bool {A} (col : A -> bool) (g : list A) : Z :=
  Z.of_nat (length (filter col g)).

(** [Series.replace(0, 1)] on an integer cell. *)
Definition replace_0_1 (x : Z) : Z := if x =? 0 then 1 else x.

(** True division of two integer cells.  The quotient is kept exact; the
    float64 cell of the source is this rational rounded to nearest.  [None]
    stands for the non-finite cell (NaN or an infinity) that a zero
    denominator gives. *)
Definition truediv (n d : Z) : option Q :=
  if d =? 0 then None else Some (inject_Z n / inject_Z d)%Q.

(* ================================================================== *)
(** * Regime labels *)
(* ================================================================== *)

Definition lower_ascii (c : ascii) : ascii :=
  let n := nat_of_ascii c in
  if ((65 <=? n) && (n <=? 90))%nat then ascii_of_nat (n + 32) else c.

(** [str.lower] on the bytes of the text.  The letters of the two words
    looked for are ASCII and no other character lowers to one of them. *)
Fixpoint lower (s : string) : string :=
  match s with
  | EmptyString => EmptyString
  | String c r => String (lower_ascii c) (lower r)
  end.

(** [needle in hay]. *)
Fixpoint contains (needle hay : string) : bool :=
  String.prefix needle hay
  || match hay with
     | EmptyString => false
     | String _ r => contains needle r
     end.

(** [str(x)] of a cell: a missing cell is the float NaN. *)
Definition str (x : option string) : string :=
  match x with
  | Some s => s
  | None => "nan"
  end.

Definition categorize_regime (x : option string) : string :=
  let val := lower (str x) in
  if contains "fear" val then "Fear"%string
  else if contains "greed" val then "Greed"%string
  else "Neutral"%string.

(* ================================================================== *)
(** * The frames of the pipeline *)
(* ================================================================== *)

(** [df_fg]: the sentiment file. *)
Module FG.
Record Raw : Type := mkRaw {
  date : option string;
  value : option Z;
  classification : option string }.

(** A row once [Date] is there. *)
Record Dated : Type := mkDated { raw : Raw; Date : option CalendarDate }.

(** A row once [Regime] is there too. *)
Record Row : Type := mkRow { dated : Dated; Regime : string }.
End FG.

(** [df_hd]: the trade file. *)
Module HD.
Record Raw : Type := mkRaw {
  Account : option string;
  Timestamp_IST : option string;
  Closed_PnL : float;
  Fee : float;
  Size_USD : float;
  Crossed : option bool }.

Record Row : Type := mkRow {
  raw : Raw;
  Timestamp_IST_DT : option Z;
  Timestamp_UTC : option Z;
  Date : option CalendarDate;
  Net_PnL : float;
  Is_Win : bool;
  Is_Loss : bool;
  Is_Taker : bool }.
End HD.

(** [daily_stats]. *)
Module Daily.
(** The columns [groupby('Date').agg(...).reset_index()] gives. *)
Record Agg : Type := mkAgg {
  Date : CalendarDate;
  Daily_Total_Net_PnL : float;
  Avg_Trade_Size : float;
  Total_Trades : Z;
  Unique_Accounts : Z;
  Winning_Trades : Z;
  Losing_Trades : Z;
  Taker_Trades : Z }.

(** With the two ratio columns. *)
Record Row : Type := mkRow {
  agg : Agg;
  Win_Rate : option Q;
  Taker_Ratio : option Q }.
End Daily.

(** [merged]: a row of the daily summary. *)
Module Merged.
Record Row : Type := mkRow {
  stats : Daily.Row;
  value : option Z;
  classification : option string;
  Regime : string }.

Definition Date (r : Row) : CalendarDate := Daily.Date (Daily.agg (stats r)).
End Merged.

Definition option_eqb {A} (eqb : A -> A -> bool) (x y : option A) : bool :=
  match x, y with
  | Some a, Some b => eqb a b
  | None, None => true
  | _, _ => false
  end.

(** The cells of a column that are not missing. *)
Fixpoint dropna {A} (col : list (option A)) : list A :=
  match col with
  | [] => []
  | Some a :: r => a :: dropna r
  | None :: r => dropna r
  end.

(* ================================================================== *)
(** * [load_and_preprocess_data] *)
(* ================================================================== *)

Section Pipeline.
(** [pd.to_datetime] without a format, on one text of the [date] column:
    the library's date reader; [None] when it raises. *)
Variable parse_date : string -> option CalendarDate.
(** The clock of the machine, in nanoseconds of its wall time, as it
    stands when the row at a given position is read. *)
Variable clock : nat -> Z.
(** The library's float reductions of a group, [sum] and [mean]. *)
Variable group_sum : list float -> float.
Variable group_mean : list float -> float.

(** [pd.to_datetime(df_fg['date']).dt.date] on one cell: a missing cell
    becomes NaT, a text that is no date raises. *)
Definition to_date (c : option string) : result (option CalendarDate) :=
  match c with
  | None => Ok None
  | Some s =>
      match parse_date s with
      | Some d => Ok (Some d)
      | None => Raise (ValueError "date" s)
      end
  end.

Definition fg_with_date (r : FG.Raw) : result FG.Dated :=
  d <- to_date (FG.date r) ;; Ok (FG.mkDated r d).

Definition fg_with_regime (r : FG.Dated) : FG.Row :=
  FG.mkRow r (categorize_regime (FG.classification (FG.raw r))).

(** Step 1, the sentiment frame. *)
Definition process_fear_greed (df_fg : list FG.Raw) : result (list FG.Row) :=
  dated <- traverse fg_with_date df_fg ;;
  Ok (map fg_with_regime
          (drop_duplicates (option_eqb date_eqb) FG.Date dated)).

(** [pd.to_datetime(..., format='%d-%m-%Y %H:%M')] on one cell, [now] being
    what the clock of the machine shows when the cell is read: a missing
    cell, the empty text and the NaT texts give NaT; [now] and [today]
    give the time of the clock; any other text goes through [strptime]. *)
Definition to_datetime_ist (now : Z) (c : option string) : result (option Z) :=
  match c with
  | None => Ok None
  | Some s =>
      if is_nat_string s then Ok None
      else if reads_clock s then
        if in_bounds now then Ok (Some now)
        else Raise (OutOfBoundsDatetime "Timestamp IST" now)
      else
        match strptime s with
        | Some f =>
            if in_bounds (naive_ns f) then Ok (Some (naive_ns f))
            else Raise (OutOfBoundsDatetime "Timestamp IST" (naive_ns f))
        | None => Raise (ValueError "Timestamp IST" s)
        end
  end.

(** Line 34 on one cell: NaT stays NaT. *)
Definition to_utc (ist : option Z) : result (option Z) :=
  match ist with
  | None => Ok None
  | Some local => utc <- tz_localize_convert local ;; Ok (Some utc)
  end.

(** Lines 34 to 39 on one row, its [Timestamp_IST_DT] given. *)
Definition with_utc (r : HD.Raw) (ist : option Z) : result HD.Row :=
  utc <- to_utc ist ;;
  let net := fsub (HD.Closed_PnL r) (HD.Fee r) in
  Ok (HD.mkRow r ist utc (option_map dt_date utc) net
               (fgt net fzero) (flt net fzero)
               (option_eqb Bool.eqb (HD.Crossed r) (Some true))).

(** Step 2, the trade frame: the whole [Timestamp IST] column is read
    first (line 33), then the columns derived from it are added. *)
Definition process_traders (df_hd : list HD.Raw) : result (list HD.Row) :=
  ist <- traverse (fun ir => to_datetime_ist (clock (fst ir))
                                             (HD.Timestamp_IST (snd ir)))
                  (enumerate df_hd) ;;
  traverse (fun ri => with_utc (fst ri) (snd ri)) (combine df_hd ist).

(** The group keys: the distinct dates, NaT left out, in ascending order. *)
Definition group_keys (df_hd : list HD.Row) : list CalendarDate :=
  sort_values date_leb
    (drop_duplicates date_eqb (fun d => d) (dropna (map HD.Date df_hd))).

(** The rows of one group, in frame order. *)
Definition group_of (d : CalendarDate) (df_hd : list HD.Row) : list HD.Row :=
  filter (fun r => option_eqb date_eqb (HD.Date r) (Some d)) df_hd.

Definition accounts (g : list HD.Row) : list string :=
  dropna (map (fun r => HD.Account (HD.raw r)) g).

Definition aggregate (d : CalendarDate) (g : list HD.Row) : Daily.Agg :=
  Daily.mkAgg d
    (group_sum (map HD.Net_PnL g))
    (group_mean (map (fun r => HD.Size_USD (HD.raw r)) g))
    (Z.of_nat (length (accounts g)))
    (Z.of_nat (length (drop_duplicates String.eqb (fun a => a) (accounts g))))
    (sum_bool HD.Is_Win g)
    (sum_bool HD.Is_Loss g)
    (sum_bool HD.Is_Taker g).

Definition with_ratios (a : Daily.Agg) : Daily.Row :=
  Daily.mkRow a
    (truediv (Daily.Winning_Trades a)
             (replace_0_1 (Daily.Winning_Trades a + Daily.Losing_Trades a)))
    (truediv (Daily.Taker_Trades a)
             (replace_0_1 (Daily.Total_Trades a))).

(** Step 3, the daily aggregates. *)
Definition daily_stats (df_hd : list HD.Row) : list Daily.Row :=
  map (fun d => with_ratios (aggregate d (group_of d df_hd)))
      (group_keys df_hd).

Definition join (l : Daily.Row) (r : FG.Row) : Merged.Row :=
  Merged.mkRow l (FG.value (FG.raw (FG.dated r)))
               (FG.classification (FG.raw (FG.dated r))) (FG.Regime r).

(** The rows of the inner merge on [Date]: the left rows in order, each
    with every right row of the same date. *)
Definition merge_inner (left : list Daily.Row) (right : list FG.Row)
  : list Merged.Row :=
  flat_map
    (fun l =>
       map (join l)
           (filter (fun r => option_eqb date_eqb (FG.Date (FG.dated r))
                                        (Some (Daily.Date (Daily.agg l))))
                   right))
    left.

(** The dtype pandas gives a [Date] column made by [.dt.date]: a column
    with a row and nothing but NaT in it is taken for [datetime64[ns]], any
    other is [object]. *)
Definition dtype_of {A} (col : list (option A)) : dtype :=
  match col with
  | [] => object
  | _ :: _ =>
      if forallb (fun c => match c with None => true | Some _ => false end) col
      then datetime64 else object
  end.

(** [pd.merge(left, right, on='Date', how='inner')]: the key columns must
    be of one dtype, the dtype of the left one being given. *)
Definition merge (left : list Daily.Row) (left_key : dtype)
           (right : list FG.Row) : result (list Merged.Row) :=
  let right_key := dtype_of (map (fun r => FG.Date (FG.dated r)) right) in
  match left_key, right_key with
  | object, object | datetime64, datetime64 => Ok (merge_inner left right)
  | _, _ => Raise (MergeError left_key right_key)
  end.

Definition merged_leb (a b : Merged.Row) : bool :=
  date_leb (Merged.Date a) (Merged.Date b).

Definition load_and_preprocess_data
           (df_fg : list FG.Raw) (df_hd : list HD.Raw)
  : result (list Merged.Row * list HD.Row) :=
  fg <- process_fear_greed df_fg ;;
  hd <- process_traders df_hd ;;
  (* the [Date] column of [daily_stats] has the dtype of the [Date] column
     of the trade frame it was grouped by *)
  merged <- merge (daily_stats hd) (dtype_of (map HD.Date hd)) fg ;;
  Ok (sort_values merged_leb merged, hd).

(** [@st.cache_data]: the function takes no argument, so the cache holds
    at most one value; a call that raises stores nothing. *)
Definition cache : Type := option (list Merged.Row * list HD.Row).

Definition cached_load (c : cache) (df_fg : list FG.Raw) (df_hd : list HD.Raw)
  : result (list Merged.Row * list HD.Row) * cache :=
  match c with
  | Some v => (Ok v, c)
  | None =>
      match load_and_preprocess_data df_fg df_hd with
      | Ok v => (Ok v, Some v)
      | Raise e => (Raise e, None)
      end
  end.
End Pipeline.

(* ================================================================== *)
(** * Instances to run the pipeline on examples *)
(* ================================================================== *)

(** The first match that consumes the whole text. *)
Definition full_match {A} (p : matcher A) (s : string) : option A :=
  match filter (fun ar => String.eqb (snd ar) EmptyString) (p s) with
  | (a, _) :: _ => Some a
  | [] => None
  end.

(** A reader of ISO calendar dates, [YYYY-MM-DD]. *)
Definition re_iso : matcher CalendarDate :=
  bind re_Y (fun y =>
  bind (lit "-") (fun _ =>
  bind (two 0 1 0 9) (fun m =>
  bind (lit "-") (fun _ =>
  bind (two 0 3 0 9) (fun d => ret (mkDate y m d)))))).

Definition parse_iso_date (s : string) : option CalendarDate :=
  match full_match re_iso s with
  | Some d =>
      if (1 <=? year d) && valid_date (year d) (month d) (day d)
      then Some d else None
  | None => None
  end.

Definition fadd (x y : float) : float := SFadd 53 1024 x y.
Definition fdiv (x y : float) : float := SFdiv 53 1024 x y.
Definition float_of_Z (n : Z) : float := binary_normalize 53 1024 n 0 false.

(** A left-to-right float sum and the mean it gives. *)
Definition plain_sum (col : list float) : float := fold_left fadd col fzero.
Definition plain_mean (col : list float) : float :=
  fdiv (plain_sum col) (float_of_Z (Z.of_nat (length col))).

(** A clock that shows noon of 1 May 2023 throughout. *)
Definition noon_1_may_2023 : nat -> Z := fun _ => 1682942400000000000.

Definition example_load (df_fg : list FG.Raw) (df_hd : list HD.Raw)
  : result (list Merged.Row * list HD.Row) :=
  load_and_preprocess_data parse_iso_date noon_1_may_2023 plain_sum plain_mean
                           df_fg df_hd.

(** The summary table of a load, when it did not raise. *)
Definition summary (r : result (list Merged.Row * list HD.Row))
  : option (list Merged.Row) :=
  match r with
  | Ok (merged, _) => Some merged
  | Raise _ => None
  end.

(* ================================================================== *)
(** * Notions the properties are stated with *)
(* ================================================================== *)

Definition date_lt (a b : CalendarDate) : Prop := date_ltb a b = true.
Definition date_le (a b : CalendarDate) : Prop := date_leb a b = true.

(** The calendar day a wall-clock time names, and the day before a day. *)
Definition local_date (f : Fields) : CalendarDate :=
  mkDate (f_year f) (f_month f) (f_day f).

(** The wall-clock time from which the offsets of the zone are whole
    minutes: 1 January 1906, 00:09 (Indian Standard Time began at 00:08:50
    of that day's wall clock). *)
Definition whole_minutes_since : Fields := mkFields 1906 1 1 0 9.

(** The wall-clock time from which the zone has been at +5:30 without a
    break: 15 October 1945, 00:00. *)
Definition IST_since : Fields := mkFields 1945 10 15 0 0.

Definition day_before (d : CalendarDate) : CalendarDate :=
  civil_from_days (days_from_civil (year d) (month d) (day d) - 1).

(** A float above zero: a positive finite number or plus infinity. *)
Definition positive (x : float) : Prop :=
  x = S754_infinity false \/ exists m e, x = S754_finite false m e.

(** A float below zero. *)
Definition negative (x : float) : Prop :=
  x = S754_infinity true \/ exists m e, x = S754_finite true m e.

(** Plus or minus zero. *)
Definition is_zero (x : float) : Prop := exists s, x = S754_zero s.

Definition is_nan (x : float) : Prop := x = S754_nan.

(** What [process_traders] promises of each row it returns. *)
Definition normalized (row : HD.Row) : Prop :=
  HD.Net_PnL row = fsub (HD.Closed_PnL (HD.raw row)) (HD.Fee (HD.raw row))
  /\ HD.Is_Win row = fgt (HD.Net_PnL row) fzero
  /\ HD.Is_Loss row = flt (HD.Net_PnL row) fzero
  /\ HD.Is_Taker row = option_eqb Bool.eqb (HD.Crossed (HD.raw row)) (Some true).

(** What the trade at one position becomes when both conversions pass on
    it, [now] being the clock when it is read. *)
Definition hd_row (now : Z) (r : HD.Raw) : result HD.Row :=
  ist <- to_datetime_ist now (HD.Timestamp_IST r) ;; with_utc r ist.

(** Two characters that read the same when letter case is ignored: the
    same character, or one of the capital letters A to Z and its small
    letter, which comes 32 places later. *)
Definition is_capital (c : ascii) : bool :=
  ((65 <=? nat_of_ascii c) && (nat_of_ascii c <=? 90))%nat.

Definition same_letter (a b : ascii) : bool :=
  Ascii.eqb a b
  || (is_capital a && (nat_of_ascii b =? nat_of_ascii a + 32)%nat)
  || (is_capital b && (nat_of_ascii a =? nat_of_ascii b + 32)%nat).

(** Two texts that read the same when letter case is ignored. *)
Fixpoint same_ignoring_case (s t : string) : Prop :=
  match s, t with
  | EmptyString, EmptyString => True
  | String a s', String b t' =>
      same_letter a b = true /\ same_ignoring_case s' t'
  | _, _ => False
  end.

(** The text holds the word when letter case is ignored: some stretch of
    the text reads as the word, letter for letter, whatever the case. *)
Definition holds_ignoring_case (word text : string) : Prop :=
  exists pre mid post,
    text = (pre ++ mid ++ post)%string /\ same_ignoring_case mid word.

Definition daily_date (r : Daily.Row) : CalendarDate := Daily.Date (Daily.agg r).
Definition fg_date (r : FG.Row) : option CalendarDate := FG.Date (FG.dated r).

(** The trades of the day of a row of the daily aggregates. *)
Definition trades_of (hd : list HD.Row) (row : Daily.Row) : list HD.Row :=
  group_of (daily_date row) hd.

(** A row of the daily aggregates, joined into the summary or not. *)
Definition daily_row (group_sum group_mean : list float -> float)
           (hd : list HD.Row) (merged : list Merged.Row) (row : Daily.Row)
  : Prop :=
  In row (daily_stats group_sum group_mean hd)
  \/ In row (map Merged.stats merged).

(** The date cell the reader gives a sentiment record. *)
Definition date_of (parse_date : string -> option CalendarDate) (r : FG.Raw)
  : result (option CalendarDate) :=
  to_date parse_date (FG.date r).

(** The integers below [n], to check a finite range by computation. *)
Definition Zrange (n : nat) : list Z := map Z.of_nat (seq 0 n).

(** The date that the second half of [civil_from_days] reads off a day of
    the 400-year era. *)
Definition civil_of_doe (era doe : Z) : CalendarDate :=
  let yoe := (doe - doe / 1460 + doe / 36524 - doe / 146096) / 365 in
  let doy := doe - (365 * yoe + yoe / 4 - yoe / 100) in
  let mp := (5 * doy + 2) / 153 in
  let d := doy - (153 * mp + 2) / 5 + 1 in
  let m := if mp <? 10 then mp + 3 else mp - 9 in
  mkDate (if m <=? 2 then yoe + era * 400 + 1 else yoe + era * 400) m d.

(** The day of the era that the first half of [days_from_civil] computes. *)
Definition doe_of_civil (yoe m d : Z) : Z :=
  let mp := if 2 <? m then m - 3 else m + 9 in
  let doy := (153 * mp + 2) / 5 + d - 1 in
  yoe * 365 + yoe / 4 - yoe / 100 + doy.

Definition era_check (yoe m d : Z) : bool :=
  let y := if m <=? 2 then yoe + 1 else yoe in
  if valid_date y m d then
    let doe := doe_of_civil yoe m d in
    (0 <=? doe) && (doe <? 146097)
    && date_eqb (civil_of_doe 0 doe) (mkDate y m d)
  else true.

(* ================================================================== *)
(** * Example inputs *)
(* ================================================================== *)

(** A trade at 02:00 on New Year's Day 2023, Indian time. *)
Definition ist_2am : HD.Raw :=
  HD.mkRaw (Some "0xa1"%string) (Some "01-01-2023 02:00"%string)
           fzero fzero fzero (Some true).

(** A trade at noon on 1 May 2023, Indian time, with no fee. *)
Definition may_trade (account : option string) (closed : float) (crossed : bool)
  : HD.Raw :=
  HD.mkRaw account (Some "01-05-2023 12:00"%string)
           closed fzero (float_of_Z 100) (Some crossed).

Definition fear_day : FG.Raw :=
  FG.mkRaw (Some "2023-05-01"%string) (Some 20) (Some "Extreme Fear"%string).

Definition later_same_day : FG.Raw :=
  FG.mkRaw (Some "2023-05-01"%string) (Some 70) (Some "Greed"%string).

(** A sentiment record with no classification, one with no date, and one
    whose date is no date. *)
Definition no_label_day : FG.Raw :=
  FG.mkRaw (Some "2023-05-01"%string) (Some 20) None.

Definition no_date_day : FG.Raw :=
  FG.mkRaw None (Some 30) (Some "Greed"%string).

Definition bad_date_day : FG.Raw :=
  FG.mkRaw (Some "yesterday"%string) (Some 30) (Some "Greed"%string).

(** One winning taker trade and one losing maker trade on the same day. *)
Definition two_trades : list HD.Raw :=
  [ may_trade (Some "0xa1"%string) (float_of_Z 10) true;
    may_trade (Some "0xb2"%string) (float_of_Z (-4)) false ].

(** The trade frame of a load, when it did not raise. *)
Definition trades (r : result (list Merged.Row * list HD.Row))
  : option (list HD.Row) :=
  match r with
  | Ok (_, hd) => Some hd
  | Raise _ => None
  end.

(** The row that [ist_2am] becomes, and the fields its timestamp reads to. *)
Definition ist_2am_row : HD.Row :=
  HD.mkRow ist_2am (Some 1672538400000000000) (Some 1672518600000000000)
           (Some (mkDate 2022 12 31)) fzero false false true.

Definition ist_2am_fields : Fields := mkFields 2023 1 1 2 0.

(** A trade whose timestamp reads [now], and a clock that shows noon of
    2 May 2023 throughout. *)
Definition trade_now : HD.Raw :=
  HD.mkRaw (Some "0xa1"%string) (Some "now"%string)
           (float_of_Z 10) fzero (float_of_Z 100) (Some true).

Definition noon_2_may_2023 : nat -> Z := fun _ => 1683028800000000000.

(** A trade at 06:00 on New Year's Day 1943. *)
Definition war_time_trade : HD.Raw :=
  HD.mkRaw (Some "0xa1"%string) (Some "01-01-1943 06:00"%string)
           fzero fzero fzero (Some true).

Definition war_time_fields : Fields := mkFields 1943 1 1 6 0.

(** The load of the two trades against two sentiment records of their day:
    its summary, its trade frame, the one row of its daily aggregates and
    its sentiment frame. *)
Definition scenario_fg : list FG.Raw := [fear_day; later_same_day].

Definition scenario_merged : list Merged.Row :=
  Eval vm_compute in
    match summary (example_load scenario_fg two_trades) with
    | Some merged => merged
    | None => []
    end.

Definition scenario_hd : list HD.Row :=
  Eval vm_compute in
    match trades (example_load scenario_fg two_trades) with
    | Some hd => hd
    | None => []
    end.

Definition scenario_row : Daily.Row :=
  Eval vm_compute in
    match scenario_merged with
    | m :: _ => Merged.stats m
    | [] => with_ratios (aggregate plain_sum plain_mean (mkDate 1 1 1) [])
    end.

Definition scenario_summary_row : Merged.Row :=
  Eval vm_compute in
    match scenario_merged with
    | m :: _ => m
    | [] => Merged.mkRow scenario_row None None EmptyString
    end.

Definition scenario_sentiment : list FG.Row :=
  Eval vm_compute in
    match process_fear_greed parse_iso_date scenario_fg with
    | Ok fg => fg
    | Raise _ => []
    end.

(** Wins and losses of a day next to its [Total_Trades]. *)
Definition decided_and_total (m : Merged.Row) : Z * Z :=
  (Daily.Winning_Trades (Daily.agg (Merged.stats m))
   + Daily.Losing_Trades (Daily.agg (Merged.stats m)),
   Daily.Total_Trades (Daily.agg (Merged.stats m))).

(* ================================================================== *)
(** * The page around the load *)
(* ================================================================== *)

(** The options of the sidebar multiselect, which are also its default. *)
Definition regime_options : list string :=
  ["Fear"%string; "Neutral"%string; "Greed"%string].

(** [Series.isin]. *)
Definition isin (x : string) (values : list string) : bool :=
  existsb (String.eqb x) values.

(** [df_merged[df_merged['Regime'].isin(regime_filter)]]. *)
Definition filter_regimes (regime_filter : list string)
           (df_merged : list Merged.Row) : list Merged.Row :=
  filter (fun r => isin (Merged.Regime r) regime_filter) df_merged.

(** What a run of the script ends in: the load error and a stop, the
    warning for an empty selection and a stop, or the dashboard, of which
    the filtered table and the "Selected Days" figure are kept here (the
    other figures and the charts are drawn from the same table). *)
Inductive page : Type :=
| ErrorShown (e : exn)
| WarningShown
| Dashboard (filtered_df : list Merged.Row) (selected_days : nat).

Section Page.
Variable parse_date : string -> option CalendarDate.
Variable clock : nat -> Z.
Variable group_sum : list float -> float.
Variable group_mean : list float -> float.

(** The script from the load to the filtered table, on the two files as
    read and the selection made in the sidebar. *)
Definition run_page (df_fg : list FG.Raw) (df_hd : list HD.Raw)
           (regime_filter : list string) : page :=
  match load_and_preprocess_data parse_date clock group_sum group_mean
                                 df_fg df_hd with
  | Raise e => ErrorShown e
  | Ok (df_merged, _) =>
      match regime_filter with
      | [] => WarningShown
      | _ :: _ =>
          let filtered_df := filter_regimes regime_filter df_merged in
          Dashboard filtered_df (length filtered_df)
      end
  end.
End Page.

(* ================================================================== *)
(** * Notions for the properties of the whole frame *)
(* ================================================================== *)

(** A trade that has a date, and one that has an account. *)
Definition has_date (r : HD.Row) : bool :=
  match HD.Date r with Some _ => true | None => false end.

Definition has_account (r : HD.Row) : bool :=
  match HD.Account (HD.raw r) with Some _ => true | None => false end.

Definition sum_Z (l : list Z) : Z := fold_right Z.add 0 l.

(** The sum of a count column over the days. *)
Definition column_total (col : Daily.Agg -> Z) (daily : list Daily.Row) : Z :=
  sum_Z (map (fun r => col (Daily.agg r)) daily).

(** The date of the trade is among the keys. *)
Definition in_keys (ks : list CalendarDate) (r : HD.Row) : bool :=
  match HD.Date r with
  | Some d => mem date_eqb d ks
  | None => false
  end.

(** Two rows of daily aggregates with the same date, counts and ratios
    (the two float columns left aside), and two rows of the summary that
    agree on these and on what the sentiment record gives. *)
Definition same_counts (a b : Daily.Row) : Prop :=
  Daily.Date (Daily.agg a) = Daily.Date (Daily.agg b)
  /\ Daily.Total_Trades (Daily.agg a) = Daily.Total_Trades (Daily.agg b)
  /\ Daily.Unique_Accounts (Daily.agg a) = Daily.Unique_Accounts (Daily.agg b)
  /\ Daily.Winning_Trades (Daily.agg a) = Daily.Winning_Trades (Daily.agg b)
  /\ Daily.Losing_Trades (Daily.agg a) = Daily.Losing_Trades (Daily.agg b)
  /\ Daily.Taker_Trades (Daily.agg a) = Daily.Taker_Trades (Daily.agg b)
  /\ Daily.Win_Rate a = Daily.Win_Rate b
  /\ Daily.Taker_Ratio a = Daily.Taker_Ratio b.

Definition same_summary (a b : Merged.Row) : Prop :=
  same_counts (Merged.stats a) (Merged.stats b)
  /\ Merged.value a = Merged.value b
  /\ Merged.classification a = Merged.classification b
  /\ Merged.Regime a = Merged.Regime b.

(** A text of ASCII characters.  *)
Definition is_ascii (s : string) : bool :=
  forallb (fun c => (nat_of_ascii c <? 128)%nat) (list_ascii_of_string s).

(** A timestamp text that the reader refuses: it is not one of the texts
    read as missing or as the time of the clock, and the format does not
    match it or the day it names does not exist.  (The texts meant are
    those of ASCII characters, the ones read here as the library does.) *)
Definition refused (s : string) : bool :=
  is_ascii s && negb (is_nat_string s) && negb (reads_clock s)
  && match strptime s with
     | Some _ => false
     | None => true
     end.

(** No timestamp text of the trade file is read as the time of the clock. *)
Definition clock_free (df_hd : list HD.Raw) : Prop :=
  forall t s,
    In t df_hd -> HD.Timestamp_IST t = Some s -> reads_clock s = false.

(** One step of the calendar inside the 400-year era, to check by
    computation that the next day number is a later date. *)
Definition era_step_check (i j : Z) : bool :=
  let doe := 366 * i + j in
  if doe <? 146096
  then date_ltb (civil_of_doe 0 doe) (civil_of_doe 0 (doe + 1))
  else true.

(** A trade whose timestamp has the year first. *)
Definition iso_order_trade : HD.Raw :=
  HD.mkRaw (Some "0xa1"%string) (Some "2023-05-01 12:00"%string)
           fzero fzero fzero (Some true).

(** The two trades in the other order, and the rows they become. *)
Definition two_trades_swapped : list HD.Raw :=
  [ may_trade (Some "0xb2"%string) (float_of_Z (-4)) false;
    may_trade (Some "0xa1"%string) (float_of_Z 10) true ].

Definition scenario_win : HD.Row :=
  Eval vm_compute in
    match scenario_hd with
    | t :: _ => t
    | [] => ist_2am_row
    end.

Definition scenario_loss : HD.Row :=
  Eval vm_compute in
    match scenario_hd with
    | _ :: t :: _ => t
    | _ => ist_2am_row
    end.

(* ================================================================== *)
(** * Calendar facts *)
(* ================================================================== *)

Lemma Zrange_In (n : nat) (z : Z) :
  0 <= z < Z.of_nat n -> In z (Zrange n).
Proof.
  intros H. unfold Zrange. apply in_map_iff.
  exists (Z.to_nat z). split; [lia|]. apply in_seq. lia.
Qed.

(** Every day of a 400-year era goes to its day number and back; checked
    by running both directions on each of them. *)
Lemma era_check_all :
  forallb (fun yoe =>
    forallb (fun m =>
      forallb (fun d => era_check yoe m d) (Zrange 32)) (Zrange 13))
    (Zrange 400) = true.
Proof. vm_cast_no_check (@eq_refl bool true). Qed.

Lemma era_check_ok (yoe m d : Z) :
  0 <= yoe < 400 -> 0 <= m < 13 -> 0 <= d < 32 -> era_check yoe m d = true.
Proof.
  intros Hy Hm Hd.
  pose proof era_check_all as H.
  rewrite forallb_forall in H.
  specialize (H yoe (Zrange_In 400 yoe Hy)).
  rewrite forallb_forall in H.
  specialize (H m (Zrange_In 13 m Hm)).
  rewrite forallb_forall in H.
  exact (H d (Zrange_In 32 d Hd)).
Qed.

Lemma date_eqb_eq (a b : CalendarDate) : date_eqb a b = true <-> a = b.
Proof.
  destruct a as [y1 m1 d1], b as [y2 m2 d2]. unfold date_eqb. simpl.
  rewrite !andb_true_iff, !Z.eqb_eq. split.
  - intros [[-> ->] ->]. reflexivity.
  - intros H. injection H as -> -> ->. auto.
Qed.

Lemma is_leap_mod400 (y : Z) : is_leap (y mod 400) = is_leap y.
Proof.
  unfold is_leap.
  rewrite (Z.mod_mod_divide y 400 4) by (exists 100; lia).
  rewrite (Z.mod_mod_divide y 400 100) by (exists 4; lia).
  rewrite Z.mod_mod by lia. reflexivity.
Qed.

Lemma civil_from_days_split (era doe : Z) :
  0 <= doe < 146097 ->
  civil_from_days (era * 146097 + doe - 719468) = civil_of_doe era doe.
Proof.
  intros H. unfold civil_from_days, civil_of_doe.
  replace (era * 146097 + doe - 719468 + 719468) with (doe + era * 146097) by lia.
  rewrite Z.div_add by lia. rewrite (Z.div_small doe 146097) by lia.
  replace (doe + era * 146097 - (0 + era) * 146097) with doe by lia.
  replace (0 + era) with era by lia.
  reflexivity.
Qed.

Lemma civil_of_doe_era (era doe : Z) :
  civil_of_doe era doe =
  mkDate (year (civil_of_doe 0 doe) + era * 400)
         (month (civil_of_doe 0 doe)) (day (civil_of_doe 0 doe)).
Proof.
  unfold civil_of_doe. cbv zeta. simpl year. simpl month. simpl day.
  f_equal. destruct (_ <=? 2); lia.
Qed.

Lemma valid_date_bounds (y m d : Z) :
  valid_date y m d = true -> 1 <= m <= 12 /\ 1 <= d <= 31.
Proof.
  unfold valid_date, days_in_month. rewrite !andb_true_iff, !Z.leb_le.
  intros [[[H1 H2] H3] H4].
  destruct (m =? 2); [destruct (is_leap y)|destruct (_ || _)]; lia.
Qed.

Lemma valid_date_mod400 (y m d : Z) :
  valid_date (y mod 400) m d = valid_date y m d.
Proof.
  unfold valid_date, days_in_month. rewrite is_leap_mod400. reflexivity.
Qed.

(** The date of the day number of a day that exists is that day. *)
Lemma civil_roundtrip (y m d : Z) :
  valid_date y m d = true ->
  civil_from_days (days_from_civil y m d) = mkDate y m d.
Proof.
  intros Hv. destruct (valid_date_bounds _ _ _ Hv) as [Hm Hd].
  unfold days_from_civil. cbv zeta.
  set (y' := if m <=? 2 then y - 1 else y).
  set (era := y' / 400).
  set (yoe := y' - era * 400).
  assert (Hyoe : yoe = y' mod 400).
  { unfold yoe, era. rewrite Z.mod_eq by lia. lia. }
  assert (Hr : 0 <= yoe < 400) by (rewrite Hyoe; apply Z.mod_pos_bound; lia).
  pose proof (era_check_ok yoe m d Hr ltac:(lia) ltac:(lia)) as Hc.
  unfold era_check in Hc.
  assert (Hv' : valid_date (if m <=? 2 then yoe + 1 else yoe) m d = true).
  { rewrite <- valid_date_mod400, <- Hv. rewrite <- (valid_date_mod400 y).
    f_equal. subst y'. rewrite Hyoe.
    destruct (m <=? 2).
    - rewrite Zplus_mod_idemp_l. f_equal. lia.
    - rewrite Z.mod_mod by lia. reflexivity. }
  rewrite Hv' in Hc.
  apply andb_true_iff in Hc as [Hc He].
  apply andb_true_iff in Hc as [Hlo Hhi].
  apply Z.leb_le in Hlo. apply Z.ltb_lt in Hhi.
  apply date_eqb_eq in He.
  fold (doe_of_civil yoe m d).
  rewrite civil_from_days_split by lia.
  rewrite civil_of_doe_era, He. simpl.
  f_equal. subst yoe y'. destruct (m <=? 2); lia.
Qed.

(* ================================================================== *)
(** * What the timestamp format yields *)
(* ================================================================== *)

Lemma in_bind {A B} (p : matcher A) (k : A -> matcher B) s b r :
  In (b, r) (bind p k s) <->
  exists a r', In (a, r') (p s) /\ In (b, r) (k a r').
Proof.
  unfold bind. rewrite in_flat_map. split.
  - intros [[a r'] [H1 H2]]. exists a, r'. auto.
  - intros (a & r' & H1 & H2). exists (a, r'). auto.
Qed.

Lemma in_alt {A} (p q : matcher A) s x :
  In x (alt p q s) <-> In x (p s) \/ In x (q s).
Proof. unfold alt. apply in_app_iff. Qed.

Lemma in_range_bounds lo hi c :
  in_range lo hi c = true -> lo <= digit_val c <= hi.
Proof.
  unfold in_range. rewrite !andb_true_iff, !Z.leb_le. tauto.
Qed.

Lemma in_one lo hi s v r :
  In (v, r) (one lo hi s) -> lo <= v <= hi.
Proof.
  unfold one. destruct s as [|c s']; [intros []|].
  destruct (in_range lo hi c) eqn:E; cbn [In]; [|tauto].
  intros [H|[]]. injection H as <- _. now apply in_range_bounds.
Qed.

Lemma in_two lo1 hi1 lo2 hi2 s v r :
  In (v, r) (two lo1 hi1 lo2 hi2 s) ->
  10 * lo1 + lo2 <= v <= 10 * hi1 + hi2.
Proof.
  unfold two. destruct s as [|c1 [|c2 s']]; try (intros []).
  destruct (in_range lo1 hi1 c1) eqn:E1, (in_range lo2 hi2 c2) eqn:E2;
    cbn [andb In]; try tauto.
  intros [H|[]].
  assert (Hv : 10 * digit_val c1 + digit_val c2 = v) by congruence.
  apply in_range_bounds in E1. apply in_range_bounds in E2. lia.
Qed.

Lemma re_H_bounds s v r : In (v, r) (re_H s) -> 0 <= v <= 23.
Proof.
  unfold re_H. rewrite !in_alt.
  intros [H|[H|H]]; [apply in_two in H|apply in_two in H|apply in_one in H]; lia.
Qed.

Lemma re_M_bounds s v r : In (v, r) (re_M s) -> 0 <= v <= 59.
Proof.
  unfold re_M. rewrite !in_alt.
  intros [H|H]; [apply in_two in H|apply in_one in H]; lia.
Qed.

Lemma re_format_clock s f r :
  In (f, r) (re_format s) ->
  0 <= f_hour f <= 23 /\ 0 <= f_minute f <= 59.
Proof.
  unfold re_format. intros H.
  repeat (apply in_bind in H; destruct H as (? & ? & ? & H)).
  unfold ret in H. destruct H as [H|[]]. injection H as <- _. simpl.
  split; [eapply re_H_bounds|eapply re_M_bounds]; eassumption.
Qed.

Lemma strptime_sound s f :
  strptime s = Some f ->
  valid_date (f_year f) (f_month f) (f_day f) = true
  /\ 1 <= f_year f
  /\ 0 <= f_hour f <= 23 /\ 0 <= f_minute f <= 59.
Proof.
  unfold strptime.
  destruct (re_format s) as [|[f' r] l] eqn:E; [discriminate|].
  destruct (_ && _) eqn:Ev; [|discriminate].
  intros H. injection H as <-.
  apply andb_true_iff in Ev as [Ev Hv]. apply andb_true_iff in Ev as [_ Hy].
  apply Z.leb_le in Hy.
  assert (Hin : In (f', r) (re_format s)) by (rewrite E; left; reflexivity).
  apply re_format_clock in Hin. tauto.
Qed.

(* ================================================================== *)
(** * Columns converted cell by cell *)
(* ================================================================== *)

Lemma traverse_In {A B} (f : A -> result B) l l' b :
  traverse f l = Ok l' -> In b l' -> exists a, In a l /\ f a = Ok b.
Proof.
  revert l'. induction l as [|a l IH]; simpl; intros l' H Hin.
  - injection H as <-. destruct Hin.
  - destruct (f a) as [b0|] eqn:Ea; simpl in H; [|discriminate].
    destruct (traverse f l) as [bs|] eqn:Et; simpl in H; [|discriminate].
    injection H as <-. destruct Hin as [<-|Hin].
    + exists a. auto.
    + destruct (IH bs eq_refl Hin) as (a' & Ha & Hf). exists a'. auto.
Qed.

Lemma traverse_In_inv {A B} (f : A -> result B) l l' a :
  traverse f l = Ok l' -> In a l -> exists b, In b l' /\ f a = Ok b.
Proof.
  revert l'. induction l as [|a0 l IH]; simpl; intros l' H Hin; [destruct Hin|].
  destruct (f a0) as [b0|] eqn:Ea; simpl in H; [|discriminate].
  destruct (traverse f l) as [bs|] eqn:Et; simpl in H; [|discriminate].
  injection H as <-. destruct Hin as [<-|Hin].
  - exists b0. simpl; auto.
  - destruct (IH bs eq_refl Hin) as (b & Hb & Hf). exists b. simpl; auto.
Qed.

Lemma enumerate_from_In {A} (i : nat) (l : list A) (ia : nat * A) :
  In ia (enumerate_from i l) -> In (snd ia) l.
Proof.
  revert i. induction l as [|a l IH]; simpl; intros i H; [exact H|].
  destruct H as [<-|H]; [left; reflexivity|right; eapply IH; exact H].
Qed.

Lemma enumerate_In {A} (l : list A) (ia : nat * A) :
  In ia (enumerate l) -> In (snd ia) l.
Proof. apply enumerate_from_In. Qed.

Lemma enumerate_from_In_inv {A} (i : nat) (l : list A) (a : A) :
  In a l -> exists k, In (k, a) (enumerate_from i l).
Proof.
  revert i. induction l as [|a0 l IH]; simpl; intros i H; [destruct H|].
  destruct H as [->|H]; [exists i; left; reflexivity|].
  destruct (IH (S i) H) as [k Hk]. exists k. right. exact Hk.
Qed.

(** Reading the whole column and then deriving the other columns returns
    what doing both row by row returns; only which exception comes first
    can differ. *)
Lemma process_traders_from (clock : nat -> Z) (i : nat) (df_hd : list HD.Raw)
      (hd : list HD.Row) :
  (ist <- traverse (fun ir => to_datetime_ist (clock (fst ir))
                                              (HD.Timestamp_IST (snd ir)))
                   (enumerate_from i df_hd) ;;
   traverse (fun ri => with_utc (fst ri) (snd ri)) (combine df_hd ist)) = Ok hd
  <-> traverse (fun ir => hd_row (clock (fst ir)) (snd ir))
               (enumerate_from i df_hd) = Ok hd.
Proof.
  revert i hd. induction df_hd as [|a df IH]; intros i hd.
  - simpl. tauto.
  - specialize (IH (S i)). cbn [enumerate_from traverse fst snd].
    unfold hd_row at 1.
    destruct (to_datetime_ist (clock i) (HD.Timestamp_IST a)) as [ia|e];
      cbn [rbind]; [|split; discriminate].
    destruct (traverse _ (enumerate_from (S i) df)) as [ists|e] eqn:E1;
      cbn [rbind combine traverse fst snd] in *.
    + destruct (with_utc a ia) as [row|e]; cbn [rbind]; [|split; discriminate].
      destruct (traverse (fun ri => with_utc (fst ri) (snd ri)) (combine df ists))
        as [rows|e] eqn:E2;
        destruct (traverse (fun ir => hd_row (clock (fst ir)) (snd ir))
                           (enumerate_from (S i) df)) as [rows'|e'] eqn:E3;
        cbn [rbind].
      * pose proof (proj1 (IH rows) eq_refl) as H.
        assert (rows' = rows) by congruence. subst. tauto.
      * pose proof (proj1 (IH rows) eq_refl) as H. discriminate H.
      * pose proof (proj2 (IH rows') eq_refl) as H. discriminate H.
      * split; discriminate.
    + destruct (with_utc a ia) as [row|e']; cbn [rbind]; [|split; discriminate].
      destruct (traverse (fun ir => hd_row (clock (fst ir)) (snd ir))
                         (enumerate_from (S i) df)) as [rows'|e''] eqn:E3;
        cbn [rbind]; [|split; discriminate].
      pose proof (proj2 (IH rows') eq_refl) as H. discriminate H.
Qed.

Lemma process_traders_rows (clock : nat -> Z) (df_hd : list HD.Raw)
      (hd : list HD.Row) :
  process_traders clock df_hd = Ok hd
  <-> traverse (fun ir => hd_row (clock (fst ir)) (snd ir)) (enumerate df_hd)
      = Ok hd.
Proof. apply process_traders_from. Qed.

Lemma merge_inv (left : list Daily.Row) (k : dtype) (fg : list FG.Row)
      (merged : list Merged.Row) :
  merge left k fg = Ok merged -> merged = merge_inner left fg.
Proof.
  unfold merge.
  destruct k, (dtype_of (map (fun r => FG.Date (FG.dated r)) fg));
    intros H; try discriminate H; injection H as <-; reflexivity.
Qed.

Lemma load_inv parse_date clock gs gm df_fg df_hd merged hd :
  load_and_preprocess_data parse_date clock gs gm df_fg df_hd = Ok (merged, hd) ->
  exists fg,
    process_fear_greed parse_date df_fg = Ok fg
    /\ traverse (fun ir => hd_row (clock (fst ir)) (snd ir)) (enumerate df_hd)
       = Ok hd
    /\ merged = sort_values merged_leb (merge_inner (daily_stats gs gm hd) fg).
Proof.
  unfold load_and_preprocess_data, rbind.
  destruct (process_fear_greed parse_date df_fg) as [fg|]; [|discriminate].
  destruct (process_traders clock df_hd) as [hd'|] eqn:Ehd; [|discriminate].
  destruct (merge _ _ fg) as [m|] eqn:Em; [|discriminate].
  intros H. injection H as <- <-. exists fg.
  split; [reflexivity|]. split; [apply process_traders_rows; exact Ehd|].
  f_equal. eapply merge_inv. exact Em.
Qed.

(** The trade that a row of the frame of a load came from, and the clock
    at which it was read. *)
Lemma load_row parse_date clock gs gm df_fg df_hd merged hd row :
  load_and_preprocess_data parse_date clock gs gm df_fg df_hd = Ok (merged, hd) ->
  In row hd ->
  exists now r, In r df_hd /\ hd_row now r = Ok row.
Proof.
  intros Hload Hin.
  destruct (load_inv _ _ _ _ _ _ _ _ Hload) as (fg & _ & Hhd & _).
  destruct (traverse_In _ _ _ _ Hhd Hin) as (ir & Hir & Hr).
  exists (clock (fst ir)), (snd ir). split; [apply enumerate_In; exact Hir|exact Hr].
Qed.

Lemma to_utc_inv (ist utc : option Z) :
  to_utc ist = Ok utc ->
  match ist with
  | None => utc = None
  | Some local => exists u, utc = Some u /\ tz_localize_convert local = Ok u
  end.
Proof.
  unfold to_utc, rbind. destruct ist as [local|].
  - destruct (tz_localize_convert local) as [u|]; [|discriminate].
    intros H. injection H as <-. eauto.
  - intros H. injection H as <-. reflexivity.
Qed.

Lemma hd_row_inv now r row :
  hd_row now r = Ok row ->
  HD.raw row = r
  /\ to_utc (HD.Timestamp_IST_DT row) = Ok (HD.Timestamp_UTC row)
  /\ HD.Date row = option_map dt_date (HD.Timestamp_UTC row)
  /\ HD.Net_PnL row = fsub (HD.Closed_PnL r) (HD.Fee r)
  /\ HD.Is_Win row = fgt (HD.Net_PnL row) fzero
  /\ HD.Is_Loss row = flt (HD.Net_PnL row) fzero
  /\ HD.Is_Taker row = option_eqb Bool.eqb (HD.Crossed r) (Some true)
  /\ to_datetime_ist now (HD.Timestamp_IST r) = Ok (HD.Timestamp_IST_DT row).
Proof.
  unfold hd_row, with_utc, rbind.
  destruct (to_datetime_ist now (HD.Timestamp_IST r)) as [ist|]; [|discriminate].
  destruct (to_utc ist) as [utc|] eqn:E; [|discriminate].
  intros H. injection H as <-. simpl. repeat split; try reflexivity. exact E.
Qed.

(* ================================================================== *)
(** * The UTC date of a trade *)
(* ================================================================== *)

(** A text that matches the format is none of the texts read otherwise. *)
Lemma strptime_not_special (s : string) (f : Fields) :
  strptime s = Some f -> is_nat_string s = false /\ reads_clock s = false.
Proof.
  intros H. split.
  - destruct (is_nat_string s) eqn:E; [|reflexivity]. exfalso.
    unfold is_nat_string in E. apply orb_true_iff in E as [E|E].
    + apply String.eqb_eq in E. subst s. discriminate H.
    + apply existsb_exists in E as (x & Hx & Ex).
      apply String.eqb_eq in Ex. subst x. unfold nat_strings in Hx.
      cbn [In] in Hx.
      destruct Hx as [<-|[<-|[<-|[<-|[<-|[<-|[]]]]]]]; discriminate H.
  - destruct (reads_clock s) eqn:E; [|reflexivity]. exfalso.
    unfold reads_clock in E. apply orb_true_iff in E as [E|E];
      apply String.eqb_eq in E; subst s; discriminate H.
Qed.

Lemma to_datetime_ist_fields (now : Z) (s : string) (f : Fields) (ist : option Z) :
  strptime s = Some f ->
  to_datetime_ist now (Some s) = Ok ist ->
  ist = Some (naive_ns f) /\ in_bounds (naive_ns f) = true.
Proof.
  intros Hf. destruct (strptime_not_special _ _ Hf) as [Hn Hc].
  unfold to_datetime_ist. rewrite Hn, Hc, Hf.
  destruct (in_bounds (naive_ns f)); [|discriminate].
  intros H. injection H as <-. auto.
Qed.

Lemma date_of_utc (utc : Z) :
  option_map dt_date (Some utc) = Some (civil_from_days (utc / ns_per_day)).
Proof. reflexivity. Qed.

(** The instant that localizing gives shows the given time on the wall
    clock of the zone. *)
Lemma tz_localize_convert_wall (local utc : Z) :
  tz_localize_convert local = Ok utc ->
  local = utc + ns (utcoffset utc) /\ in_bounds utc = true.
Proof.
  unfold tz_localize_convert.
  destruct (filter _ zone_offsets) as [|o [|o' l]] eqn:E; try discriminate.
  destruct (in_bounds (local - ns o)) eqn:Eb; [|discriminate].
  intros H. injection H as <-.
  assert (Hin : In o (filter (fun o => utcoffset (local - ns o) =? o) zone_offsets))
    by (rewrite E; left; reflexivity).
  apply filter_In in Hin as [_ Ho]. apply Z.eqb_eq in Ho.
  rewrite Ho. split; [lia|exact Eb].
Qed.

(** Since 14 October 1945, 17:30 UTC, the zone is at +5:30. *)
Lemma utcoffset_since_1945 (utc : Z) :
  ns (-764145000) <= utc -> utcoffset utc = 19800.
Proof.
  intros H. unfold utcoffset, Asia_Kolkata, offset_in.
  unfold ns, ns_per_second in *.
  repeat match goal with
         | |- context [?a <? ?b] =>
             destruct (Z.ltb_spec a b); [lia|]
         end.
  reflexivity.
Qed.

(** The first wall-clock time from which Indian Standard Time has held
    without a break: 15 October 1945, 00:00. *)
Lemma tz_localize_convert_ist (local : Z) :
  naive_ns IST_since <= local ->
  in_bounds local = true ->
  tz_localize_convert local = Ok (local - ns 19800).
Proof.
  intros Hs Hb.
  assert (Hl : ns (-764145000 + 23400) <= local).
  { etransitivity; [|exact Hs]. vm_compute. discriminate. }
  unfold tz_localize_convert.
  replace zone_offsets with [21208; 21200; 19270; 23400; 19800]
    by (vm_compute; reflexivity).
  cbn [filter].
  rewrite !utcoffset_since_1945 by (unfold ns, ns_per_second in *; lia).
  cbn [Z.eqb Pos.eqb].
  assert (Hb' : in_bounds (local - ns 19800) = true).
  { unfold in_bounds, ns, ns_per_second in *.
    apply andb_true_iff in Hb as [H1 H2].
    apply Z.ltb_lt in H1. apply Z.leb_le in H2.
    apply andb_true_iff. split; [apply Z.ltb_lt|apply Z.leb_le]; lia. }
  rewrite Hb'. reflexivity.
Qed.

(** Crossing midnight: the UTC day of second [k] of a wall-clock day at
    +5:30. *)
Lemma utc_day_shift (days k : Z) :
  0 <= k < 86400 ->
  (ns (days * 86400 + k) - ns 19800) / ns_per_day
  = if k <? 19800 then days - 1 else days.
Proof.
  intros Hk. unfold ns, ns_per_day, ns_per_second.
  destruct (k <? 19800) eqn:E.
  - apply Z.ltb_lt in E. symmetry.
    apply (Z.div_unique _ _ _ ((k + 66600) * 1000000000)); lia.
  - apply Z.ltb_ge in E. symmetry.
    apply (Z.div_unique _ _ _ ((k - 19800) * 1000000000)); lia.
Qed.

(** The UTC day of a wall-clock time at +5:30: its own day from 05:30 on,
    the day before until then. *)
Lemma bucket_of_fields (f : Fields) :
  valid_date (f_year f) (f_month f) (f_day f) = true ->
  0 <= f_hour f <= 23 -> 0 <= f_minute f <= 59 ->
  civil_from_days ((naive_ns f - ns 19800) / ns_per_day)
  = if f_hour f * 60 + f_minute f <? 330
    then day_before (local_date f) else local_date f.
Proof.
  intros Hv Hh Hm. unfold naive_ns.
  replace (days_from_civil (f_year f) (f_month f) (f_day f) * 86400
           + f_hour f * 3600 + f_minute f * 60)
    with (days_from_civil (f_year f) (f_month f) (f_day f) * 86400
          + (f_hour f * 3600 + f_minute f * 60)) by lia.
  rewrite utc_day_shift by lia.
  replace (f_hour f * 3600 + f_minute f * 60 <? 19800)
    with (f_hour f * 60 + f_minute f <? 330).
  2:{ destruct (Z.ltb_spec (f_hour f * 60 + f_minute f) 330),
               (Z.ltb_spec (f_hour f * 3600 + f_minute f * 60) 19800);
        try reflexivity; lia. }
  unfold day_before, local_date. cbn [year month day].
  destruct (_ <? 330).
  - reflexivity.
  - apply civil_roundtrip. exact Hv.
Qed.

(** The times and the date of a row whose text matched the format. *)
Lemma row_of_trade (now : Z) (r : HD.Raw) (row : HD.Row) (s : string)
      (f : Fields) :
  hd_row now r = Ok row ->
  HD.Timestamp_IST r = Some s -> strptime s = Some f ->
  HD.Timestamp_IST_DT row = Some (naive_ns f)
  /\ in_bounds (naive_ns f) = true
  /\ exists utc,
       HD.Timestamp_UTC row = Some utc
       /\ tz_localize_convert (naive_ns f) = Ok utc
       /\ HD.Date row = Some (civil_from_days (utc / ns_per_day)).
Proof.
  intros Hr Hs Hf.
  destruct (hd_row_inv _ _ _ Hr) as (Hraw & Hutc & Hdate & _ & _ & _ & _ & Hist).
  rewrite Hs in Hist.
  destruct (to_datetime_ist_fields _ _ _ _ Hf Hist) as [E Hb].
  split; [exact E|]. split; [exact Hb|].
  rewrite E in Hutc. apply to_utc_inv in Hutc as (u & Hu & Hl).
  exists u. split; [exact Hu|]. split; [exact Hl|].
  rewrite Hdate, Hu. apply date_of_utc.
Qed.

(** C1: the timestamp read from [Timestamp IST] is taken as a wall-clock
    time of the zone [Asia/Kolkata] and moved to UTC before the date is read
    off: for every trade of a load the date is the date of the UTC instant
    of the row, and (from 1906 on, since when the offsets of the zone are
    whole minutes) the wall clock of the zone at that instant shows the time
    that was read.  For a wall-clock time from 15 October 1945 on, the zone
    is at +5:30: the instant is 5 hours 30 minutes earlier, and the date is
    the wall-clock day from 05:30 on and the day before it earlier in the
    day.  In particular the trade at 01-01-2023 02:00 falls on 2022-12-31,
    not on 2023-01-01. *)
Theorem utc_bucket_date :
  (forall parse_date clock gs gm df_fg df_hd merged hd row s f,
      load_and_preprocess_data parse_date clock gs gm df_fg df_hd
      = Ok (merged, hd) ->
      In row hd ->
      HD.Timestamp_IST (HD.raw row) = Some s ->
      strptime s = Some f ->
      HD.Timestamp_IST_DT row = Some (naive_ns f)
      /\ (exists utc,
             HD.Timestamp_UTC row = Some utc
             /\ HD.Date row = Some (civil_from_days (utc / ns_per_day))
             /\ (naive_ns whole_minutes_since <= naive_ns f ->
                 naive_ns f = utc + ns (utcoffset utc)))
      /\ (naive_ns IST_since <= naive_ns f ->
          HD.Timestamp_UTC row = Some (naive_ns f - ns 19800)
          /\ HD.Date row
             = Some (civil_from_days ((naive_ns f - ns 19800) / ns_per_day))
          /\ HD.Date row =
               Some (if f_hour f * 60 + f_minute f <? 330
                     then day_before (local_date f) else local_date f)))
  /\ (forall now,
        hd_row now ist_2am = Ok ist_2am_row
        /\ HD.Date ist_2am_row = Some (mkDate 2022 12 31)
        /\ HD.Date ist_2am_row <> Some (mkDate 2023 1 1)).
Proof.
  split.
  - intros parse_date clock gs gm df_fg df_hd merged hd row s f Hload Hin Hs Hf.
    destruct (load_row _ _ _ _ _ _ _ _ _ Hload Hin) as (now & r & _ & Hr).
    assert (Hraw : HD.raw row = r) by (apply hd_row_inv in Hr; tauto).
    rewrite Hraw in Hs.
    destruct (row_of_trade _ _ _ _ _ Hr Hs Hf)
      as (Hist & Hb & utc & Hutc & Hl & Hdate).
    split; [exact Hist|]. split.
    + exists utc. split; [exact Hutc|]. split; [exact Hdate|].
      intros _. apply tz_localize_convert_wall in Hl. tauto.
    + intros Hsince.
      rewrite (tz_localize_convert_ist _ Hsince Hb) in Hl.
      assert (E : utc = naive_ns f - ns 19800) by congruence. subst utc.
      split; [exact Hutc|]. split; [exact Hdate|].
      rewrite Hdate. f_equal.
      destruct (strptime_sound _ _ Hf) as (Hv & _ & Hh & Hm).
      apply bucket_of_fields; assumption.
  - intros now.
    split; [vm_compute; reflexivity|]. split; [reflexivity|].
    intros H. discriminate H.
Qed.

(* ================================================================== *)
(** * Order on dates *)
(* ================================================================== *)

Lemma date_ltb_lex (a b : CalendarDate) :
  date_ltb a b = true <->
  year a < year b
  \/ (year a = year b
      /\ (month a < month b \/ (month a = month b /\ day a < day b))).
Proof.
  unfold date_ltb.
  rewrite !orb_true_iff, !andb_true_iff, !orb_true_iff, !andb_true_iff.
  rewrite !Z.ltb_lt, !Z.eqb_eq. tauto.
Qed.

Lemma date_leb_lex (a b : CalendarDate) :
  date_leb a b = true <-> ~ date_lt b a.
Proof.
  unfold date_leb, date_lt. rewrite negb_true_iff.
  destruct (date_ltb b a); split; congruence.
Qed.

Lemma date_leb_total (a b : CalendarDate) :
  date_leb a b = true \/ date_leb b a = true.
Proof.
  rewrite !date_leb_lex. unfold date_lt. rewrite !date_ltb_lex. lia.
Qed.

Lemma date_leb_trans (a b c : CalendarDate) :
  date_leb a b = true -> date_leb b c = true -> date_leb a c = true.
Proof.
  rewrite !date_leb_lex. unfold date_lt. rewrite !date_ltb_lex. lia.
Qed.

Lemma date_leb_lt_or_eq (a b : CalendarDate) :
  date_leb a b = true -> a <> b -> date_ltb a b = true.
Proof.
  rewrite date_leb_lex. unfold date_lt. rewrite !date_ltb_lex.
  intros H Hne.
  destruct a as [y1 m1 d1], b as [y2 m2 d2]. simpl in *.
  assert (~ (y1 = y2 /\ m1 = m2 /\ d1 = d2))
    by (intros (-> & -> & ->); apply Hne; reflexivity).
  lia.
Qed.

Lemma date_ltb_leb (a b : CalendarDate) :
  date_ltb a b = true -> date_leb a b = true.
Proof.
  rewrite date_leb_lex. unfold date_lt. rewrite !date_ltb_lex. lia.
Qed.

Lemma option_date_eqb_eq (x y : option CalendarDate) :
  option_eqb date_eqb x y = true <-> x = y.
Proof.
  destruct x as [a|], y as [b|]; simpl; try (split; congruence).
  rewrite date_eqb_eq. split; congruence.
Qed.

(* ================================================================== *)
(** * [drop_duplicates] *)
(* ================================================================== *)

Section FramesFacts.
Context {A K : Type}.
Variable eqb : K -> K -> bool.
Variable key : A -> K.
Hypothesis eqb_eq : forall a b, eqb a b = true <-> a = b.

Lemma mem_In (k : K) (seen : list K) : mem eqb k seen = true <-> In k seen.
Proof.
  unfold mem. rewrite existsb_exists. split.
  - intros (x & Hx & He). apply eqb_eq in He. congruence.
  - intros H. exists k. split; [exact H|]. now apply eqb_eq.
Qed.

Lemma drop_duplicates_from_keys (seen : list K) (df : list A) (k : K) :
  In k (map key (drop_duplicates_from eqb key seen df)) <->
  In k (map key df) /\ ~ In k seen.
Proof.
  revert seen. induction df as [|r rest IH]; intros seen; simpl.
  - tauto.
  - destruct (mem eqb (key r) seen) eqn:E.
    + apply mem_In in E. rewrite IH. split.
      * tauto.
      * intros [[Heq|H] Hn]; [subst k; tauto|tauto].
    + assert (Hn : ~ In (key r) seen)
        by (rewrite <- mem_In; congruence).
      simpl. rewrite IH. simpl. split.
      * intros [Heq|[H1 H2]]; [subst k; tauto|tauto].
      * intros [[Heq|H] Hs]; [tauto|].
        destruct (eqb (key r) k) eqn:Ek.
        -- apply eqb_eq in Ek. tauto.
        -- right. split; [exact H|]. intros [Heq|Hin]; [|tauto].
           apply eqb_eq in Heq. congruence.
Qed.

Lemma drop_duplicates_from_NoDup (seen : list K) (df : list A) :
  NoDup (map key (drop_duplicates_from eqb key seen df)).
Proof.
  revert seen. induction df as [|r rest IH]; intros seen; simpl.
  - constructor.
  - destruct (mem eqb (key r) seen); [apply IH|].
    simpl. constructor; [|apply IH].
    rewrite drop_duplicates_from_keys. simpl. tauto.
Qed.

(** A row is kept iff it is the first of the frame with its key (and the
    key was not seen before). *)
Lemma drop_duplicates_from_first (seen : list K) (df : list A) (r : A) :
  In r (drop_duplicates_from eqb key seen df) ->
  exists pre post,
    df = pre ++ r :: post
    /\ ~ In (key r) (map key pre) /\ ~ In (key r) seen.
Proof.
  revert seen. induction df as [|r0 rest IH]; intros seen; simpl.
  - tauto.
  - destruct (mem eqb (key r0) seen) eqn:E.
    + intros H. destruct (IH _ H) as (pre & post & -> & Hp & Hs).
      exists (r0 :: pre), post. simpl. repeat split; [|exact Hs].
      intros [Heq|Hin]; [|tauto].
      apply mem_In in E. congruence.
    + intros [<-|H].
      * exists [], rest. simpl. repeat split; [tauto|].
        rewrite <- mem_In. congruence.
      * destruct (IH _ H) as (pre & post & -> & Hp & Hs).
        exists (r0 :: pre), post. simpl in *. repeat split; tauto.
Qed.

Lemma drop_duplicates_from_keeps (seen : list K) (pre post : list A) (r : A) :
  ~ In (key r) (map key pre) -> ~ In (key r) seen ->
  In r (drop_duplicates_from eqb key seen (pre ++ r :: post)).
Proof.
  revert seen. induction pre as [|r0 pre IH]; intros seen Hp Hs; simpl.
  - destruct (mem eqb (key r) seen) eqn:E; [|left; reflexivity].
    apply mem_In in E. tauto.
  - simpl in Hp.
    destruct (mem eqb (key r0) seen); [apply IH; tauto|].
    right. apply IH; [tauto|]. simpl. intros [Heq|Hin]; [|tauto].
    apply Hp. left. exact Heq.
Qed.

Lemma drop_duplicates_keys (df : list A) (k : K) :
  In k (map key (drop_duplicates eqb key df)) <-> In k (map key df).
Proof.
  unfold drop_duplicates. rewrite drop_duplicates_from_keys. simpl. tauto.
Qed.

Lemma drop_duplicates_NoDup (df : list A) :
  NoDup (map key (drop_duplicates eqb key df)).
Proof. apply drop_duplicates_from_NoDup. Qed.

Lemma drop_duplicates_first (df : list A) (r : A) :
  In r (drop_duplicates eqb key df) <->
  exists pre post, df = pre ++ r :: post /\ ~ In (key r) (map key pre).
Proof.
  unfold drop_duplicates. split.
  - intros H. destruct (drop_duplicates_from_first _ _ _ H)
      as (pre & post & E & Hp & _). eauto.
  - intros (pre & post & -> & Hp).
    apply drop_duplicates_from_keeps; simpl; tauto.
Qed.

Lemma filter_absent_key (k : K) (l : list A) :
  ~ In k (map key l) -> filter (fun r => eqb (key r) k) l = [].
Proof.
  induction l as [|a l IH]; simpl; intros Hn; [reflexivity|].
  destruct (eqb (key a) k) eqn:E.
  - apply eqb_eq in E. tauto.
  - apply IH. tauto.
Qed.

(** The rows of a frame with unique keys that carry a given key: at most
    one. *)
Lemma filter_unique_key (k : K) (l : list A) :
  NoDup (map key l) ->
  filter (fun r => eqb (key r) k) l = []
  \/ exists r, filter (fun r => eqb (key r) k) l = [r].
Proof.
  induction l as [|a l IH]; simpl; intros Hnd; [left; reflexivity|].
  inversion Hnd as [|? ? Hnotin Hnd']; subst.
  destruct (eqb (key a) k) eqn:E.
  - right. exists a. apply eqb_eq in E. subst k.
    rewrite filter_absent_key by exact Hnotin. reflexivity.
  - apply IH. exact Hnd'.
Qed.
End FramesFacts.

(* ================================================================== *)
(** * [sort_values] *)
(* ================================================================== *)

Section SortingFacts.
Context {A : Type}.
Variable leb : A -> A -> bool.
Hypothesis leb_total : forall a b, leb a b = true \/ leb b a = true.
Hypothesis leb_trans :
  forall a b c, leb a b = true -> leb b c = true -> leb a c = true.

Let le (a b : A) : Prop := leb a b = true.

Lemma insert_sorted_perm (x : A) (l : list A) :
  Permutation (insert_sorted leb x l) (x :: l).
Proof.
  induction l as [|y r IH]; simpl; [reflexivity|].
  destruct (leb x y); [reflexivity|].
  rewrite IH. apply perm_swap.
Qed.

Lemma sort_values_perm (l : list A) : Permutation (sort_values leb l) l.
Proof.
  induction l as [|x r IH]; simpl; [reflexivity|].
  rewrite insert_sorted_perm. now constructor.
Qed.

Lemma insert_sorted_sorted (x : A) (l : list A) :
  StronglySorted le l -> StronglySorted le (insert_sorted leb x l).
Proof.
  induction l as [|y r IH]; simpl; intros Hs.
  - repeat constructor.
  - inversion Hs as [|? ? Hr Hall]; subst.
    destruct (leb x y) eqn:E.
    + constructor; [exact Hs|]. constructor; [exact E|].
      eapply Forall_impl; [|exact Hall]. intros a Ha. eapply leb_trans; eauto.
    + constructor; [apply IH; exact Hr|].
      assert (Hyx : le y x) by (destruct (leb_total x y); [congruence|assumption]).
      eapply Permutation_Forall; [symmetry; apply insert_sorted_perm|].
      constructor; assumption.
Qed.

Lemma sort_values_sorted (l : list A) : StronglySorted le (sort_values leb l).
Proof.
  induction l as [|x r IH]; simpl; [constructor|].
  apply insert_sorted_sorted. exact IH.
Qed.

(** A frame already in order is left as it is. *)
Lemma sort_values_id (l : list A) :
  StronglySorted le l -> sort_values leb l = l.
Proof.
  induction l as [|x r IH]; simpl; intros Hs; [reflexivity|].
  inversion Hs as [|? ? Hr Hall]; subst.
  rewrite IH by exact Hr.
  destruct r as [|y r']; simpl; [reflexivity|].
  inversion Hall as [|? ? Hxy _]; subst. unfold le in Hxy. now rewrite Hxy.
Qed.
End SortingFacts.

(* ================================================================== *)
(** * The group keys *)
(* ================================================================== *)

Lemma dropna_In {A} (col : list (option A)) (a : A) :
  In a (dropna col) <-> In (Some a) col.
Proof.
  induction col as [|[b|] r IH]; simpl.
  - tauto.
  - rewrite IH. split; intros [H|H]; auto; left; congruence.
  - rewrite IH. split; [auto|]. intros [H|H]; [discriminate|exact H].
Qed.

Lemma sorted_le_NoDup_lt (l : list CalendarDate) :
  StronglySorted date_le l -> NoDup l -> StronglySorted date_lt l.
Proof.
  induction 1 as [|a l Hs IH Hall]; intros Hnd; constructor.
  - apply IH. now inversion Hnd.
  - inversion Hnd as [|? ? Hnotin _]; subst.
    rewrite Forall_forall in *. intros b Hb.
    apply date_leb_lt_or_eq; [apply Hall; exact Hb|].
    intros ->. contradiction.
Qed.

Lemma unique_In {A} (eqb : A -> A -> bool)
      (eqb_eq : forall a b, eqb a b = true <-> a = b) (l : list A) (a : A) :
  In a (drop_duplicates eqb (fun x => x) l) <-> In a l.
Proof.
  pose proof (drop_duplicates_keys eqb (fun x => x) eqb_eq l a) as H.
  rewrite !map_id in H. exact H.
Qed.

Lemma unique_NoDup {A} (eqb : A -> A -> bool)
      (eqb_eq : forall a b, eqb a b = true <-> a = b) (l : list A) :
  NoDup (drop_duplicates eqb (fun x => x) l).
Proof.
  pose proof (drop_duplicates_NoDup eqb (fun x => x) eqb_eq l) as H.
  rewrite map_id in H. exact H.
Qed.

Lemma group_keys_In (hd : list HD.Row) (d : CalendarDate) :
  In d (group_keys hd) <-> exists row, In row hd /\ HD.Date row = Some d.
Proof.
  unfold group_keys.
  assert (Hp := sort_values_perm date_leb
    (drop_duplicates date_eqb (fun d => d) (dropna (map HD.Date hd)))).
  assert (Hk : In d (drop_duplicates date_eqb (fun d => d) (dropna (map HD.Date hd)))
               <-> exists row, In row hd /\ HD.Date row = Some d).
  { rewrite (unique_In date_eqb date_eqb_eq), dropna_In, in_map_iff.
    split; intros (row & H1 & H2); eauto. }
  rewrite <- Hk.
  split; apply Permutation_in; [exact Hp|symmetry; exact Hp].
Qed.

Lemma group_keys_sorted (hd : list HD.Row) :
  StronglySorted date_lt (group_keys hd).
Proof.
  unfold group_keys. apply sorted_le_NoDup_lt.
  - apply sort_values_sorted; [apply date_leb_total|apply date_leb_trans].
  - eapply Permutation_NoDup.
    + symmetry. apply sort_values_perm.
    + apply unique_NoDup, date_eqb_eq.
Qed.

(* ================================================================== *)
(** * The inner join *)
(* ================================================================== *)

Section JoinFacts.
Variable group_sum group_mean : list float -> float.

Lemma daily_stats_dates (hd : list HD.Row) :
  map daily_date (daily_stats group_sum group_mean hd) = group_keys hd.
Proof.
  unfold daily_stats. rewrite map_map. simpl. apply map_id.
Qed.

Lemma merge_inner_In (left : list Daily.Row) (fg : list FG.Row) (m : Merged.Row) :
  In m (merge_inner left fg) <->
  exists l r, In l left /\ In r fg
              /\ fg_date r = Some (daily_date l) /\ m = join l r.
Proof.
  unfold merge_inner. rewrite in_flat_map. split.
  - intros (l & Hl & Hm). apply in_map_iff in Hm as (r & <- & Hr).
    apply filter_In in Hr as [Hr E]. apply option_date_eqb_eq in E.
    exists l, r. auto.
  - intros (l & r & Hl & Hr & E & ->). exists l. split; [exact Hl|].
    apply in_map. apply filter_In. split; [exact Hr|].
    apply option_date_eqb_eq. exact E.
Qed.

Lemma merge_inner_dates (left : list Daily.Row) (fg : list FG.Row) (d : CalendarDate) :
  In d (map Merged.Date (merge_inner left fg)) <->
  In d (map daily_date left) /\ In (Some d) (map fg_date fg).
Proof.
  rewrite !in_map_iff. split.
  - intros (m & <- & Hm). apply merge_inner_In in Hm as (l & r & Hl & Hr & E & ->).
    split; [exists l|exists r]; auto.
  - intros [(l & <- & Hl) (r & E & Hr)].
    exists (join l r). split; [reflexivity|].
    apply merge_inner_In. exists l, r. auto.
Qed.

Lemma merge_inner_sorted (left : list Daily.Row) (fg : list FG.Row) :
  NoDup (map fg_date fg) ->
  StronglySorted date_lt (map daily_date left) ->
  StronglySorted date_lt (map Merged.Date (merge_inner left fg)).
Proof.
  intros Hnd. induction left as [|l left IH]; simpl; intros Hs; [constructor|].
  inversion Hs as [|? ? Hs' Hall]; subst.
  rewrite map_app, map_map. simpl.
  change (fun x : FG.Row => Daily.Date (Daily.agg l)) with (fun _ : FG.Row => daily_date l).
  assert (Hrest : Forall (date_lt (daily_date l))
                    (map Merged.Date (merge_inner left fg))).
  { rewrite Forall_forall in *. intros d Hd.
    apply merge_inner_dates in Hd as [Hd _]. apply Hall. exact Hd. }
  destruct (filter_unique_key (option_eqb date_eqb) fg_date
              option_date_eqb_eq (Some (daily_date l)) fg Hnd) as [E|[r E]];
    unfold fg_date, daily_date in *; rewrite E; simpl.
  - apply IH. exact Hs'.
  - constructor; [apply IH; exact Hs'|exact Hrest].
Qed.
End JoinFacts.

Lemma sorted_lt_le (l : list Merged.Row) :
  StronglySorted date_lt (map Merged.Date l) ->
  StronglySorted (fun a b => merged_leb a b = true) l.
Proof.
  induction l as [|a l IH]; simpl; intros Hs; [constructor|].
  inversion Hs as [|? ? Hs' Hall]; subst. constructor; [apply IH; exact Hs'|].
  rewrite Forall_forall in *. intros b Hb.
  apply date_ltb_leb. apply Hall. apply in_map. exact Hb.
Qed.

(* ================================================================== *)
(** * Dates of the sentiment frame *)
(* ================================================================== *)

Section SentimentFacts.
Variable parse_date : string -> option CalendarDate.

Lemma process_fear_greed_inv (df_fg : list FG.Raw) (fg : list FG.Row) :
  process_fear_greed parse_date df_fg = Ok fg ->
  exists dated,
    traverse (fg_with_date parse_date) df_fg = Ok dated
    /\ fg = map fg_with_regime
                (drop_duplicates (option_eqb date_eqb) FG.Date dated).
Proof.
  unfold process_fear_greed, rbind.
  destruct (traverse _ df_fg) as [dated|]; [|discriminate].
  intros H. injection H as <-. eauto.
Qed.

Lemma fg_with_date_inv (r : FG.Raw) (row : FG.Dated) :
  fg_with_date parse_date r = Ok row <->
  FG.raw row = r /\ to_date parse_date (FG.date r) = Ok (FG.Date row).
Proof.
  unfold fg_with_date, rbind. destruct row as [r' d']. simpl.
  destruct (to_date parse_date (FG.date r)) as [d|e].
  - split.
    + intros H. injection H as <- <-. auto.
    + intros [-> H]. injection H as ->. reflexivity.
  - split; [discriminate|]. intros [_ H]. discriminate.
Qed.

Lemma to_date_Some (c : option string) (d : CalendarDate) :
  to_date parse_date c = Ok (Some d) <->
  exists s, c = Some s /\ parse_date s = Some d.
Proof.
  unfold to_date. destruct c as [s|].
  - destruct (parse_date s) as [d'|] eqn:E.
    + split.
      * intros H. injection H as <-. eauto.
      * intros (s' & Hs & Hp). injection Hs as <-. congruence.
    + split; [discriminate|].
      intros (s' & Hs & Hp). injection Hs as <-. congruence.
  - split; [discriminate|]. intros (s' & Hs & _). discriminate.
Qed.

Lemma process_fear_greed_dates (df_fg : list FG.Raw) (fg : list FG.Row)
      (d : CalendarDate) :
  process_fear_greed parse_date df_fg = Ok fg ->
  (In (Some d) (map fg_date fg) <->
   exists r s, In r df_fg /\ FG.date r = Some s /\ parse_date s = Some d).
Proof.
  intros H. destruct (process_fear_greed_inv _ _ H) as (dated & Ht & ->).
  unfold fg_date. rewrite map_map. simpl.
  rewrite (drop_duplicates_keys (option_eqb date_eqb) FG.Date
             option_date_eqb_eq dated (Some d)).
  rewrite in_map_iff. split.
  - intros (row & E & Hin).
    destruct (traverse_In _ _ _ _ Ht Hin) as (r & Hr & Hf).
    apply fg_with_date_inv in Hf as [_ Hf]. rewrite E in Hf.
    apply to_date_Some in Hf as (s & Hs & Hp). eauto.
  - intros (r & s & Hr & Hs & Hp).
    destruct (traverse_In_inv _ _ _ _ Ht Hr) as (row & Hin & Hf).
    exists row. split; [|exact Hin].
    apply fg_with_date_inv in Hf as [_ Hf].
    assert (Hd : to_date parse_date (FG.date r) = Ok (Some d))
      by (apply to_date_Some; eauto).
    congruence.
Qed.

Lemma process_fear_greed_NoDup (df_fg : list FG.Raw) (fg : list FG.Row) :
  process_fear_greed parse_date df_fg = Ok fg -> NoDup (map fg_date fg).
Proof.
  intros H. destruct (process_fear_greed_inv _ _ H) as (dated & _ & ->).
  unfold fg_date. rewrite map_map. simpl.
  apply (drop_duplicates_NoDup (option_eqb date_eqb) FG.Date option_date_eqb_eq).
Qed.
End SentimentFacts.

(** C2: a date is a row of the summary exactly when some normalized trade
    falls on it and some sentiment record carries it (inner join); the rows
    are in strictly ascending order of date, so no date comes twice. *)
Theorem inner_join_on_date parse_date clock group_sum group_mean
        (df_fg : list FG.Raw) (df_hd : list HD.Raw)
        (merged : list Merged.Row) (hd : list HD.Row) :
  load_and_preprocess_data parse_date clock group_sum group_mean df_fg df_hd
  = Ok (merged, hd) ->
  (forall d : CalendarDate,
      In d (map Merged.Date merged) <->
      (exists t, In t hd /\ HD.Date t = Some d)
      /\ (exists r s, In r df_fg /\ FG.date r = Some s /\ parse_date s = Some d))
  /\ StronglySorted date_lt (map Merged.Date merged).
Proof.
  intros Hload. destruct (load_inv _ _ _ _ _ _ _ _ Hload) as (fg & Hfg & Hhd & ->).
  assert (Hs : StronglySorted date_lt
                 (map Merged.Date
                      (merge_inner (daily_stats group_sum group_mean hd) fg))).
  { apply merge_inner_sorted.
    - eapply process_fear_greed_NoDup; eassumption.
    - rewrite daily_stats_dates. apply group_keys_sorted. }
  rewrite sort_values_id by (apply sorted_lt_le; exact Hs).
  split; [|exact Hs].
  intros d. rewrite merge_inner_dates, daily_stats_dates, group_keys_In.
  rewrite (process_fear_greed_dates parse_date df_fg fg d Hfg). tauto.
Qed.

(* ================================================================== *)
(** * Float comparisons with zero *)
(* ================================================================== *)

Lemma fgt_zero (x : float) : fgt x fzero = true <-> positive x.
Proof.
  unfold fgt, fzero, SFltb, positive.
  destruct x as [s|s| |s m e]; try destruct s; simpl;
    split; try discriminate; try (intros [H|(m0 & e0 & H)]; discriminate);
    eauto.
Qed.

Lemma flt_zero (x : float) : flt x fzero = true <-> negative x.
Proof.
  unfold flt, fzero, SFltb, negative.
  destruct x as [s|s| |s m e]; try destruct s; simpl;
    split; try discriminate; try (intros [H|(m0 & e0 & H)]; discriminate);
    eauto.
Qed.

Lemma positive_not_negative (x : float) : positive x -> ~ negative x.
Proof.
  intros [->|(m & e & ->)] [H|(m' & e' & H)]; discriminate.
Qed.

Lemma neither_iff (x : float) :
  ~ positive x /\ ~ negative x <-> is_zero x \/ is_nan x.
Proof.
  unfold positive, negative, is_zero, is_nan.
  destruct x as [s|s| |s m e]; try destruct s; split;
    try (intros [H1 H2]; exfalso; (apply H1 + apply H2); eauto; fail);
    try (intros [[s' H]|H]; discriminate); eauto;
    intros _; split; intros [H|(m0 & e0 & H)]; discriminate.
Qed.

(* ================================================================== *)
(** * Rows of the trade frame *)
(* ================================================================== *)

Lemma traverse_raw_from (clock : nat -> Z) (i : nat) (df_hd : list HD.Raw)
      (hd : list HD.Row) :
  traverse (fun ir => hd_row (clock (fst ir)) (snd ir)) (enumerate_from i df_hd)
  = Ok hd ->
  map HD.raw hd = df_hd.
Proof.
  revert i hd.
  induction df_hd as [|r l IH]; cbn [enumerate_from traverse fst snd];
    intros i hd H.
  - injection H as <-. reflexivity.
  - destruct (hd_row (clock i) r) as [row|] eqn:Er; simpl in H; [|discriminate].
    destruct (traverse _ (enumerate_from (S i) l)) as [rows|] eqn:Et;
      simpl in H; [|discriminate].
    injection H as <-. simpl. f_equal.
    + apply hd_row_inv in Er. tauto.
    + eapply IH. exact Et.
Qed.

Lemma traverse_raw (clock : nat -> Z) (df_hd : list HD.Raw) (hd : list HD.Row) :
  traverse (fun ir => hd_row (clock (fst ir)) (snd ir)) (enumerate df_hd)
  = Ok hd ->
  map HD.raw hd = df_hd.
Proof. apply traverse_raw_from. Qed.

Lemma process_traders_normalized (clock : nat -> Z) (df_hd : list HD.Raw)
      (hd : list HD.Row) :
  traverse (fun ir => hd_row (clock (fst ir)) (snd ir)) (enumerate df_hd)
  = Ok hd ->
  Forall normalized hd.
Proof.
  intros H. apply Forall_forall. intros row Hin.
  destruct (traverse_In _ _ _ _ H Hin) as (r & _ & Hr).
  destruct (hd_row_inv _ _ _ Hr) as (<- & _ & _ & H1 & H2 & H3 & H4 & _).
  unfold normalized. auto.
Qed.

Lemma is_taker_crossed (c : option bool) :
  option_eqb Bool.eqb c (Some true) = true <-> c = Some true.
Proof.
  destruct c as [[|]|]; simpl; split; congruence.
Qed.

(** C7: the trade frame of a load has one row per input row, in order, and
    on each row [Net_PnL] is the binary64 difference [Closed PnL - Fee] with
    no further rounding; [Is_Win] holds iff [Net_PnL > 0], [Is_Loss] iff
    [Net_PnL < 0], and [Is_Taker] iff [Crossed] is [True]. *)
Theorem net_pnl_and_flags parse_date clock group_sum group_mean
        (df_fg : list FG.Raw) (df_hd : list HD.Raw)
        (merged : list Merged.Row) (hd : list HD.Row) :
  load_and_preprocess_data parse_date clock group_sum group_mean df_fg df_hd
  = Ok (merged, hd) ->
  map HD.raw hd = df_hd
  /\ forall t, In t hd ->
       HD.Net_PnL t = SFsub 53 1024 (HD.Closed_PnL (HD.raw t)) (HD.Fee (HD.raw t))
       /\ (HD.Is_Win t = true <-> SFltb (S754_zero false) (HD.Net_PnL t) = true)
       /\ (HD.Is_Win t = true <-> positive (HD.Net_PnL t))
       /\ (HD.Is_Loss t = true <-> SFltb (HD.Net_PnL t) (S754_zero false) = true)
       /\ (HD.Is_Loss t = true <-> negative (HD.Net_PnL t))
       /\ (HD.Is_Taker t = true <-> HD.Crossed (HD.raw t) = Some true).
Proof.
  intros Hload. destruct (load_inv _ _ _ _ _ _ _ _ Hload) as (fg & _ & Hhd & _).
  split; [eapply traverse_raw; exact Hhd|].
  intros t Hin.
  pose proof (process_traders_normalized _ _ _ Hhd) as Hn.
  rewrite Forall_forall in Hn. destruct (Hn t Hin) as (H1 & H2 & H3 & H4).
  rewrite H2, H3, H4, fgt_zero, flt_zero, is_taker_crossed.
  repeat split; try tauto; try exact H1.
  - apply fgt_zero.
  - apply fgt_zero.
  - apply flt_zero.
  - apply flt_zero.
Qed.

(* ================================================================== *)
(** * Counting in a group *)
(* ================================================================== *)

Lemma filter_length_le {A} (p : A -> bool) (g : list A) :
  (length (filter p g) <= length g)%nat.
Proof.
  induction g as [|x g IH]; simpl; [lia|]. destruct (p x); simpl; lia.
Qed.

(** Two flags that never hold together split a group in three. *)
Lemma count_split {A} (p q : A -> bool) (g : list A) :
  (forall x, In x g -> p x = true -> q x = false) ->
  (length (filter p g) + length (filter q g)
   + length (filter (fun x => negb (p x) && negb (q x)) g) = length g)%nat.
Proof.
  induction g as [|x g IH]; simpl; intros H; [reflexivity|].
  assert (IH' := IH (fun y Hy => H y (or_intror Hy))).
  pose proof (H x (or_introl eq_refl)) as Hx.
  destruct (p x) eqn:Ep, (q x) eqn:Eq; simpl; try lia.
Qed.

Lemma filter_nonempty {A} (p : A -> bool) (g : list A) :
  (0 < length (filter p g))%nat <-> exists x, In x g /\ p x = true.
Proof.
  split.
  - destruct (filter p g) as [|x l] eqn:E; simpl; [lia|]. intros _.
    exists x. apply filter_In. rewrite E. left. reflexivity.
  - intros (x & Hin & Hp).
    assert (Hf : In x (filter p g)) by (apply filter_In; auto).
    destruct (filter p g); [destruct Hf|simpl; lia].
Qed.

Lemma dropna_length_le {A} (col : list (option A)) :
  (length (dropna col) <= length col)%nat.
Proof.
  induction col as [|[a|] r IH]; simpl; lia.
Qed.

Lemma dropna_length_all {A} (col : list (option A)) :
  (forall c, In c col -> c <> None) -> length (dropna col) = length col.
Proof.
  induction col as [|[a|] r IH]; simpl; intros H; [reflexivity| |].
  - f_equal. apply IH. intros c Hc. apply H. auto.
  - exfalso. apply (H None); auto.
Qed.

Lemma sum_bool_bounds {A} (col : A -> bool) (g : list A) :
  0 <= sum_bool col g <= Z.of_nat (length g).
Proof.
  unfold sum_bool. pose proof (filter_length_le col g). lia.
Qed.

Lemma replace_0_1_max (x : Z) : 0 <= x -> replace_0_1 x = Z.max 1 x.
Proof.
  intros H. unfold replace_0_1. destruct (x =? 0) eqn:E.
  - apply Z.eqb_eq in E. subst. reflexivity.
  - apply Z.eqb_neq in E. lia.
Qed.

Lemma truediv_max (n x : Z) :
  truediv n (Z.max 1 x) = Some (inject_Z n / inject_Z (Z.max 1 x))%Q.
Proof.
  unfold truediv. destruct (Z.max 1 x =? 0) eqn:E; [|reflexivity].
  apply Z.eqb_eq in E. lia.
Qed.

Lemma ratio_bounds (n d : Z) :
  0 <= n <= d -> 0 < d ->
  (0 <= inject_Z n / inject_Z d /\ inject_Z n / inject_Z d <= 1)%Q.
Proof.
  intros Hn Hd. destruct d as [|p|p]; try lia.
  unfold Qdiv, Qmult, Qinv, Qle, inject_Z. simpl. lia.
Qed.

(* ================================================================== *)
(** * Rows of the daily aggregates *)
(* ================================================================== *)

Lemma daily_stats_In group_sum group_mean (hd : list HD.Row) (row : Daily.Row) :
  In row (daily_stats group_sum group_mean hd) <->
  exists d, In d (group_keys hd)
            /\ row = with_ratios
                       (aggregate group_sum group_mean d (group_of d hd)).
Proof.
  unfold daily_stats. rewrite in_map_iff. split.
  - intros (d & <- & Hd). eauto.
  - intros (d & Hd & ->). eauto.
Qed.

(** The rows of the summary are rows of the daily aggregates. *)
Lemma merged_stats_In parse_date clock group_sum group_mean
      (df_fg : list FG.Raw) (df_hd : list HD.Raw)
      (merged : list Merged.Row) (hd : list HD.Row) (m : Merged.Row) :
  load_and_preprocess_data parse_date clock group_sum group_mean df_fg df_hd
  = Ok (merged, hd) ->
  In m merged -> In (Merged.stats m) (daily_stats group_sum group_mean hd).
Proof.
  intros Hload Hin.
  destruct (load_inv _ _ _ _ _ _ _ _ Hload) as (fg & _ & _ & ->).
  apply (Permutation_in _ (sort_values_perm merged_leb _)) in Hin.
  apply merge_inner_In in Hin as (l & r & Hl & _ & _ & ->). exact Hl.
Qed.

Lemma daily_row_In parse_date clock group_sum group_mean
      df_fg df_hd merged hd row :
  load_and_preprocess_data parse_date clock group_sum group_mean df_fg df_hd
  = Ok (merged, hd) ->
  daily_row group_sum group_mean hd merged row ->
  In row (daily_stats group_sum group_mean hd).
Proof.
  intros Hload [H|H]; [exact H|].
  apply in_map_iff in H as (m & <- & Hm).
  eapply merged_stats_In; eassumption.
Qed.

Lemma group_rows_In (hd : list HD.Row) (row : Daily.Row) (t : HD.Row) :
  In t (trades_of hd row) -> In t hd.
Proof. unfold trades_of, group_of. intros H. apply filter_In in H. tauto. Qed.

(** The columns of a row, read off the trades of its day. *)
Lemma daily_row_counts group_sum group_mean (hd : list HD.Row) (row : Daily.Row) :
  In row (daily_stats group_sum group_mean hd) ->
  Daily.Winning_Trades (Daily.agg row) = sum_bool HD.Is_Win (trades_of hd row)
  /\ Daily.Losing_Trades (Daily.agg row) = sum_bool HD.Is_Loss (trades_of hd row)
  /\ Daily.Taker_Trades (Daily.agg row) = sum_bool HD.Is_Taker (trades_of hd row)
  /\ Daily.Total_Trades (Daily.agg row)
     = Z.of_nat (length (accounts (trades_of hd row)))
  /\ row = with_ratios (Daily.agg row)
  /\ trades_of hd row <> [].
Proof.
  intros Hin. apply daily_stats_In in Hin as (d & Hd & ->).
  unfold trades_of, daily_date. simpl. repeat split.
  apply group_keys_In in Hd as (t & Ht & Et).
  intros E.
  assert (Hf : In t (group_of d hd)).
  { apply filter_In. split; [exact Ht|]. apply option_date_eqb_eq. exact Et. }
  rewrite E in Hf. destruct Hf.
Qed.

(** The two ratio columns of a row, with the guard read as a maximum. *)
Lemma daily_row_ratios group_sum group_mean (hd : list HD.Row) (row : Daily.Row) :
  In row (daily_stats group_sum group_mean hd) ->
  Daily.Win_Rate row
  = Some (inject_Z (Daily.Winning_Trades (Daily.agg row))
          / inject_Z (Z.max 1 (Daily.Winning_Trades (Daily.agg row)
                               + Daily.Losing_Trades (Daily.agg row))))%Q
  /\ Daily.Taker_Ratio row
     = Some (inject_Z (Daily.Taker_Trades (Daily.agg row))
             / inject_Z (Z.max 1 (Daily.Total_Trades (Daily.agg row))))%Q.
Proof.
  intros Hin.
  destruct (daily_row_counts group_sum group_mean hd row Hin)
    as (HW & HL & HT & Htot & Hrw & _).
  pose proof (sum_bool_bounds HD.Is_Win (trades_of hd row)) as BW.
  pose proof (sum_bool_bounds HD.Is_Loss (trades_of hd row)) as BL.
  rewrite <- !truediv_max. split.
  - rewrite Hrw at 1. cbn [with_ratios Daily.Win_Rate].
    rewrite replace_0_1_max by lia. reflexivity.
  - rewrite Hrw at 1. cbn [with_ratios Daily.Taker_Ratio].
    rewrite replace_0_1_max by lia. reflexivity.
Qed.

(** On a normalized trade the two flags read the sign of [Net_PnL]. *)
Lemma normalized_flags (t : HD.Row) :
  normalized t ->
  (HD.Is_Win t = true <-> positive (HD.Net_PnL t))
  /\ (HD.Is_Loss t = true <-> negative (HD.Net_PnL t)).
Proof.
  intros (_ & Hw & Hl & _). rewrite Hw, Hl, fgt_zero, flt_zero. tauto.
Qed.

Lemma normalized_neither (t : HD.Row) :
  normalized t ->
  (HD.Is_Win t = false /\ HD.Is_Loss t = false
   <-> is_zero (HD.Net_PnL t) \/ is_nan (HD.Net_PnL t)).
Proof.
  intros Hn. destruct (normalized_flags t Hn) as [Hw Hl].
  rewrite <- neither_iff, <- Hw, <- Hl.
  destruct (HD.Is_Win t), (HD.Is_Loss t); split; intros [H1 H2];
    try discriminate; try (exfalso; auto; fail); split; congruence.
Qed.

(* ================================================================== *)
(** * The ratio columns *)
(* ================================================================== *)

(** C3: on every row of the daily aggregates, [Win_Rate] is
    [Winning_Trades / max(1, Winning_Trades + Losing_Trades)] and
    [Taker_Ratio] is [Taker_Trades / max(1, Total_Trades)], neither ever NaN;
    so a day whose only trade nets to zero has [Win_Rate = 0]. *)
Theorem ratio_columns parse_date clock group_sum group_mean
        (df_fg : list FG.Raw) (df_hd : list HD.Raw)
        (merged : list Merged.Row) (hd : list HD.Row) (row : Daily.Row) :
  load_and_preprocess_data parse_date clock group_sum group_mean df_fg df_hd
  = Ok (merged, hd) ->
  daily_row group_sum group_mean hd merged row ->
  Daily.Win_Rate row
  = Some (inject_Z (Daily.Winning_Trades (Daily.agg row))
          / inject_Z (Z.max 1 (Daily.Winning_Trades (Daily.agg row)
                               + Daily.Losing_Trades (Daily.agg row))))%Q
  /\ Daily.Taker_Ratio row
     = Some (inject_Z (Daily.Taker_Trades (Daily.agg row))
             / inject_Z (Z.max 1 (Daily.Total_Trades (Daily.agg row))))%Q
  /\ (forall t, trades_of hd row = [t] -> is_zero (HD.Net_PnL t) ->
                Daily.Win_Rate row = Some 0%Q).
Proof.
  intros Hload Hrow.
  pose proof (daily_row_In _ _ _ _ _ _ _ _ _ Hload Hrow) as Hin.
  destruct (daily_row_ratios group_sum group_mean hd row Hin) as [Hwr Htr].
  split; [exact Hwr|]. split; [exact Htr|].
  intros t Hg Hz.
  destruct (daily_row_counts group_sum group_mean hd row Hin)
    as (HW & HL & _ & _ & _ & _).
  destruct (load_inv _ _ _ _ _ _ _ _ Hload) as (fg & _ & Hhd & _).
  pose proof (process_traders_normalized _ _ _ Hhd) as Hn.
  rewrite Forall_forall in Hn.
  assert (Ht : In t hd).
  { apply (group_rows_In hd row). rewrite Hg. left. reflexivity. }
  destruct (proj2 (normalized_neither t (Hn t Ht)) (or_introl Hz)) as [Ew El].
  rewrite Hwr, HW, HL, Hg. unfold sum_bool. simpl. rewrite Ew, El. reflexivity.
Qed.

(** C8, as the code has it: on every row of the daily aggregates, and so of
    the summary, [Win_Rate] lies in [0, 1]; [Taker_Ratio] lies in [0, 1]
    when every trade of the day has an [Account], which is what
    [Total_Trades] counts. *)
Theorem ratio_bounds_rows parse_date clock group_sum group_mean
        (df_fg : list FG.Raw) (df_hd : list HD.Raw)
        (merged : list Merged.Row) (hd : list HD.Row) (row : Daily.Row) :
  load_and_preprocess_data parse_date clock group_sum group_mean df_fg df_hd
  = Ok (merged, hd) ->
  daily_row group_sum group_mean hd merged row ->
  (exists q, Daily.Win_Rate row = Some q /\ (0 <= q /\ q <= 1)%Q)
  /\ ((forall t, In t (trades_of hd row) -> HD.Account (HD.raw t) <> None) ->
      exists q, Daily.Taker_Ratio row = Some q /\ (0 <= q /\ q <= 1)%Q).
Proof.
  intros Hload Hrow.
  pose proof (daily_row_In _ _ _ _ _ _ _ _ _ Hload Hrow) as Hin.
  destruct (daily_row_ratios group_sum group_mean hd row Hin) as [Hwr Htr].
  destruct (daily_row_counts group_sum group_mean hd row Hin)
    as (HW & HL & HT & Htot & _ & _).
  set (g := trades_of hd row) in *.
  pose proof (sum_bool_bounds HD.Is_Win g) as BW.
  pose proof (sum_bool_bounds HD.Is_Loss g) as BL.
  pose proof (sum_bool_bounds HD.Is_Taker g) as BT.
  split.
  - eexists. split; [exact Hwr|]. apply ratio_bounds; lia.
  - intros Hacc. eexists. split; [exact Htr|]. apply ratio_bounds; [|lia].
    rewrite Htot. unfold accounts.
    rewrite dropna_length_all, length_map; [lia|].
    intros c Hc. apply in_map_iff in Hc as (t & <- & Ht). apply Hacc. exact Ht.
Qed.

(** C10, as the code has it: on every trade [Is_Win] and [Is_Loss] never hold
    together, and neither holds exactly when [Net_PnL] is zero or NaN; so on
    every day [Winning_Trades + Losing_Trades] is at most the number of
    trades of the day, and less exactly when some trade of the day nets to
    zero or to NaN.  [Total_Trades] counts the trades that have an
    [Account]: it is at most that number, and equal to it when every trade
    of the day has one. *)
Theorem win_loss_counts parse_date clock group_sum group_mean
        (df_fg : list FG.Raw) (df_hd : list HD.Raw)
        (merged : list Merged.Row) (hd : list HD.Row) :
  load_and_preprocess_data parse_date clock group_sum group_mean df_fg df_hd
  = Ok (merged, hd) ->
  (forall t, In t hd ->
      ~ (HD.Is_Win t = true /\ HD.Is_Loss t = true)
      /\ (HD.Is_Win t = false /\ HD.Is_Loss t = false
          <-> is_zero (HD.Net_PnL t) \/ is_nan (HD.Net_PnL t)))
  /\ (forall row, daily_row group_sum group_mean hd merged row ->
        Daily.Winning_Trades (Daily.agg row) + Daily.Losing_Trades (Daily.agg row)
        <= Z.of_nat (length (trades_of hd row))
        /\ (Daily.Winning_Trades (Daily.agg row)
            + Daily.Losing_Trades (Daily.agg row)
            < Z.of_nat (length (trades_of hd row))
            <-> exists t, In t (trades_of hd row)
                          /\ (is_zero (HD.Net_PnL t) \/ is_nan (HD.Net_PnL t)))
        /\ Daily.Total_Trades (Daily.agg row)
           <= Z.of_nat (length (trades_of hd row))
        /\ ((forall t, In t (trades_of hd row) -> HD.Account (HD.raw t) <> None)
            -> Daily.Total_Trades (Daily.agg row)
               = Z.of_nat (length (trades_of hd row)))).
Proof.
  intros Hload.
  destruct (load_inv _ _ _ _ _ _ _ _ Hload) as (fg & _ & Hhd & _).
  pose proof (process_traders_normalized _ _ _ Hhd) as Hn.
  rewrite Forall_forall in Hn.
  split.
  - intros t Ht. split; [|apply normalized_neither, Hn, Ht].
    destruct (normalized_flags t (Hn t Ht)) as [Hw Hl]. intros [H1 H2].
    apply Hw in H1. apply Hl in H2. exact (positive_not_negative _ H1 H2).
  - intros row Hrow.
    pose proof (daily_row_In _ _ _ _ _ _ _ _ _ Hload Hrow) as Hin.
    destruct (daily_row_counts group_sum group_mean hd row Hin)
      as (HW & HL & _ & Htot & _ & _).
    set (g := trades_of hd row) in *.
    assert (Hg : forall x, In x g -> normalized x).
    { intros x Hx. apply Hn. apply (group_rows_In hd row). exact Hx. }
    assert (Hex : forall x, In x g -> HD.Is_Win x = true -> HD.Is_Loss x = false).
    { intros x Hx Hw. destruct (normalized_flags x (Hg x Hx)) as [Hw' Hl'].
      destruct (HD.Is_Loss x) eqn:E; [|reflexivity].
      exfalso. apply (positive_not_negative (HD.Net_PnL x)); tauto. }
    pose proof (count_split HD.Is_Win HD.Is_Loss g Hex) as Hsplit.
    pose proof (filter_nonempty
                  (fun x => negb (HD.Is_Win x) && negb (HD.Is_Loss x)) g) as Hne.
    rewrite HW, HL, Htot. unfold sum_bool.
    split; [lia|]. split; [|split].
    + split.
      * intros Hlt. destruct (proj1 Hne ltac:(lia)) as (t & Ht & Hb).
        exists t. split; [exact Ht|].
        apply normalized_neither; [apply Hg; exact Ht|].
        apply andb_true_iff in Hb. rewrite !negb_true_iff in Hb. exact Hb.
      * intros (t & Ht & Hz).
        assert (0 < length (filter (fun x => negb (HD.Is_Win x)
                                             && negb (HD.Is_Loss x)) g))%nat.
        { apply Hne. exists t. split; [exact Ht|].
          apply normalized_neither in Hz; [|apply Hg; exact Ht].
          destruct Hz as [-> ->]. reflexivity. }
        lia.
    + unfold accounts. pose proof (dropna_length_le
        (map (fun r => HD.Account (HD.raw r)) g)) as Hle.
      rewrite length_map in Hle. lia.
    + intros Hacc. unfold accounts.
      rewrite dropna_length_all, length_map; [reflexivity|].
      intros c Hc. apply in_map_iff in Hc as (t & <- & Ht). apply Hacc. exact Ht.
Qed.

(* ================================================================== *)
(** * Substrings, ignoring case *)
(* ================================================================== *)

Lemma prefix_app (a b : string) :
  String.prefix a b = true <-> exists post, b = (a ++ post)%string.
Proof.
  revert b. induction a as [|c a IH]; intros b.
  - split; [intros _; exists b; reflexivity|].
    intros _. destruct b; reflexivity.
  - destruct b as [|c' b]; simpl.
    + split; [discriminate|]. intros [post H]. discriminate.
    + destruct (ascii_dec c c') as [->|Hne].
      * rewrite IH. split; intros [post H]; exists post; congruence.
      * split; [discriminate|]. intros [post H]. congruence.
Qed.

Lemma contains_app (needle hay : string) :
  contains needle hay = true <->
  exists pre post, hay = (pre ++ needle ++ post)%string.
Proof.
  induction hay as [|c hay IH]; cbn [contains]; rewrite orb_true_iff, prefix_app.
  - split.
    + intros [[post H]|H]; [|discriminate]. exists EmptyString, post. exact H.
    + intros (pre & post & H). left.
      destruct pre; simpl in H; [eauto|discriminate].
  - rewrite IH. split.
    + intros [[post H]|(pre & post & H)].
      * exists EmptyString, post. exact H.
      * exists (String c pre), post. simpl. congruence.
    + intros (pre & post & H). destruct pre as [|c' pre]; simpl in H.
      * left. eauto.
      * right. exists pre, post. congruence.
Qed.

Lemma lower_app (a b : string) :
  lower (a ++ b)%string = (lower a ++ lower b)%string.
Proof. induction a as [|c a IH]; simpl; congruence. Qed.

Lemma lower_split (x a b : string) :
  lower x = (a ++ b)%string ->
  exists x1 x2, x = (x1 ++ x2)%string /\ lower x1 = a /\ lower x2 = b.
Proof.
  revert x. induction a as [|c a IH]; simpl; intros x H.
  - exists EmptyString, x. auto.
  - destruct x as [|c' x]; simpl in H; [discriminate|].
    injection H as Hc Hr. destruct (IH _ Hr) as (x1 & x2 & -> & H1 & H2).
    exists (String c' x1), x2. simpl. repeat split; congruence.
Qed.

Lemma lower_ascii_nat (c : ascii) :
  nat_of_ascii (lower_ascii c)
  = if is_capital c then (nat_of_ascii c + 32)%nat else nat_of_ascii c.
Proof.
  unfold lower_ascii, is_capital.
  destruct ((65 <=? nat_of_ascii c) && (nat_of_ascii c <=? 90))%nat eqn:E;
    [|reflexivity].
  apply andb_true_iff in E as [_ E]. apply Nat.leb_le in E.
  apply nat_ascii_embedding. lia.
Qed.

Lemma nat_of_ascii_inj (a b : ascii) : nat_of_ascii a = nat_of_ascii b -> a = b.
Proof.
  intros H. rewrite <- (ascii_nat_embedding a), <- (ascii_nat_embedding b).
  congruence.
Qed.

(** Lowering tells exactly the letters that differ by case only. *)
Lemma same_letter_lower (a b : ascii) :
  same_letter a b = true <-> lower_ascii a = lower_ascii b.
Proof.
  transitivity (nat_of_ascii (lower_ascii a) = nat_of_ascii (lower_ascii b)).
  2:{ split; [apply nat_of_ascii_inj|congruence]. }
  rewrite !lower_ascii_nat. unfold same_letter, is_capital.
  assert (Hab : Ascii.eqb a b = true <-> nat_of_ascii a = nat_of_ascii b).
  { rewrite Ascii.eqb_eq. split; [congruence|apply nat_of_ascii_inj]. }
  rewrite !orb_true_iff, Hab.
  generalize (nat_of_ascii a) (nat_of_ascii b). clear. intros n m.
  destruct (Nat.leb_spec 65 n), (Nat.leb_spec n 90),
           (Nat.leb_spec 65 m), (Nat.leb_spec m 90);
    cbn [andb]; rewrite ?Nat.eqb_eq; try lia;
    (split; [intros [[H|H]|H]; try discriminate H; lia|intros H; lia]).
Qed.

Lemma same_ignoring_case_lower (s t : string) :
  same_ignoring_case s t <-> lower s = lower t.
Proof.
  revert t. induction s as [|a s IH]; intros [|b t]; simpl.
  - tauto.
  - split; [tauto|discriminate].
  - split; [tauto|discriminate].
  - rewrite same_letter_lower, IH. split.
    + intros [-> ->]. reflexivity.
    + intros H. injection H. auto.
Qed.

(** Looking for a word of small letters in the lowered text is looking for
    it in the text with letter case ignored. *)
Lemma contains_lower (word text : string) :
  lower word = word ->
  (contains word (lower text) = true <-> holds_ignoring_case word text).
Proof.
  intros Hw. rewrite contains_app. unfold holds_ignoring_case. split.
  - intros (pre & post & H).
    apply lower_split in H as (x1 & x2 & -> & H1 & H2).
    apply lower_split in H2 as (x3 & x4 & -> & H3 & H4).
    exists x1, x3, x4. split; [reflexivity|].
    apply same_ignoring_case_lower. congruence.
  - intros (pre & mid & post & -> & Hm).
    apply same_ignoring_case_lower in Hm. rewrite Hw in Hm.
    exists (lower pre), (lower post). rewrite !lower_app, Hm. reflexivity.
Qed.

(** The label by the two tests, in the order the code makes them. *)
Lemma categorize_regime_cases (x : option string) :
  (categorize_regime x = "Fear"%string
   <-> holds_ignoring_case "fear" (str x))
  /\ (categorize_regime x = "Greed"%string
      <-> ~ holds_ignoring_case "fear" (str x)
          /\ holds_ignoring_case "greed" (str x))
  /\ (categorize_regime x = "Neutral"%string
      <-> ~ holds_ignoring_case "fear" (str x)
          /\ ~ holds_ignoring_case "greed" (str x))
  /\ (categorize_regime x = "Fear"%string
      \/ categorize_regime x = "Neutral"%string
      \/ categorize_regime x = "Greed"%string).
Proof.
  unfold categorize_regime.
  rewrite <- (contains_lower "fear" (str x) eq_refl),
          <- (contains_lower "greed" (str x) eq_refl).
  destruct (contains "fear" (lower (str x))),
           (contains "greed" (lower (str x)));
    repeat split; try discriminate; try tauto;
    try (intros [Ha Hb]; congruence); try (intros [Ha Hb]; exfalso; auto; fail);
    auto.
Qed.

(** The label of a summary row is the label of its classification. *)
Lemma join_regime parse_date clock gs gm df_fg df_hd merged hd m :
  load_and_preprocess_data parse_date clock gs gm df_fg df_hd = Ok (merged, hd) ->
  In m merged ->
  Merged.Regime m = categorize_regime (Merged.classification m).
Proof.
  intros Hload Hin.
  destruct (load_inv _ _ _ _ _ _ _ _ Hload) as (fg & Hfg & _ & ->).
  apply (Permutation_in _ (sort_values_perm merged_leb _)) in Hin.
  apply merge_inner_In in Hin as (l & r & _ & Hr & _ & ->).
  destruct (process_fear_greed_inv _ _ _ Hfg) as (dated & _ & ->).
  apply in_map_iff in Hr as (dr & <- & _). reflexivity.
Qed.

(** C4: the regime is a total function of the classification cell alone:
    [Fear] when the text holds "fear" with case ignored, else [Greed] when
    it holds "greed", else [Neutral]; so a text that holds both is [Fear],
    and two texts that differ by letter case only get the same regime.
    Every row of the summary carries the label of its own classification,
    one of the three. *)
Theorem regime_of_classification :
  (forall x : option string,
      (categorize_regime x = "Fear"%string
       <-> holds_ignoring_case "fear" (str x))
      /\ (categorize_regime x = "Greed"%string
          <-> ~ holds_ignoring_case "fear" (str x)
              /\ holds_ignoring_case "greed" (str x))
      /\ (categorize_regime x = "Neutral"%string
          <-> ~ holds_ignoring_case "fear" (str x)
              /\ ~ holds_ignoring_case "greed" (str x))
      /\ (holds_ignoring_case "fear" (str x) ->
          holds_ignoring_case "greed" (str x) ->
          categorize_regime x = "Fear"%string)
      /\ (categorize_regime x = "Fear"%string
          \/ categorize_regime x = "Neutral"%string
          \/ categorize_regime x = "Greed"%string))
  /\ (forall parse_date clock gs gm df_fg df_hd merged hd m,
         load_and_preprocess_data parse_date clock gs gm df_fg df_hd
         = Ok (merged, hd) ->
         In m merged ->
         Merged.Regime m = categorize_regime (Merged.classification m)
         /\ (Merged.Regime m = "Fear"%string
             \/ Merged.Regime m = "Neutral"%string
             \/ Merged.Regime m = "Greed"%string))
  /\ (forall a b : string,
         same_ignoring_case a b ->
         categorize_regime (Some a) = categorize_regime (Some b)).
Proof.
  split; [|split].
  - intros x. destruct (categorize_regime_cases x) as (H1 & H2 & H3 & H4).
    split; [exact H1|]. split; [exact H2|]. split; [exact H3|].
    split; [|exact H4]. intros Hf _. apply H1. exact Hf.
  - intros parse_date clock gs gm df_fg df_hd merged hd m Hload Hin.
    rewrite (join_regime _ _ _ _ _ _ _ _ _ Hload Hin).
    split; [reflexivity|]. apply categorize_regime_cases.
  - intros a b H. apply same_ignoring_case_lower in H.
    unfold categorize_regime. cbn [str]. rewrite H. reflexivity.
Qed.

(* ================================================================== *)
(** * The sentiment frame *)
(* ================================================================== *)

Lemma traverse_app_inv {A B} (f : A -> result B) (l : list A) pre' b post' :
  traverse f l = Ok (pre' ++ b :: post') ->
  exists pre a post,
    l = pre ++ a :: post
    /\ traverse f pre = Ok pre' /\ f a = Ok b /\ traverse f post = Ok post'.
Proof.
  revert l. induction pre' as [|b0 pre' IH]; intros l H.
  - destruct l as [|a l]; simpl in H; [discriminate|].
    destruct (f a) as [b1|] eqn:Ea; simpl in H; [|discriminate].
    destruct (traverse f l) as [bs|] eqn:Et; simpl in H; [|discriminate].
    injection H as -> ->. exists [], a, l. auto.
  - destruct l as [|a l]; simpl in H; [discriminate|].
    destruct (f a) as [b1|] eqn:Ea; simpl in H; [|discriminate].
    destruct (traverse f l) as [bs|] eqn:Et; simpl in H; [|discriminate].
    injection H as -> ->.
    destruct (IH l Et) as (pre & a' & post & -> & Hp & Ha & Hq).
    exists (a :: pre), a', post. simpl. rewrite Ea, Hp. simpl. auto.
Qed.

Lemma traverse_app {A B} (f : A -> result B) pre a post l' :
  traverse f (pre ++ a :: post) = Ok l' ->
  exists pre' b post',
    l' = pre' ++ b :: post'
    /\ traverse f pre = Ok pre' /\ f a = Ok b /\ traverse f post = Ok post'.
Proof.
  revert l'. induction pre as [|a0 pre IH]; simpl; intros l' H.
  - destruct (f a) as [b|] eqn:Ea; simpl in H; [|discriminate].
    destruct (traverse f post) as [bs|] eqn:Et; simpl in H; [|discriminate].
    injection H as <-. exists [], b, bs. auto.
  - destruct (f a0) as [b0|] eqn:Ea; simpl in H; [|discriminate].
    destruct (traverse f (pre ++ a :: post)) as [bs|] eqn:Et; simpl in H;
      [|discriminate].
    injection H as <-.
    destruct (IH bs eq_refl) as (pre' & b & post' & -> & Hp & Ha & Hq).
    exists (b0 :: pre'), b, post'. rewrite Hp. simpl. auto.
Qed.

(** A column conversion raises exactly when it raises on some cell. *)
Lemma traverse_raise {A B} (f : A -> result B) (l : list A) :
  (exists e, traverse f l = Raise e) <-> exists a e, In a l /\ f a = Raise e.
Proof.
  induction l as [|a l IH]; simpl.
  - split; [intros [e H]; discriminate|intros (a & e & [] & _)].
  - destruct (f a) as [b|e0] eqn:Ea; simpl.
    + destruct (traverse f l) as [bs|e1] eqn:Et; simpl.
      * split; [intros [e H]; discriminate|].
        intros (a' & e & [<-|Hin] & Hf); [congruence|].
        destruct (proj2 IH (ex_intro _ a' (ex_intro _ e (conj Hin Hf))))
          as [e' He']. discriminate.
      * split; [|eauto]. intros _.
        destruct (proj1 IH (ex_intro _ e1 eq_refl)) as (a' & e & Hin & Hf).
        exists a', e. auto.
    + split; [|eauto]. intros _. exists a, e0. auto.
Qed.

(** No dated row before carries the key iff no record before reads to it. *)
Lemma dated_rows_before parse_date (pre : list FG.Raw) (pre' : list FG.Dated) k :
  traverse (fg_with_date parse_date) pre = Ok pre' ->
  (~ In k (map FG.Date pre')
   <-> forall r, In r pre -> date_of parse_date r <> Ok k).
Proof.
  intros Ht. split.
  - intros Hn r Hr E.
    destruct (traverse_In_inv _ _ _ _ Ht Hr) as (row & Hrow & Hf).
    apply fg_with_date_inv in Hf as [_ Hf]. unfold date_of in E.
    apply Hn. apply in_map_iff. exists row. split; [congruence|exact Hrow].
  - intros Hall Hin. apply in_map_iff in Hin as (row & E & Hrow).
    destruct (traverse_In _ _ _ _ Ht Hrow) as (r & Hr & Hf).
    apply fg_with_date_inv in Hf as [_ Hf].
    apply (Hall r Hr). unfold date_of. congruence.
Qed.

(** C6: the sentiment frame holds exactly one row per distinct date of the
    input (the missing date counted as one more), and the row kept for a
    date is the first record of the input that carries it: every kept row is
    a first-seen record, and every first-seen record is kept. *)
Theorem first_seen_per_date parse_date
        (df_fg : list FG.Raw) (fg : list FG.Row) :
  process_fear_greed parse_date df_fg = Ok fg ->
  NoDup (map fg_date fg)
  /\ (forall k, In k (map fg_date fg)
                <-> exists r, In r df_fg /\ date_of parse_date r = Ok k)
  /\ (forall row, In row fg ->
        exists pre post,
          df_fg = pre ++ FG.raw (FG.dated row) :: post
          /\ date_of parse_date (FG.raw (FG.dated row)) = Ok (fg_date row)
          /\ forall r, In r pre -> date_of parse_date r <> Ok (fg_date row))
  /\ (forall pre r post k,
        df_fg = pre ++ r :: post -> date_of parse_date r = Ok k ->
        (forall r', In r' pre -> date_of parse_date r' <> Ok k) ->
        exists row, In row fg /\ FG.raw (FG.dated row) = r /\ fg_date row = k).
Proof.
  intros H. pose proof (process_fear_greed_NoDup _ _ _ H) as Hnd.
  destruct (process_fear_greed_inv _ _ _ H) as (dated & Ht & ->).
  split; [exact Hnd|]. split; [|split].
  - intros k. unfold fg_date. rewrite map_map. simpl.
    rewrite (drop_duplicates_keys (option_eqb date_eqb) FG.Date
               option_date_eqb_eq dated k), in_map_iff.
    split.
    + intros (row & E & Hin).
      destruct (traverse_In _ _ _ _ Ht Hin) as (r & Hr & Hf).
      apply fg_with_date_inv in Hf as [_ Hf]. exists r. split; [exact Hr|].
      unfold date_of. congruence.
    + intros (r & Hr & E).
      destruct (traverse_In_inv _ _ _ _ Ht Hr) as (row & Hin & Hf).
      apply fg_with_date_inv in Hf as [_ Hf]. exists row. split; [|exact Hin].
      unfold date_of in E. congruence.
  - intros row Hin. apply in_map_iff in Hin as (dr & <- & Hin).
    apply (drop_duplicates_first (option_eqb date_eqb) FG.Date
             option_date_eqb_eq) in Hin as (pre' & post' & E & Hn).
    rewrite E in Ht.
    apply traverse_app_inv in Ht as (pre & a & post & -> & Hp & Ha & _).
    apply fg_with_date_inv in Ha as [Hraw Ha].
    exists pre, post. unfold fg_date. simpl. rewrite Hraw.
    split; [reflexivity|]. split; [exact Ha|].
    apply (dated_rows_before parse_date pre pre' _ Hp). exact Hn.
  - intros pre r post k -> Hk Hbefore.
    apply traverse_app in Ht as (pre' & b & post' & -> & Hp & Hb & _).
    apply fg_with_date_inv in Hb as [Hraw Hb].
    exists (fg_with_regime b). split; [|split].
    + apply in_map.
      apply (drop_duplicates_first (option_eqb date_eqb) FG.Date
               option_date_eqb_eq).
      exists pre', post'. split; [reflexivity|].
      apply (dated_rows_before parse_date pre pre' _ Hp).
      unfold date_of in Hk. rewrite Hk in Hb. injection Hb as <-. exact Hbefore.
    + exact Hraw.
    + unfold fg_date. simpl. unfold date_of in Hk. congruence.
Qed.

Lemma to_date_raise parse_date (c : option string) :
  (exists e, to_date parse_date c = Raise e) <->
  exists s, c = Some s /\ parse_date s = None.
Proof.
  unfold to_date. destruct c as [s|].
  - destruct (parse_date s) eqn:E.
    + split; [intros [e H]; discriminate|].
      intros (s' & Hs & Hp). congruence.
    + split; eauto.
  - split; [intros [e H]; discriminate|intros (s' & Hs & _); discriminate].
Qed.

(** The sentiment step raises exactly when some date text is no date. *)
Lemma process_fear_greed_raise parse_date (df_fg : list FG.Raw) :
  (exists e, process_fear_greed parse_date df_fg = Raise e) <->
  exists r s, In r df_fg /\ FG.date r = Some s /\ parse_date s = None.
Proof.
  unfold process_fear_greed, rbind.
  pose proof (traverse_raise (fg_with_date parse_date) df_fg) as Ht.
  destruct (traverse (fg_with_date parse_date) df_fg) as [dated|e] eqn:E.
  - split; [intros [e H]; discriminate|].
    intros (r & s & Hr & Hs & Hp).
    assert (Hx : exists e, Ok dated = Raise e).
    { apply Ht. unfold fg_with_date, rbind.
      destruct (proj2 (to_date_raise parse_date (FG.date r))
                      (ex_intro _ s (conj Hs Hp))) as [e He].
      exists r, e. rewrite He. auto. }
    destruct Hx as [e He]. discriminate.
  - split; [|eauto]. intros _.
    destruct (proj1 Ht (ex_intro _ e eq_refl)) as (r & e' & Hr & Hf).
    unfold fg_with_date, rbind in Hf.
    destruct (to_date parse_date (FG.date r)) as [d|e''] eqn:Ed; [discriminate|].
    destruct (proj1 (to_date_raise parse_date (FG.date r)) (ex_intro _ e'' Ed))
      as (s & Hs & Hp).
    eauto.
Qed.

(** C5, as the code has it: the sentiment step raises exactly when the date
    text of some record cannot be read as a date, and then the whole load
    raises, whatever the trades, and returns no table.  A record with no
    date and a record with no classification raise nothing: the missing
    classification is labelled [Neutral]. *)
Theorem sentiment_errors parse_date clock group_sum group_mean
        (df_fg : list FG.Raw) :
  ((exists e, process_fear_greed parse_date df_fg = Raise e)
   <-> exists r s, In r df_fg /\ FG.date r = Some s /\ parse_date s = None)
  /\ ((exists e, process_fear_greed parse_date df_fg = Raise e) ->
      forall df_hd,
        exists e,
          load_and_preprocess_data parse_date clock group_sum group_mean df_fg df_hd
          = Raise e)
  /\ (forall r, In r df_fg -> FG.classification r = None ->
                categorize_regime (FG.classification r) = "Neutral"%string).
Proof.
  split; [apply process_fear_greed_raise|]. split.
  - intros [e He] df_hd. exists e.
    unfold load_and_preprocess_data, rbind. rewrite He. reflexivity.
  - intros r _ ->. reflexivity.
Qed.

(* ================================================================== *)
(** * Running the load twice *)
(* ================================================================== *)

Lemma traverse_ext_in {A B} (f g : A -> result B) (l : list A) :
  (forall a, In a l -> f a = g a) -> traverse f l = traverse g l.
Proof.
  induction l as [|a l IH]; intros H; [reflexivity|].
  simpl. rewrite (H a (or_introl eq_refl)), IH; [reflexivity|].
  intros a' Ha'. apply H. right. exact Ha'.
Qed.

(** The sentiment step depends on the reader through the date texts of the
    file only. *)
Lemma process_fear_greed_ext (parse_date parse_date' : string -> option CalendarDate)
      (df_fg : list FG.Raw) :
  (forall r s, In r df_fg -> FG.date r = Some s -> parse_date s = parse_date' s) ->
  process_fear_greed parse_date df_fg = process_fear_greed parse_date' df_fg.
Proof.
  intros H. unfold process_fear_greed.
  rewrite (traverse_ext_in (fg_with_date parse_date) (fg_with_date parse_date')
                           df_fg); [reflexivity|].
  intros r Hr. unfold fg_with_date, to_date.
  destruct (FG.date r) as [s|] eqn:E; [|reflexivity].
  rewrite (H r s Hr E). reflexivity.
Qed.

(** A text that is not read as the time of the clock is read the same
    whatever the clock shows. *)
Lemma to_datetime_ist_clock_free (now now' : Z) (c : option string) :
  (forall s, c = Some s -> reads_clock s = false) ->
  to_datetime_ist now c = to_datetime_ist now' c.
Proof.
  intros H. destruct c as [s|]; [|reflexivity].
  unfold to_datetime_ist. rewrite (H s eq_refl). reflexivity.
Qed.

Lemma hd_row_clock_free (now now' : Z) (r : HD.Raw) :
  (forall s, HD.Timestamp_IST r = Some s -> reads_clock s = false) ->
  hd_row now r = hd_row now' r.
Proof.
  intros H. unfold hd_row.
  rewrite (to_datetime_ist_clock_free now now' _ H). reflexivity.
Qed.

Lemma traverse_clock_free (clock : nat -> Z) (i : nat) (df_hd : list HD.Raw) :
  clock_free df_hd ->
  traverse (fun ir => hd_row (clock (fst ir)) (snd ir)) (enumerate_from i df_hd)
  = traverse (hd_row 0) df_hd.
Proof.
  revert i. induction df_hd as [|r l IH]; intros i Hfree; [reflexivity|].
  cbn [enumerate_from traverse fst snd].
  rewrite (hd_row_clock_free (clock i) 0 r)
    by (intros s Hs; apply (Hfree r s); [left; reflexivity|exact Hs]).
  rewrite IH; [reflexivity|].
  intros t s Ht Hs. apply (Hfree t s); [right; exact Ht|exact Hs].
Qed.

Lemma clock_free_rows (clock : nat -> Z) (df_hd : list HD.Raw) (hd : list HD.Row) :
  clock_free df_hd ->
  (process_traders clock df_hd = Ok hd <-> traverse (hd_row 0) df_hd = Ok hd).
Proof.
  intros Hfree. rewrite process_traders_rows. unfold enumerate.
  rewrite (traverse_clock_free clock 0 df_hd Hfree). tauto.
Qed.

(** The trade step depends on the clock through the texts [now] and
    [today] only. *)
Lemma process_traders_clock_free (clock clock' : nat -> Z) (df_hd : list HD.Raw) :
  clock_free df_hd -> process_traders clock df_hd = process_traders clock' df_hd.
Proof.
  intros Hfree. unfold process_traders.
  rewrite (traverse_ext_in
             (fun ir => to_datetime_ist (clock (fst ir)) (HD.Timestamp_IST (snd ir)))
             (fun ir => to_datetime_ist (clock' (fst ir)) (HD.Timestamp_IST (snd ir)))
             (enumerate df_hd)); [reflexivity|].
  intros ir Hir. apply to_datetime_ist_clock_free.
  intros s Hs. apply (Hfree (snd ir) s); [|exact Hs].
  apply enumerate_In. exact Hir.
Qed.

(** C9, as the code has it: two runs of the load on the same two files
    give the same result, table or exception, provided that no timestamp
    text of the trade file is [now] or [today], which are read as the time
    of the run, and that the date reader gives in both runs the same for the
    date texts of the sentiment file.  This holds of the function itself,
    of two runs that each start from an empty cache, and of a second run
    that finds the cache as the first one left it. *)
Theorem two_runs_agree parse_date parse_date' clock clock' group_sum group_mean
        (df_fg : list FG.Raw) (df_hd : list HD.Raw) :
  (forall r s, In r df_fg -> FG.date r = Some s ->
               parse_date s = parse_date' s) ->
  clock_free df_hd ->
  load_and_preprocess_data parse_date clock group_sum group_mean df_fg df_hd
  = load_and_preprocess_data parse_date' clock' group_sum group_mean df_fg df_hd
  /\ fst (cached_load parse_date clock group_sum group_mean None df_fg df_hd)
     = fst (cached_load parse_date' clock' group_sum group_mean None df_fg df_hd)
  /\ fst (cached_load parse_date' clock' group_sum group_mean
            (snd (cached_load parse_date clock group_sum group_mean None
                              df_fg df_hd))
            df_fg df_hd)
     = fst (cached_load parse_date clock group_sum group_mean None df_fg df_hd).
Proof.
  intros Hdates Hfree.
  assert (E : load_and_preprocess_data parse_date clock group_sum group_mean
                df_fg df_hd
              = load_and_preprocess_data parse_date' clock' group_sum group_mean
                  df_fg df_hd).
  { unfold load_and_preprocess_data.
    rewrite (process_fear_greed_ext parse_date parse_date' df_fg Hdates).
    rewrite (process_traders_clock_free clock clock' df_hd Hfree).
    reflexivity. }
  split; [exact E|]. unfold cached_load. rewrite <- E.
  destruct (load_and_preprocess_data parse_date clock group_sum group_mean
              df_fg df_hd) as [v|e]; cbn [fst snd]; split; reflexivity.
Qed.

(* ================================================================== *)
(** * The properties on the example inputs *)
(* ================================================================== *)

Lemma scenario_load :
  load_and_preprocess_data parse_iso_date noon_1_may_2023 plain_sum plain_mean
    scenario_fg two_trades
  = Ok (scenario_merged, scenario_hd).
Proof. vm_compute. reflexivity. Qed.

Lemma scenario_daily_row :
  daily_row plain_sum plain_mean scenario_hd scenario_merged scenario_row.
Proof. right. left. reflexivity. Qed.

Lemma scenario_accounts (t : HD.Row) :
  In t (trades_of scenario_hd scenario_row) -> HD.Account (HD.raw t) <> None.
Proof.
  intros H. vm_compute in H. destruct H as [<-|[<-|[]]]; discriminate.
Qed.

Lemma two_trades_clock_free : clock_free two_trades.
Proof.
  intros t s Ht Hs.
  destruct Ht as [<-|[<-|[]]]; injection Hs as <-; reflexivity.
Qed.

(** The trade at 02:00 Indian time on 1 January 2023 falls on the day
    before. *)
Lemma utc_bucket_date_witness :
  load_and_preprocess_data parse_iso_date noon_1_may_2023 plain_sum plain_mean
    [] [ist_2am]
  = Ok ([], [ist_2am_row])
  /\ strptime "01-01-2023 02:00" = Some ist_2am_fields
  /\ naive_ns IST_since <= naive_ns ist_2am_fields
  /\ HD.Date ist_2am_row
     = Some (if f_hour ist_2am_fields * 60 + f_minute ist_2am_fields <? 330
             then day_before (local_date ist_2am_fields)
             else local_date ist_2am_fields).
Proof.
  assert (Hload : load_and_preprocess_data parse_iso_date noon_1_may_2023
                    plain_sum plain_mean [] [ist_2am] = Ok ([], [ist_2am_row]))
    by (vm_compute; reflexivity).
  assert (Hf : strptime "01-01-2023 02:00" = Some ist_2am_fields)
    by (vm_compute; reflexivity).
  assert (Hsince : naive_ns IST_since <= naive_ns ist_2am_fields)
    by (vm_compute; discriminate).
  split; [exact Hload|]. split; [exact Hf|]. split; [exact Hsince|].
  exact (proj2 (proj2 (proj2 (proj2 (proj1 utc_bucket_date
           parse_iso_date noon_1_may_2023 plain_sum plain_mean
           [] [ist_2am] [] [ist_2am_row]
           ist_2am_row "01-01-2023 02:00"%string ist_2am_fields
           Hload (or_introl eq_refl) eq_refl Hf)) Hsince))).
Defined.

(** A trade at 06:00 on 1 January 1943, when the clocks of the zone stood
    at +6:30: it falls on 31 December 1942, where 5 hours 30 minutes back
    from 06:00 is 00:30 of 1 January 1943. *)
Lemma war_time_bucket :
  strptime "01-01-1943 06:00" = Some war_time_fields
  /\ option_map (map HD.Date) (trades (example_load [] [war_time_trade]))
     = Some [Some (mkDate 1942 12 31)]
  /\ civil_from_days ((naive_ns war_time_fields - ns 19800) / ns_per_day)
     = mkDate 1943 1 1.
Proof.
  split; [vm_compute; reflexivity|].
  split; vm_compute; reflexivity.
Qed.

(** The one day that has both trades and a sentiment record is the one row
    of the summary. *)
Lemma inner_join_on_date_witness :
  load_and_preprocess_data parse_iso_date noon_1_may_2023 plain_sum plain_mean
    scenario_fg two_trades
  = Ok (scenario_merged, scenario_hd)
  /\ StronglySorted date_lt (map Merged.Date scenario_merged).
Proof.
  split; [exact scenario_load|].
  exact (proj2 (inner_join_on_date parse_iso_date noon_1_may_2023 plain_sum plain_mean
                  scenario_fg two_trades scenario_merged scenario_hd
                  scenario_load)).
Defined.

(** One win and one loss: a win rate of one half. *)
Lemma ratio_columns_witness :
  daily_row plain_sum plain_mean scenario_hd scenario_merged scenario_row
  /\ Daily.Win_Rate scenario_row
     = Some (inject_Z (Daily.Winning_Trades (Daily.agg scenario_row))
             / inject_Z (Z.max 1 (Daily.Winning_Trades (Daily.agg scenario_row)
                                  + Daily.Losing_Trades (Daily.agg scenario_row))))%Q.
Proof.
  split; [exact scenario_daily_row|].
  exact (proj1 (ratio_columns parse_iso_date noon_1_may_2023 plain_sum plain_mean
                  scenario_fg two_trades scenario_merged scenario_hd
                  scenario_row scenario_load scenario_daily_row)).
Defined.

Lemma ratio_bounds_rows_witness :
  (forall t, In t (trades_of scenario_hd scenario_row) ->
             HD.Account (HD.raw t) <> None)
  /\ (exists q, Daily.Win_Rate scenario_row = Some q /\ (0 <= q /\ q <= 1)%Q)
  /\ (exists q, Daily.Taker_Ratio scenario_row = Some q /\ (0 <= q /\ q <= 1)%Q).
Proof.
  split; [exact scenario_accounts|]. split.
  - exact (proj1 (ratio_bounds_rows parse_iso_date noon_1_may_2023 plain_sum plain_mean
                    scenario_fg two_trades scenario_merged scenario_hd
                    scenario_row scenario_load scenario_daily_row)).
  - exact (proj2 (ratio_bounds_rows parse_iso_date noon_1_may_2023 plain_sum plain_mean
                    scenario_fg two_trades scenario_merged scenario_hd
                    scenario_row scenario_load scenario_daily_row)
                 scenario_accounts).
Defined.

Lemma win_loss_counts_witness :
  daily_row plain_sum plain_mean scenario_hd scenario_merged scenario_row
  /\ Daily.Winning_Trades (Daily.agg scenario_row)
     + Daily.Losing_Trades (Daily.agg scenario_row)
     <= Z.of_nat (length (trades_of scenario_hd scenario_row))
  /\ Daily.Total_Trades (Daily.agg scenario_row)
     = Z.of_nat (length (trades_of scenario_hd scenario_row)).
Proof.
  split; [exact scenario_daily_row|]. split.
  - exact (proj1 (proj2 (win_loss_counts parse_iso_date noon_1_may_2023 plain_sum plain_mean
                           scenario_fg two_trades scenario_merged scenario_hd
                           scenario_load)
                        scenario_row scenario_daily_row)).
  - exact (proj2 (proj2 (proj2 (proj2 (win_loss_counts
                    parse_iso_date noon_1_may_2023 plain_sum plain_mean
                    scenario_fg two_trades scenario_merged scenario_hd
                    scenario_load)
                  scenario_row scenario_daily_row)))
                 scenario_accounts).
Defined.

Lemma net_pnl_and_flags_witness :
  load_and_preprocess_data parse_iso_date noon_1_may_2023 plain_sum plain_mean
    scenario_fg two_trades
  = Ok (scenario_merged, scenario_hd)
  /\ map HD.raw scenario_hd = two_trades.
Proof.
  split; [exact scenario_load|].
  exact (proj1 (net_pnl_and_flags parse_iso_date noon_1_may_2023 plain_sum plain_mean
                  scenario_fg two_trades scenario_merged scenario_hd
                  scenario_load)).
Defined.

Lemma scenario_summary_row_In : In scenario_summary_row scenario_merged.
Proof. left. reflexivity. Qed.

Lemma extreme_fear_holds_fear : holds_ignoring_case "fear" "Extreme Fear".
Proof.
  exists "Extreme "%string, "Fear"%string, EmptyString.
  split; [reflexivity|]. cbn. repeat split.
Qed.

(** The day of the two trades is labelled [Fear], from "Extreme Fear", and
    so would it be from "EXTREME FEAR". *)
Lemma regime_of_classification_witness :
  In scenario_summary_row scenario_merged
  /\ Merged.classification scenario_summary_row = Some "Extreme Fear"%string
  /\ holds_ignoring_case "fear" "Extreme Fear"
  /\ categorize_regime (Some "Extreme Fear"%string) = "Fear"%string
  /\ Merged.Regime scenario_summary_row = "Fear"%string
  /\ categorize_regime (Some "EXTREME FEAR"%string)
     = categorize_regime (Some "Extreme Fear"%string).
Proof.
  split; [exact scenario_summary_row_In|]. split; [reflexivity|].
  split; [exact extreme_fear_holds_fear|].
  assert (Hf : categorize_regime (Some "Extreme Fear"%string) = "Fear"%string).
  { exact (proj2 (proj1 (proj1 regime_of_classification
                           (Some "Extreme Fear"%string)))
                 extreme_fear_holds_fear). }
  split; [exact Hf|]. split.
  - exact (eq_trans
             (proj1 (proj1 (proj2 regime_of_classification) parse_iso_date
                       noon_1_may_2023 plain_sum plain_mean
                       scenario_fg two_trades scenario_merged scenario_hd
                       scenario_summary_row scenario_load
                       scenario_summary_row_In))
             Hf).
  - apply (proj2 (proj2 regime_of_classification)). cbn. repeat split.
Defined.

Lemma scenario_sentiment_ok :
  process_fear_greed parse_iso_date scenario_fg = Ok scenario_sentiment.
Proof. vm_compute. reflexivity. Qed.

(** Two records of the same day: one row is kept. *)
Lemma first_seen_per_date_witness :
  process_fear_greed parse_iso_date scenario_fg = Ok scenario_sentiment
  /\ NoDup (map fg_date scenario_sentiment).
Proof.
  split; [exact scenario_sentiment_ok|].
  exact (proj1 (first_seen_per_date parse_iso_date scenario_fg
                  scenario_sentiment scenario_sentiment_ok)).
Defined.

Lemma bad_date_rejected :
  exists r s, In r [fear_day; bad_date_day]
              /\ FG.date r = Some s /\ parse_iso_date s = None.
Proof.
  exists bad_date_day, "yesterday"%string.
  split; [right; left; reflexivity|]. split; reflexivity.
Qed.

(** A date that is no date aborts the load. *)
Lemma sentiment_errors_witness :
  (exists r s, In r [fear_day; bad_date_day]
               /\ FG.date r = Some s /\ parse_iso_date s = None)
  /\ exists e,
       load_and_preprocess_data parse_iso_date noon_1_may_2023 plain_sum plain_mean
         [fear_day; bad_date_day] two_trades = Raise e.
Proof.
  split; [exact bad_date_rejected|].
  exact (proj1 (proj2 (sentiment_errors parse_iso_date noon_1_may_2023 plain_sum plain_mean
                         [fear_day; bad_date_day]))
               (proj2 (proj1 (sentiment_errors parse_iso_date noon_1_may_2023 plain_sum plain_mean
                                [fear_day; bad_date_day]))
                      bad_date_rejected)
               two_trades).
Defined.

(** A record with no classification and a record with no date: the load
    does not raise, and the day is labelled [Neutral]. *)
Lemma sentiment_gaps_accepted :
  FG.classification no_label_day = None
  /\ FG.date no_date_day = None
  /\ option_map (map Merged.Regime)
       (summary (example_load [no_label_day; no_date_day] two_trades))
     = Some ["Neutral"%string].
Proof. split; [reflexivity|]. split; [reflexivity|]. vm_compute. reflexivity. Qed.

(** The two trades, run at noon of 1 May and of 2 May 2023. *)
Lemma two_runs_agree_witness :
  (forall r s, In r scenario_fg -> FG.date r = Some s ->
               parse_iso_date s = parse_iso_date s)
  /\ clock_free two_trades
  /\ load_and_preprocess_data parse_iso_date noon_1_may_2023 plain_sum plain_mean
       scenario_fg two_trades
     = load_and_preprocess_data parse_iso_date noon_2_may_2023 plain_sum
         plain_mean scenario_fg two_trades.
Proof.
  split; [intros r s _ _; reflexivity|]. split; [exact two_trades_clock_free|].
  exact (proj1 (two_runs_agree parse_iso_date parse_iso_date
                  noon_1_may_2023 noon_2_may_2023 plain_sum plain_mean
                  scenario_fg two_trades
                  (fun r s _ _ => eq_refl) two_trades_clock_free)).
Defined.

(** A trade whose timestamp reads [now]: run at noon of 1 May 2023 it falls
    on the day of the sentiment record and the summary has that day; run a
    day later, from an empty cache again, the summary is empty. *)
Lemma clock_text_changes_summary :
  HD.Timestamp_IST trade_now = Some "now"%string
  /\ option_map (map Merged.Date)
       (summary (fst (cached_load parse_iso_date noon_1_may_2023 plain_sum
                        plain_mean None [fear_day] [trade_now])))
     = Some [mkDate 2023 5 1]
  /\ option_map (map Merged.Date)
       (summary (fst (cached_load parse_iso_date noon_2_may_2023 plain_sum
                        plain_mean None [fear_day] [trade_now])))
     = Some [].
Proof.
  split; [reflexivity|]. split; vm_compute; reflexivity.
Qed.

(** Two taker trades with no [Account] on one day: a taker ratio of 2. *)
Lemma taker_ratio_above_one :
  option_map (map (fun m => Daily.Taker_Ratio (Merged.stats m)))
    (summary (example_load [fear_day]
                [may_trade None fzero true; may_trade None fzero true]))
  = Some [Some (2 # 1)]
  /\ ~ (2 # 1 <= 1)%Q.
Proof.
  split; [vm_compute; reflexivity|].
  unfold Qle. simpl. lia.
Qed.

(** A winning trade with no [Account]: one decided trade against a total
    of none.  A trade whose [Closed PnL] is NaN: fewer decided trades than
    the total, and no trade that nets to zero. *)
Lemma decided_trades_against_total :
  (option_map (map decided_and_total)
     (summary (example_load [fear_day] [may_trade None (float_of_Z 10) true]))
   = Some [(1, 0)]
   /\ ~ (1 <= 0))
  /\ (option_map (map decided_and_total)
        (summary (example_load [fear_day]
                    [may_trade (Some "0xa1"%string) S754_nan true]))
      = Some [(0, 1)]
      /\ 0 < 1
      /\ option_map (map HD.Net_PnL)
           (trades (example_load [fear_day]
                      [may_trade (Some "0xa1"%string) S754_nan true]))
         = Some [S754_nan]
      /\ ~ is_zero S754_nan).
Proof.
  split; [split; [vm_compute; reflexivity|lia]|].
  split; [vm_compute; reflexivity|]. split; [lia|].
  split; [vm_compute; reflexivity|]. intros [s H]. discriminate H.
Qed.

(* ================================================================== *)
(** * Days in order of time *)
(* ================================================================== *)

Lemma era_step_all :
  forallb (fun i => forallb (fun j => era_step_check i j) (Zrange 366))
          (Zrange 400) = true.
Proof. vm_cast_no_check (@eq_refl bool true). Qed.

Lemma era_step_ok (doe : Z) :
  0 <= doe < 146096 ->
  date_ltb (civil_of_doe 0 doe) (civil_of_doe 0 (doe + 1)) = true.
Proof.
  intros H.
  pose proof era_step_all as Hall. rewrite forallb_forall in Hall.
  assert (Hi : 0 <= doe / 366 < 400).
  { split; [apply Z.div_pos; lia|apply Z.div_lt_upper_bound; lia]. }
  specialize (Hall (doe / 366) (Zrange_In 400 _ Hi)).
  rewrite forallb_forall in Hall.
  pose proof (Z.mod_pos_bound doe 366 ltac:(lia)) as Hj.
  specialize (Hall (doe mod 366) (Zrange_In 366 _ Hj)).
  unfold era_step_check in Hall.
  rewrite <- Z.div_mod in Hall by lia.
  destruct (doe <? 146096) eqn:E; [exact Hall|].
  apply Z.ltb_ge in E. lia.
Qed.

Lemma date_ltb_shift (a b : CalendarDate) (k : Z) :
  date_ltb (mkDate (year a + k) (month a) (day a))
           (mkDate (year b + k) (month b) (day b))
  = date_ltb a b.
Proof.
  apply eq_true_iff_eq. rewrite !date_ltb_lex. simpl. lia.
Qed.

Lemma civil_from_days_era (z : Z) :
  civil_from_days z
  = civil_of_doe ((z + 719468) / 146097) ((z + 719468) mod 146097).
Proof.
  pose proof (Z.div_mod (z + 719468) 146097 ltac:(lia)) as Hd.
  pose proof (Z.mod_pos_bound (z + 719468) 146097 ltac:(lia)) as Hb.
  rewrite <- civil_from_days_split by exact Hb.
  f_equal. lia.
Qed.

(** The next day number is a later date. *)
Lemma civil_from_days_step (z : Z) :
  date_ltb (civil_from_days z) (civil_from_days (z + 1)) = true.
Proof.
  rewrite (civil_from_days_era z).
  pose proof (Z.div_mod (z + 719468) 146097 ltac:(lia)) as Hd.
  pose proof (Z.mod_pos_bound (z + 719468) 146097 ltac:(lia)) as Hb.
  set (era := (z + 719468) / 146097) in *.
  set (doe := (z + 719468) mod 146097) in *.
  destruct (Z.eq_dec doe 146096) as [E|E].
  - replace (z + 1) with ((era + 1) * 146097 + 0 - 719468) by lia.
    rewrite civil_from_days_split by lia. rewrite E.
    rewrite (civil_of_doe_era era), (civil_of_doe_era (era + 1)).
    replace (civil_of_doe 0 146096) with (mkDate 400 2 29)
      by (vm_compute; reflexivity).
    replace (civil_of_doe 0 0) with (mkDate 0 3 1) by (vm_compute; reflexivity).
    apply date_ltb_lex. cbn [year month day]. lia.
  - replace (z + 1) with (era * 146097 + (doe + 1) - 719468) by lia.
    rewrite civil_from_days_split by lia.
    rewrite (civil_of_doe_era era doe), (civil_of_doe_era era (doe + 1)).
    rewrite date_ltb_shift. apply era_step_ok. lia.
Qed.

Lemma date_ltb_trans (a b c : CalendarDate) :
  date_ltb a b = true -> date_ltb b c = true -> date_ltb a c = true.
Proof. rewrite !date_ltb_lex. lia. Qed.

Lemma date_ltb_irrefl (a : CalendarDate) : date_ltb a a = false.
Proof.
  destruct (date_ltb a a) eqn:E; [|reflexivity].
  apply date_ltb_lex in E. lia.
Qed.

(** A later day number is a later date. *)
Lemma civil_from_days_lt (z1 z2 : Z) :
  z1 < z2 -> date_ltb (civil_from_days z1) (civil_from_days z2) = true.
Proof.
  intros H. replace z2 with (z1 + 1 + (z2 - z1 - 1)) by lia.
  assert (Hk : 0 <= z2 - z1 - 1) by lia.
  generalize (z2 - z1 - 1) Hk. clear H Hk z2.
  apply natlike_ind.
  - rewrite Z.add_0_r. apply civil_from_days_step.
  - intros k Hk IH. eapply date_ltb_trans; [exact IH|].
    replace (z1 + 1 + Z.succ k) with (z1 + 1 + k + 1) by lia.
    apply civil_from_days_step.
Qed.

Lemma civil_from_days_inj (z1 z2 : Z) :
  civil_from_days z1 = civil_from_days z2 -> z1 = z2.
Proof.
  intros H. destruct (Z.lt_trichotomy z1 z2) as [L|[E|L]]; [|exact E|].
  - apply civil_from_days_lt in L. rewrite H, date_ltb_irrefl in L. discriminate.
  - apply civil_from_days_lt in L. rewrite H, date_ltb_irrefl in L. discriminate.
Qed.

Lemma civil_from_days_ltb (z1 z2 : Z) :
  date_ltb (civil_from_days z1) (civil_from_days z2) = true <-> z1 < z2.
Proof.
  split; [|apply civil_from_days_lt].
  intros H. destruct (Z.lt_trichotomy z1 z2) as [L|[E|L]]; [exact L| |].
  - subst. rewrite date_ltb_irrefl in H. discriminate.
  - apply civil_from_days_lt in L.
    pose proof (date_ltb_trans _ _ _ H L) as Hc.
    rewrite date_ltb_irrefl in Hc. discriminate.
Qed.

Lemma utc_of_row (now : Z) (r : HD.Raw) (row : HD.Row) (utc : Z) :
  hd_row now r = Ok row -> HD.Timestamp_UTC row = Some utc ->
  HD.Date row = Some (civil_from_days (utc / ns_per_day)).
Proof.
  intros Hr Hu. apply hd_row_inv in Hr as (_ & _ & Hd & _).
  rewrite Hu, date_of_utc in Hd. exact Hd.
Qed.

(** X1: two trades of a load get the same [Date] exactly when their UTC
    instants lie on the same UTC day, and the dates follow the instants:
    an earlier day gives an earlier date, and a trade not later than
    another has a date not later. *)
Theorem same_utc_day_same_date parse_date clock group_sum group_mean
        (df_fg : list FG.Raw) (df_hd : list HD.Raw)
        (merged : list Merged.Row) (hd : list HD.Row)
        (a b : HD.Row) (ua ub : Z) :
  load_and_preprocess_data parse_date clock group_sum group_mean df_fg df_hd
  = Ok (merged, hd) ->
  In a hd -> In b hd ->
  HD.Timestamp_UTC a = Some ua -> HD.Timestamp_UTC b = Some ub ->
  exists da db,
    HD.Date a = Some da /\ HD.Date b = Some db
    /\ (da = db <-> ua / ns_per_day = ub / ns_per_day)
    /\ (date_ltb da db = true <-> ua / ns_per_day < ub / ns_per_day)
    /\ (ua <= ub -> date_leb da db = true).
Proof.
  intros Hload Ha Hb Hua Hub.
  destruct (load_inv _ _ _ _ _ _ _ _ Hload) as (fg & _ & Hhd & _).
  destruct (traverse_In _ _ _ _ Hhd Ha) as (ra & _ & Hra).
  destruct (traverse_In _ _ _ _ Hhd Hb) as (rb & _ & Hrb).
  exists (civil_from_days (ua / ns_per_day)), (civil_from_days (ub / ns_per_day)).
  split; [eapply utc_of_row; eassumption|].
  split; [eapply utc_of_row; eassumption|].
  split; [|split].
  - split; [apply civil_from_days_inj|intros ->; reflexivity].
  - apply civil_from_days_ltb.
  - intros Hle. unfold date_leb. apply negb_true_iff.
    destruct (date_ltb (civil_from_days (ub / ns_per_day))
                       (civil_from_days (ua / ns_per_day))) eqn:E; [|reflexivity].
    apply civil_from_days_ltb in E.
    pose proof (Z.div_le_mono ua ub ns_per_day ltac:(reflexivity) Hle). lia.
Qed.

(* ================================================================== *)
(** * What makes the load raise *)
(* ================================================================== *)

Lemma refused_inv (s : string) :
  refused s = true ->
  is_nat_string s = false /\ reads_clock s = false /\ strptime s = None.
Proof.
  unfold refused. rewrite !andb_true_iff, !negb_true_iff.
  intros [[[_ H1] H2] H3]. destruct (strptime s); [discriminate|]. auto.
Qed.

Lemma to_datetime_ist_refused (now : Z) (s : string) :
  refused s = true ->
  to_datetime_ist now (Some s) = Raise (ValueError "Timestamp IST" s).
Proof.
  intros H. apply refused_inv in H as (H1 & H2 & H3).
  unfold to_datetime_ist. rewrite H1, H2, H3. reflexivity.
Qed.

(** A text that the reader refuses makes the trade step raise, at line 33. *)
Lemma process_traders_refused (clock : nat -> Z) (df_hd : list HD.Raw) :
  (exists t s, In t df_hd /\ HD.Timestamp_IST t = Some s /\ refused s = true) ->
  exists e, process_traders clock df_hd = Raise e.
Proof.
  intros (t & s & Ht & Hs & Hr). unfold process_traders.
  destruct (enumerate_from_In_inv 0 df_hd t Ht) as [k Hk].
  destruct (proj2 (traverse_raise
              (fun ir => to_datetime_ist (clock (fst ir))
                                         (HD.Timestamp_IST (snd ir)))
              (enumerate df_hd))) as [e He].
  - exists (k, t), (ValueError "Timestamp IST" s). split; [exact Hk|].
    cbn [fst snd]. rewrite Hs. apply to_datetime_ist_refused. exact Hr.
  - exists e. rewrite He. reflexivity.
Qed.

(* ================================================================== *)
(** * Counts over the whole frame *)
(* ================================================================== *)

Lemma sum_bool_cons {A} (p : A -> bool) (x : A) (g : list A) :
  sum_bool p (x :: g) = (if p x then 1 else 0) + sum_bool p g.
Proof.
  unfold sum_bool. simpl. destruct (p x); simpl length; lia.
Qed.

(** Among keys without duplicates, a row falls under at most one. *)
Lemma one_key_matches (ks : list CalendarDate) (x : option CalendarDate) (c : Z) :
  NoDup ks ->
  sum_Z (map (fun d => if option_eqb date_eqb x (Some d) then c else 0) ks)
  = match x with
    | Some d => if mem date_eqb d ks then c else 0
    | None => 0
    end.
Proof.
  intros Hnd. induction ks as [|k ks IH]; simpl.
  - destruct x; reflexivity.
  - inversion Hnd as [|? ? Hn Hnd']; subst. rewrite (IH Hnd'). clear IH.
    destruct x as [d|]; simpl; [|reflexivity].
    destruct (date_eqb d k) eqn:E; simpl.
    + apply date_eqb_eq in E. subst k.
      destruct (mem date_eqb d ks) eqn:Em; [|lia].
      apply (mem_In date_eqb date_eqb_eq) in Em. contradiction.
    + reflexivity.
Qed.

Lemma sum_Z_add {A} (f g : A -> Z) (l : list A) :
  sum_Z (map (fun a => f a + g a) l) = sum_Z (map f l) + sum_Z (map g l).
Proof. induction l as [|a l IH]; simpl; lia. Qed.

Lemma sum_Z_ext {A} (f g : A -> Z) (l : list A) :
  (forall a, f a = g a) -> sum_Z (map f l) = sum_Z (map g l).
Proof. intros H. induction l as [|a l IH]; simpl; [reflexivity|]. rewrite H, IH. reflexivity. Qed.

(** Summed over keys without duplicates, the groups count each row that
    falls under a key once. *)
Lemma groups_count_once (p : HD.Row -> bool) (ks : list CalendarDate)
      (hd : list HD.Row) :
  NoDup ks ->
  sum_Z (map (fun d => sum_bool p (group_of d hd)) ks)
  = sum_bool p (filter (in_keys ks) hd).
Proof.
  intros Hnd. induction hd as [|r hd IH].
  - simpl. induction ks as [|k ks IHk]; simpl; [reflexivity|].
    inversion Hnd; subst. rewrite IHk by assumption. reflexivity.
  - rewrite (sum_Z_ext _
      (fun d => (if option_eqb date_eqb (HD.Date r) (Some d)
                 then (if p r then 1 else 0) else 0)
                + sum_bool p (group_of d hd))).
    2:{ intros d. unfold group_of. simpl.
        destruct (option_eqb date_eqb (HD.Date r) (Some d)).
        - apply sum_bool_cons.
        - reflexivity. }
    rewrite sum_Z_add, IH, (one_key_matches ks _ _ Hnd).
    simpl. unfold in_keys at 2.
    destruct (HD.Date r) as [d|]; [|reflexivity].
    destruct (mem date_eqb d ks); [|reflexivity].
    rewrite sum_bool_cons. reflexivity.
Qed.

Lemma in_group_keys (hd : list HD.Row) (r : HD.Row) :
  In r hd -> in_keys (group_keys hd) r = has_date r.
Proof.
  intros Hin. unfold in_keys, has_date.
  destruct (HD.Date r) as [d|] eqn:E; [|reflexivity].
  apply (mem_In date_eqb date_eqb_eq). apply group_keys_In. eauto.
Qed.

Lemma group_keys_NoDup (hd : list HD.Row) : NoDup (group_keys hd).
Proof.
  unfold group_keys. eapply Permutation_NoDup.
  - symmetry. apply sort_values_perm.
  - apply unique_NoDup, date_eqb_eq.
Qed.

Lemma groups_count_dated (p : HD.Row -> bool) (hd : list HD.Row) :
  sum_Z (map (fun d => sum_bool p (group_of d hd)) (group_keys hd))
  = sum_bool p (filter has_date hd).
Proof.
  rewrite groups_count_once by apply group_keys_NoDup.
  f_equal. apply filter_ext_in. apply in_group_keys.
Qed.

Lemma accounts_count (g : list HD.Row) :
  Z.of_nat (length (accounts g)) = sum_bool has_account g.
Proof.
  unfold accounts, sum_bool, has_account. f_equal.
  induction g as [|r g IH]; simpl; [reflexivity|].
  destruct (HD.Account (HD.raw r)); simpl; congruence.
Qed.

Lemma column_total_groups group_sum group_mean (col : Daily.Agg -> Z)
      (p : HD.Row -> bool) (hd : list HD.Row) :
  (forall d g, col (aggregate group_sum group_mean d g) = sum_bool p g) ->
  column_total col (daily_stats group_sum group_mean hd)
  = sum_bool p (filter has_date hd).
Proof.
  intros Hcol. unfold column_total, daily_stats. rewrite map_map.
  rewrite <- groups_count_dated. apply sum_Z_ext.
  intros d. cbn [with_ratios Daily.agg]. apply Hcol.
Qed.

(* ================================================================== *)
(** * Counts and ratios of a day *)
(* ================================================================== *)

Section DedupLength.
Context {A K : Type}.
Variable eqb : K -> K -> bool.
Variable key : A -> K.

Lemma drop_duplicates_from_length (seen : list K) (df : list A) :
  (length (drop_duplicates_from eqb key seen df) <= length df)%nat.
Proof.
  revert seen. induction df as [|r df IH]; intros seen; simpl; [lia|].
  destruct (mem eqb (key r) seen); simpl.
  - specialize (IH seen). lia.
  - specialize (IH (key r :: seen)). lia.
Qed.

Lemma drop_duplicates_length (df : list A) :
  (length (drop_duplicates eqb key df) <= length df)%nat.
Proof. apply drop_duplicates_from_length. Qed.

Lemma drop_duplicates_nonempty (df : list A) :
  df <> [] -> drop_duplicates eqb key df <> [].
Proof.
  destruct df as [|r df]; [congruence|]. intros _.
  unfold drop_duplicates. simpl. discriminate.
Qed.
End DedupLength.

Lemma daily_row_unique group_sum group_mean (hd : list HD.Row) (row : Daily.Row) :
  In row (daily_stats group_sum group_mean hd) ->
  Daily.Unique_Accounts (Daily.agg row)
  = Z.of_nat (length (drop_duplicates String.eqb (fun a => a)
                        (accounts (trades_of hd row)))).
Proof.
  intros Hin. apply daily_stats_In in Hin as (d & Hd & ->). reflexivity.
Qed.

(** X4: every day of the daily aggregates has at least one trade, and its
    trades are the trades of the frame with its date; on it
    [0 <= Unique_Accounts <= Total_Trades <= number of trades],
    [Unique_Accounts] is zero exactly when [Total_Trades] is, which is
    exactly when no trade of the day has an [Account], and [Taker_Trades]
    is at most the number of trades. *)
Theorem daily_count_bounds parse_date clock group_sum group_mean
        (df_fg : list FG.Raw) (df_hd : list HD.Raw)
        (merged : list Merged.Row) (hd : list HD.Row) (row : Daily.Row) :
  load_and_preprocess_data parse_date clock group_sum group_mean df_fg df_hd
  = Ok (merged, hd) ->
  daily_row group_sum group_mean hd merged row ->
  1 <= Z.of_nat (length (trades_of hd row))
  /\ (forall t, In t (trades_of hd row) <->
                In t hd /\ HD.Date t = Some (daily_date row))
  /\ 0 <= Daily.Unique_Accounts (Daily.agg row)
     <= Daily.Total_Trades (Daily.agg row)
  /\ Daily.Total_Trades (Daily.agg row) <= Z.of_nat (length (trades_of hd row))
  /\ (Daily.Unique_Accounts (Daily.agg row) = 0
      <-> Daily.Total_Trades (Daily.agg row) = 0)
  /\ (Daily.Total_Trades (Daily.agg row) = 0
      <-> forall t, In t (trades_of hd row) -> HD.Account (HD.raw t) = None)
  /\ 0 <= Daily.Taker_Trades (Daily.agg row)
     <= Z.of_nat (length (trades_of hd row)).
Proof.
  intros Hload Hrow.
  pose proof (daily_row_In _ _ _ _ _ _ _ _ _ Hload Hrow) as Hin.
  destruct (daily_row_counts group_sum group_mean hd row Hin)
    as (_ & _ & HT & Htot & _ & Hne).
  pose proof (daily_row_unique group_sum group_mean hd row Hin) as Hu.
  set (g := trades_of hd row) in *.
  pose proof (drop_duplicates_length String.eqb (fun a : string => a) (accounts g))
    as Hle.
  pose proof (drop_duplicates_nonempty String.eqb (fun a : string => a) (accounts g))
    as Hnn.
  assert (Hacc : (length (accounts g) <= length g)%nat).
  { unfold accounts. pose proof (dropna_length_le
      (map (fun r => HD.Account (HD.raw r)) g)) as H.
    rewrite length_map in H. exact H. }
  pose proof (sum_bool_bounds HD.Is_Taker g) as BT.
  split; [destruct g; [congruence|simpl length; lia]|].
  split.
  { intros t. unfold g, trades_of, group_of. rewrite filter_In.
    rewrite option_date_eqb_eq. tauto. }
  split; [lia|]. split; [lia|]. split; [|split; [|lia]].
  - rewrite Hu, Htot. split.
    + intros H0. destruct (accounts g) as [|a l] eqn:E; [reflexivity|].
      exfalso. destruct (drop_duplicates String.eqb (fun a => a) (a :: l)) eqn:Ed.
      * apply (Hnn ltac:(discriminate)). reflexivity.
      * simpl length in H0. lia.
    + intros H0. destruct (accounts g) as [|a l] eqn:E; [reflexivity|].
      simpl length in H0. lia.
  - rewrite Htot. unfold accounts. split.
    + intros H0 t Ht.
      destruct (HD.Account (HD.raw t)) as [a|] eqn:Ea; [|reflexivity].
      exfalso.
      assert (Hin' : In a (dropna (map (fun r => HD.Account (HD.raw r)) g))).
      { apply dropna_In. apply in_map_iff. exists t. auto. }
      destruct (dropna (map (fun r => HD.Account (HD.raw r)) g));
        [destruct Hin'|simpl length in H0; lia].
    + intros Hall.
      destruct (dropna (map (fun r => HD.Account (HD.raw r)) g)) as [|a l] eqn:E;
        [reflexivity|].
      exfalso.
      assert (Hin' : In a (dropna (map (fun r => HD.Account (HD.raw r)) g)))
        by (rewrite E; left; reflexivity).
      apply dropna_In, in_map_iff in Hin' as (t & Ea & Ht).
      rewrite (Hall t Ht) in Ea. discriminate.
Qed.

Lemma quotient_zero (n d : Z) :
  0 < d -> (inject_Z n / inject_Z d == 0)%Q <-> n = 0.
Proof.
  intros Hd. destruct d as [|p|p]; try lia.
  unfold Qeq, Qdiv, Qmult, Qinv, inject_Z. simpl. lia.
Qed.

Lemma quotient_one (n d : Z) :
  0 < d -> (inject_Z n / inject_Z d == 1)%Q <-> n = d.
Proof.
  intros Hd. destruct d as [|p|p]; try lia.
  unfold Qeq, Qdiv, Qmult, Qinv, inject_Z. simpl. lia.
Qed.

Lemma sum_bool_zero {A} (p : A -> bool) (g : list A) :
  sum_bool p g = 0 <-> forall x, In x g -> p x = false.
Proof.
  unfold sum_bool. split.
  - intros H x Hx. destruct (p x) eqn:E; [|reflexivity].
    assert (Hf : In x (filter p g)) by (apply filter_In; auto).
    destruct (filter p g); [destruct Hf|simpl length in H; lia].
  - intros H. destruct (filter p g) as [|x l] eqn:E; [reflexivity|].
    assert (Hf : In x (filter p g)) by (rewrite E; left; reflexivity).
    apply filter_In in Hf as [Hx Hp]. rewrite (H x Hx) in Hp. discriminate.
Qed.

Lemma sum_bool_all {A} (p : A -> bool) (g : list A) :
  sum_bool p g = Z.of_nat (length g) <-> forall x, In x g -> p x = true.
Proof.
  unfold sum_bool. induction g as [|x g IH]; simpl.
  - split; [intros _ y []|reflexivity].
  - pose proof (filter_length_le p g) as Hle.
    destruct (p x) eqn:E; simpl length.
    + split.
      * intros H y [<-|Hy]; [exact E|]. apply IH; [lia|exact Hy].
      * intros H. f_equal. f_equal.
        assert (Hg : Z.of_nat (length (filter p g)) = Z.of_nat (length g))
          by (apply IH; intros y Hy; apply H; auto).
        lia.
    + split; [lia|]. intros H. specialize (H x (or_introl eq_refl)). congruence.
Qed.

(** X5: [Win_Rate] is 0 exactly on the days with no winning trade, and 1
    exactly on the days with a winning trade and no losing one. *)
Theorem win_rate_extremes parse_date clock group_sum group_mean
        (df_fg : list FG.Raw) (df_hd : list HD.Raw)
        (merged : list Merged.Row) (hd : list HD.Row) (row : Daily.Row) :
  load_and_preprocess_data parse_date clock group_sum group_mean df_fg df_hd
  = Ok (merged, hd) ->
  daily_row group_sum group_mean hd merged row ->
  exists q,
    Daily.Win_Rate row = Some q
    /\ ((q == 0)%Q <-> forall t, In t (trades_of hd row) -> HD.Is_Win t = false)
    /\ ((q == 1)%Q <-> (exists t, In t (trades_of hd row) /\ HD.Is_Win t = true)
                       /\ forall t, In t (trades_of hd row) ->
                                    HD.Is_Loss t = false).
Proof.
  intros Hload Hrow.
  pose proof (daily_row_In _ _ _ _ _ _ _ _ _ Hload Hrow) as Hin.
  destruct (daily_row_ratios group_sum group_mean hd row Hin) as [Hwr _].
  destruct (daily_row_counts group_sum group_mean hd row Hin)
    as (HW & HL & _ & _ & _ & _).
  set (g := trades_of hd row) in *.
  pose proof (sum_bool_bounds HD.Is_Win g) as BW.
  pose proof (sum_bool_bounds HD.Is_Loss g) as BL.
  eexists. split; [exact Hwr|].
  rewrite quotient_zero, quotient_one by lia.
  rewrite HW, HL. split.
  - apply sum_bool_zero.
  - rewrite <- (sum_bool_zero HD.Is_Loss g).
    assert (Hex : (exists t, In t g /\ HD.Is_Win t = true)
                  <-> 0 < sum_bool HD.Is_Win g).
    { unfold sum_bool. rewrite <- (filter_nonempty HD.Is_Win g). lia. }
    rewrite Hex. lia.
Qed.

(** X6: on a day whose trades all have an [Account], [Total_Trades] is the
    number of its trades, the guard [replace(0, 1)] changes nothing, and
    [Taker_Ratio] is the share of taker trades: 0 exactly when no trade of
    the day is a taker, 1 exactly when all are. *)
Theorem taker_ratio_fraction parse_date clock group_sum group_mean
        (df_fg : list FG.Raw) (df_hd : list HD.Raw)
        (merged : list Merged.Row) (hd : list HD.Row) (row : Daily.Row) :
  load_and_preprocess_data parse_date clock group_sum group_mean df_fg df_hd
  = Ok (merged, hd) ->
  daily_row group_sum group_mean hd merged row ->
  (forall t, In t (trades_of hd row) -> HD.Account (HD.raw t) <> None) ->
  Daily.Total_Trades (Daily.agg row) = Z.of_nat (length (trades_of hd row))
  /\ replace_0_1 (Daily.Total_Trades (Daily.agg row))
     = Daily.Total_Trades (Daily.agg row)
  /\ exists q,
       Daily.Taker_Ratio row = Some q
       /\ (q == inject_Z (Daily.Taker_Trades (Daily.agg row))
                / inject_Z (Z.of_nat (length (trades_of hd row))))%Q
       /\ ((q == 0)%Q <-> forall t, In t (trades_of hd row) ->
                                    HD.Is_Taker t = false)
       /\ ((q == 1)%Q <-> forall t, In t (trades_of hd row) ->
                                    HD.Is_Taker t = true).
Proof.
  intros Hload Hrow Hacc.
  pose proof (daily_row_In _ _ _ _ _ _ _ _ _ Hload Hrow) as Hin.
  destruct (daily_row_ratios group_sum group_mean hd row Hin) as [_ Htr].
  destruct (daily_row_counts group_sum group_mean hd row Hin)
    as (_ & _ & HT & Htot & _ & Hne).
  set (g := trades_of hd row) in *.
  assert (Hn : Daily.Total_Trades (Daily.agg row) = Z.of_nat (length g)).
  { rewrite Htot. unfold accounts.
    rewrite dropna_length_all, length_map; [reflexivity|].
    intros c Hc. apply in_map_iff in Hc as (t & <- & Ht). apply Hacc. exact Ht. }
  assert (Hpos : 1 <= Z.of_nat (length g))
    by (destruct g; [congruence|simpl length; lia]).
  split; [exact Hn|]. split.
  { unfold replace_0_1. destruct (_ =? 0) eqn:E; [|reflexivity].
    apply Z.eqb_eq in E. lia. }
  eexists. split; [exact Htr|].
  rewrite Hn. replace (Z.max 1 (Z.of_nat (length g))) with (Z.of_nat (length g))
    by lia.
  split; [reflexivity|].
  rewrite quotient_zero, quotient_one by lia. rewrite HT.
  split; [apply sum_bool_zero|apply sum_bool_all].
Qed.

(* ================================================================== *)
(** * The sentiment record of a summary row *)
(* ================================================================== *)

Lemma fg_row_first_seen parse_date (df_fg : list FG.Raw) (fg : list FG.Row)
      (row : FG.Row) :
  process_fear_greed parse_date df_fg = Ok fg ->
  In row fg ->
  FG.Regime row = categorize_regime (FG.classification (FG.raw (FG.dated row)))
  /\ exists pre post,
       df_fg = pre ++ FG.raw (FG.dated row) :: post
       /\ date_of parse_date (FG.raw (FG.dated row)) = Ok (fg_date row)
       /\ forall r, In r pre -> date_of parse_date r <> Ok (fg_date row).
Proof.
  intros H Hin.
  destruct (process_fear_greed_inv _ _ _ H) as (dated & Ht & ->).
  apply in_map_iff in Hin as (dr & <- & Hin). split; [reflexivity|].
  apply (drop_duplicates_first (option_eqb date_eqb) FG.Date
           option_date_eqb_eq) in Hin as (pre' & post' & E & Hn).
  rewrite E in Ht.
  apply traverse_app_inv in Ht as (pre & a & post & -> & Hp & Ha & _).
  apply fg_with_date_inv in Ha as [Hraw Ha].
  exists pre, post. unfold fg_date. simpl. rewrite Hraw.
  split; [reflexivity|]. split; [exact Ha|].
  apply (dated_rows_before parse_date pre pre' _ Hp). exact Hn.
Qed.

(** X7: the score, the classification and the regime of a summary row are
    those of the first record of the sentiment file that carries its date;
    later records of the same date show nowhere. *)
Theorem summary_shows_first_record parse_date clock group_sum group_mean
        (df_fg : list FG.Raw) (df_hd : list HD.Raw)
        (merged : list Merged.Row) (hd : list HD.Row) (m : Merged.Row) :
  load_and_preprocess_data parse_date clock group_sum group_mean df_fg df_hd
  = Ok (merged, hd) ->
  In m merged ->
  exists pre r post,
    df_fg = pre ++ r :: post
    /\ date_of parse_date r = Ok (Some (Merged.Date m))
    /\ (forall r', In r' pre -> date_of parse_date r' <> Ok (Some (Merged.Date m)))
    /\ Merged.value m = FG.value r
    /\ Merged.classification m = FG.classification r
    /\ Merged.Regime m = categorize_regime (FG.classification r).
Proof.
  intros Hload Hin.
  destruct (load_inv _ _ _ _ _ _ _ _ Hload) as (fg & Hfg & _ & ->).
  apply (Permutation_in _ (sort_values_perm merged_leb _)) in Hin.
  apply merge_inner_In in Hin as (l & row & _ & Hrow & Hd & ->).
  destruct (fg_row_first_seen _ _ _ _ Hfg Hrow)
    as (Hreg & pre & post & E & Hdate & Hbefore).
  exists pre, (FG.raw (FG.dated row)), post.
  unfold Merged.Date. cbn [join Merged.stats Merged.value Merged.classification
                             Merged.Regime].
  fold (daily_date l). rewrite Hd in Hdate, Hbefore.
  split; [exact E|]. split; [exact Hdate|]. split; [exact Hbefore|].
  split; [reflexivity|]. split; [reflexivity|exact Hreg].
Qed.


(* ================================================================== *)
(** * Regimes of related texts *)
(* ================================================================== *)

Lemma holds_inside (word a pre post : string) :
  holds_ignoring_case word a ->
  holds_ignoring_case word (pre ++ a ++ post)%string.
Proof.
  intros (p & mid & q & -> & Hm).
  exists (pre ++ p)%string, mid, (q ++ post)%string. split; [|exact Hm].
  clear. induction pre as [|c pre IH]; simpl.
  - induction p as [|c p IHp]; simpl; [|congruence].
    induction mid as [|c mid IHm]; simpl; [|congruence]. reflexivity.
  - congruence.
Qed.

(** X8: a text that holds a [Fear] text is [Fear], and a text that holds a
    text that is not [Neutral] is not [Neutral]: writing more around a
    label can turn [Greed] into [Fear] but never loses the label. *)
Theorem regime_of_longer_text (a pre post : string) :
  (categorize_regime (Some a) = "Fear"%string ->
   categorize_regime (Some (pre ++ a ++ post)%string) = "Fear"%string)
  /\ (categorize_regime (Some a) <> "Neutral"%string ->
      categorize_regime (Some (pre ++ a ++ post)%string) <> "Neutral"%string).
Proof.
  destruct (categorize_regime_cases (Some a)) as (Fa & Ga & Na & _).
  destruct (categorize_regime_cases (Some (pre ++ a ++ post)%string))
    as (Fb & Gb & Nb & _).
  cbn [str] in *. split.
  - intros H. apply Fb. apply holds_inside. apply Fa. exact H.
  - intros H Hn. apply Nb in Hn as [Hnf Hng]. apply H. apply Na. split.
    + intros Hf. apply Hnf. apply holds_inside. exact Hf.
    + intros Hg. apply Hng. apply holds_inside. exact Hg.
Qed.

(** X9: the three labels classify as themselves: relabelling a regime
    gives the same regime. *)
Theorem regime_labels_fixed (x : option string) :
  categorize_regime (Some (categorize_regime x)) = categorize_regime x.
Proof.
  destruct (categorize_regime_cases x) as (_ & _ & _ & [H|[H|H]]);
    rewrite H; reflexivity.
Qed.

(* ================================================================== *)
(** * The sidebar filter and the page *)
(* ================================================================== *)

(** The summary is the join itself, already in order. *)
Lemma summary_is_join parse_date clock group_sum group_mean
      (df_fg : list FG.Raw) (df_hd : list HD.Raw)
      (merged : list Merged.Row) (hd : list HD.Row) :
  load_and_preprocess_data parse_date clock group_sum group_mean df_fg df_hd
  = Ok (merged, hd) ->
  exists fg,
    process_fear_greed parse_date df_fg = Ok fg
    /\ traverse (fun ir => hd_row (clock (fst ir)) (snd ir)) (enumerate df_hd)
       = Ok hd
    /\ merged = merge_inner (daily_stats group_sum group_mean hd) fg
    /\ StronglySorted date_lt (map Merged.Date merged).
Proof.
  intros Hload. destruct (load_inv _ _ _ _ _ _ _ _ Hload) as (fg & Hfg & Hhd & ->).
  assert (Hs : StronglySorted date_lt
                 (map Merged.Date
                      (merge_inner (daily_stats group_sum group_mean hd) fg))).
  { apply merge_inner_sorted.
    - eapply process_fear_greed_NoDup; eassumption.
    - rewrite daily_stats_dates. apply group_keys_sorted. }
  rewrite sort_values_id by (apply sorted_lt_le; exact Hs).
  exists fg. auto.
Qed.

Lemma filter_keeps_order {A B} (R : B -> B -> Prop) (f : A -> B)
      (p : A -> bool) (l : list A) :
  StronglySorted R (map f l) -> StronglySorted R (map f (filter p l)).
Proof.
  induction l as [|a l IH]; simpl; intros Hs; [constructor|].
  inversion Hs as [|? ? Hs' Hall]; subst.
  destruct (p a); simpl; [|apply IH; exact Hs'].
  constructor; [apply IH; exact Hs'|].
  rewrite Forall_forall in *. intros b Hb. apply Hall.
  apply in_map_iff in Hb as (x & <- & Hx). apply in_map.
  apply filter_In in Hx. tauto.
Qed.

Lemma isin_In (x : string) (values : list string) :
  isin x values = true <-> In x values.
Proof.
  unfold isin. rewrite existsb_exists. split.
  - intros (y & Hy & E). apply String.eqb_eq in E. congruence.
  - intros H. exists x. split; [exact H|apply String.eqb_refl].
Qed.

(** X10: the filtered table holds exactly the summary rows whose regime is
    selected, in the order of the summary, so still strictly ascending by
    date; "Selected Days" is at most the number of summary days. *)
Theorem filtered_table parse_date clock group_sum group_mean
        (df_fg : list FG.Raw) (df_hd : list HD.Raw)
        (merged : list Merged.Row) (hd : list HD.Row)
        (regime_filter : list string) :
  load_and_preprocess_data parse_date clock group_sum group_mean df_fg df_hd
  = Ok (merged, hd) ->
  (forall m, In m (filter_regimes regime_filter merged)
             <-> In m merged /\ In (Merged.Regime m) regime_filter)
  /\ StronglySorted date_lt (map Merged.Date (filter_regimes regime_filter merged))
  /\ (length (filter_regimes regime_filter merged) <= length merged)%nat.
Proof.
  intros Hload.
  destruct (summary_is_join _ _ _ _ _ _ _ _ Hload) as (fg & _ & _ & _ & Hs).
  split; [|split].
  - intros m. unfold filter_regimes. rewrite filter_In, isin_In. tauto.
  - apply filter_keeps_order. exact Hs.
  - apply filter_length_le.
Qed.

Lemma regime_in_options (x : option string) :
  In (categorize_regime x) regime_options.
Proof.
  destruct (categorize_regime_cases x) as (_ & _ & _ & [H|[H|H]]);
    rewrite H; simpl; auto.
Qed.

Lemma filter_regimes_cons (regime_filter : list string) (m : Merged.Row)
      (rows : list Merged.Row) :
  filter_regimes regime_filter (m :: rows)
  = if isin (Merged.Regime m) regime_filter
    then m :: filter_regimes regime_filter rows
    else filter_regimes regime_filter rows.
Proof. reflexivity. Qed.

Lemma one_option_each (rows : list Merged.Row) :
  (forall m, In m rows -> In (Merged.Regime m) regime_options) ->
  (length (filter_regimes ["Fear"%string] rows)
   + length (filter_regimes ["Neutral"%string] rows)
   + length (filter_regimes ["Greed"%string] rows) = length rows)%nat.
Proof.
  induction rows as [|m rows IH]; intros H; [reflexivity|].
  assert (IH' := IH (fun x Hx => H x (or_intror Hx))).
  pose proof (H m (or_introl eq_refl)) as Hm.
  rewrite !filter_regimes_cons.
  destruct Hm as [E|[E|[E|[]]]]; rewrite <- E;
    repeat match goal with
           | |- context [isin ?a ?b] =>
               let v := eval vm_compute in (isin a b) in
               change (isin a b) with v
           end;
    cbn [length]; lia.
Qed.

(** X11: with the default selection, all three options, the filtered
    table is the whole summary; and each day shows under exactly one
    option: the days of the three single selections add up to the days of
    the summary. *)
Theorem every_day_selectable parse_date clock group_sum group_mean
        (df_fg : list FG.Raw) (df_hd : list HD.Raw)
        (merged : list Merged.Row) (hd : list HD.Row) :
  load_and_preprocess_data parse_date clock group_sum group_mean df_fg df_hd
  = Ok (merged, hd) ->
  filter_regimes regime_options merged = merged
  /\ (length (filter_regimes ["Fear"%string] merged)
      + length (filter_regimes ["Neutral"%string] merged)
      + length (filter_regimes ["Greed"%string] merged) = length merged)%nat.
Proof.
  intros Hload.
  assert (Hopt : forall m, In m merged -> In (Merged.Regime m) regime_options).
  { intros m Hm. rewrite (join_regime _ _ _ _ _ _ _ _ _ Hload Hm).
    apply regime_in_options. }
  split; [|apply one_option_each; exact Hopt].
  unfold filter_regimes. apply forallb_filter_id. apply forallb_forall.
  intros m Hm. apply isin_In. apply Hopt. exact Hm.
Qed.

(** A date text or a timestamp text that cannot be read makes the load
    raise. *)
Lemma load_raises_unread parse_date clock group_sum group_mean
      (df_fg : list FG.Raw) (df_hd : list HD.Raw) :
  (exists r s, In r df_fg /\ FG.date r = Some s /\ parse_date s = None)
  \/ (exists t s, In t df_hd /\ HD.Timestamp_IST t = Some s
                  /\ refused s = true) ->
  exists e, load_and_preprocess_data parse_date clock group_sum group_mean
              df_fg df_hd = Raise e.
Proof.
  unfold load_and_preprocess_data, rbind. intros [H|H].
  - apply process_fear_greed_raise in H as [e ->]. eauto.
  - destruct (process_fear_greed parse_date df_fg) as [fg|e]; [|eauto].
    apply (process_traders_refused clock) in H as [e ->]. eauto.
Qed.

(** X12: the page shows the error of the load, and stops, exactly when the
    load raises, whatever is selected; so it does whenever some sentiment
    date text or some trade timestamp text cannot be read.  It stops on the
    warning exactly when the load returned and nothing is selected; and a
    dashboard is only ever built from the table of a load that returned,
    filtered by a selection that is not empty. *)
Theorem page_outcome parse_date clock group_sum group_mean
        (df_fg : list FG.Raw) (df_hd : list HD.Raw)
        (regime_filter : list string) :
  (forall e,
      run_page parse_date clock group_sum group_mean df_fg df_hd regime_filter
      = ErrorShown e
      <-> load_and_preprocess_data parse_date clock group_sum group_mean
            df_fg df_hd = Raise e)
  /\ ((exists r s, In r df_fg /\ FG.date r = Some s /\ parse_date s = None)
      \/ (exists t s, In t df_hd /\ HD.Timestamp_IST t = Some s
                      /\ refused s = true) ->
      exists e, run_page parse_date clock group_sum group_mean df_fg df_hd
                  regime_filter = ErrorShown e)
  /\ (run_page parse_date clock group_sum group_mean df_fg df_hd regime_filter
      = WarningShown
      <-> regime_filter = []
          /\ exists v, load_and_preprocess_data parse_date clock group_sum
                         group_mean df_fg df_hd = Ok v)
  /\ (forall filtered_df n,
         run_page parse_date clock group_sum group_mean df_fg df_hd regime_filter
         = Dashboard filtered_df n ->
         regime_filter <> []
         /\ n = length filtered_df
         /\ exists merged hd,
              load_and_preprocess_data parse_date clock group_sum group_mean
                df_fg df_hd = Ok (merged, hd)
              /\ filtered_df = filter_regimes regime_filter merged).
Proof.
  split; [|split].
  - intros e. unfold run_page.
    destruct (load_and_preprocess_data parse_date clock group_sum group_mean
                df_fg df_hd) as [[merged hd]|e0].
    + destruct regime_filter; split; intros H; discriminate H.
    + split; intros H; injection H as <-; reflexivity.
  - intros H.
    apply (load_raises_unread parse_date clock group_sum group_mean) in H
      as [e He].
    exists e. unfold run_page. rewrite He. reflexivity.
  - unfold run_page.
    destruct (load_and_preprocess_data parse_date clock group_sum group_mean
                df_fg df_hd) as [[merged hd]|e0].
    + destruct regime_filter as [|x sel].
      * split; [split; eauto|]. intros f n H. discriminate H.
      * split; [split; [discriminate|intros [H _]; discriminate H]|].
        intros f n H. injection H as <- <-.
        split; [discriminate|]. split; [reflexivity|]. eauto.
    + split; [split; [discriminate|intros [_ [v H]]; discriminate H]|].
      intros f n H. discriminate H.
Qed.

(* ================================================================== *)
(** * The order of the trade rows *)
(* ================================================================== *)

Lemma sorted_lt_head (d : CalendarDate) (l : list CalendarDate) :
  StronglySorted date_lt (d :: l) -> ~ In d l.
Proof.
  intros Hs Hin. inversion Hs as [|? ? _ Hall]; subst.
  rewrite Forall_forall in Hall. specialize (Hall d Hin).
  unfold date_lt in Hall. rewrite date_ltb_irrefl in Hall. discriminate.
Qed.

(** Two strictly ascending lists of the same dates are the same list. *)
Lemma sorted_lt_unique (l1 l2 : list CalendarDate) :
  StronglySorted date_lt l1 -> StronglySorted date_lt l2 ->
  (forall d, In d l1 <-> In d l2) -> l1 = l2.
Proof.
  revert l2. induction l1 as [|a l1 IH]; intros l2 H1 H2 Hsame.
  - destruct l2 as [|b l2]; [reflexivity|].
    exfalso. apply (proj2 (Hsame b)). left. reflexivity.
  - destruct l2 as [|b l2].
    + exfalso. apply (proj1 (Hsame a)). left. reflexivity.
    + pose proof (sorted_lt_head _ _ H1) as Na.
      pose proof (sorted_lt_head _ _ H2) as Nb.
      inversion H1 as [|? ? H1' Hall1]; subst.
      inversion H2 as [|? ? H2' Hall2]; subst.
      rewrite Forall_forall in Hall1, Hall2.
      assert (E : a = b).
      { destruct (proj1 (Hsame a) (or_introl eq_refl)) as [E|Hin]; [auto|].
        destruct (proj2 (Hsame b) (or_introl eq_refl)) as [E|Hin']; [auto|].
        pose proof (Hall2 a Hin) as L1. pose proof (Hall1 b Hin') as L2.
        unfold date_lt in *.
        pose proof (date_ltb_trans _ _ _ L1 L2) as L.
        rewrite date_ltb_irrefl in L. discriminate. }
      subst b. f_equal. apply IH; [assumption|assumption|].
      intros d. split; intros Hd.
      * destruct (proj1 (Hsame d) (or_intror Hd)) as [E|Hin]; [|exact Hin].
        subst d. contradiction.
      * destruct (proj2 (Hsame d) (or_intror Hd)) as [E|Hin]; [|exact Hin].
        subst d. contradiction.
Qed.

Lemma group_keys_perm (hd hd' : list HD.Row) :
  Permutation hd hd' -> group_keys hd = group_keys hd'.
Proof.
  intros Hp. apply sorted_lt_unique; try apply group_keys_sorted.
  intros d. rewrite !group_keys_In.
  split; intros (row & Hin & E); exists row; split; try exact E.
  - eapply Permutation_in; eassumption.
  - eapply Permutation_in; [symmetry|]; eassumption.
Qed.

Lemma filter_perm {A} (p : A -> bool) (l l' : list A) :
  Permutation l l' -> Permutation (filter p l) (filter p l').
Proof.
  induction 1 as [|x l l' Hp IH|x y l|l l' l'' H1 IH1 H2 IH2]; simpl.
  - constructor.
  - destruct (p x); [constructor|]; exact IH.
  - destruct (p x), (p y); try reflexivity. apply perm_swap.
  - etransitivity; eassumption.
Qed.

Lemma sum_bool_perm {A} (p : A -> bool) (l l' : list A) :
  Permutation l l' -> sum_bool p l = sum_bool p l'.
Proof.
  intros Hp. unfold sum_bool. f_equal.
  apply Permutation_length, filter_perm, Hp.
Qed.

Lemma dropna_perm {A} (l l' : list (option A)) :
  Permutation l l' -> Permutation (dropna l) (dropna l').
Proof.
  induction 1 as [|x l l' Hp IH|x y l|l l' l'' H1 IH1 H2 IH2]; simpl.
  - constructor.
  - destruct x; [constructor|]; exact IH.
  - destruct x, y; try reflexivity. apply perm_swap.
  - etransitivity; eassumption.
Qed.

Lemma unique_length_perm (l l' : list string) :
  Permutation l l' ->
  length (drop_duplicates String.eqb (fun a => a) l)
  = length (drop_duplicates String.eqb (fun a => a) l').
Proof.
  intros Hp. apply Permutation_length. apply NoDup_Permutation.
  - apply unique_NoDup, String.eqb_eq.
  - apply unique_NoDup, String.eqb_eq.
  - intros a. rewrite !(unique_In String.eqb String.eqb_eq).
    split; apply Permutation_in; [exact Hp|symmetry; exact Hp].
Qed.

Lemma aggregate_perm group_sum group_mean (d : CalendarDate)
      (g g' : list HD.Row) :
  Permutation g g' ->
  same_counts (with_ratios (aggregate group_sum group_mean d g))
              (with_ratios (aggregate group_sum group_mean d g')).
Proof.
  intros Hp.
  assert (Ha : Permutation (accounts g) (accounts g')).
  { unfold accounts. apply dropna_perm, Permutation_map, Hp. }
  unfold same_counts. cbn [with_ratios aggregate Daily.agg Daily.Date
    Daily.Total_Trades Daily.Unique_Accounts Daily.Winning_Trades
    Daily.Losing_Trades Daily.Taker_Trades Daily.Win_Rate Daily.Taker_Ratio].
  rewrite (sum_bool_perm HD.Is_Win g g' Hp), (sum_bool_perm HD.Is_Loss g g' Hp),
    (sum_bool_perm HD.Is_Taker g g' Hp), (Permutation_length Ha),
    (unique_length_perm _ _ Ha).
  repeat split; reflexivity.
Qed.

Lemma daily_stats_perm group_sum group_mean (hd hd' : list HD.Row) :
  Permutation hd hd' ->
  Forall2 same_counts (daily_stats group_sum group_mean hd)
                      (daily_stats group_sum group_mean hd').
Proof.
  intros Hp. unfold daily_stats. rewrite <- (group_keys_perm hd hd' Hp).
  induction (group_keys hd) as [|d ks IH]; simpl; constructor; [|exact IH].
  apply aggregate_perm. unfold group_of. apply filter_perm. exact Hp.
Qed.

Lemma merge_inner_same (left left' : list Daily.Row) (fg : list FG.Row) :
  Forall2 same_counts left left' ->
  Forall2 same_summary (merge_inner left fg) (merge_inner left' fg).
Proof.
  induction 1 as [|l l' left left' Hl Hrest IH]; simpl; [constructor|].
  apply Forall2_app; [|exact IH].
  assert (Hd : Daily.Date (Daily.agg l) = Daily.Date (Daily.agg l'))
    by apply Hl.
  rewrite <- Hd.
  induction (filter _ fg) as [|r rs IHr]; simpl; constructor; [|exact IHr].
  unfold same_summary. cbn [join Merged.stats Merged.value Merged.classification
                            Merged.Regime]. auto.
Qed.

Lemma traverse_perm {A B} (f : A -> result B) (l l' : list A) (bs : list B) :
  Permutation l l' -> traverse f l = Ok bs ->
  exists bs', traverse f l' = Ok bs' /\ Permutation bs bs'.
Proof.
  intros Hp. revert bs.
  induction Hp as [|x l l' Hp IH|x y l|l l' l'' H1 IH1 H2 IH2]; intros bs H.
  - exists bs. split; [exact H|reflexivity].
  - simpl in *. destruct (f x) as [b|]; simpl in *; [|discriminate].
    destruct (traverse f l) as [bl|] eqn:E; simpl in *; [|discriminate].
    injection H as <-. destruct (IH bl eq_refl) as (bl' & -> & Hb).
    simpl. exists (b :: bl'). split; [reflexivity|constructor; exact Hb].
  - simpl in *. destruct (f y) as [by_|]; simpl in *; [|discriminate].
    destruct (f x) as [bx|]; simpl in *; [|discriminate].
    destruct (traverse f l) as [bl|]; simpl in *; [|discriminate].
    injection H as <-. exists (bx :: by_ :: bl). split; [reflexivity|apply perm_swap].
  - destruct (IH1 bs H) as (bs1 & H1' & P1).
    destruct (IH2 bs1 H1') as (bs2 & H2' & P2).
    exists bs2. split; [exact H2'|etransitivity; eassumption].
Qed.

Lemma dtype_of_perm {A} (l l' : list (option A)) :
  Permutation l l' -> dtype_of l = dtype_of l'.
Proof.
  intros Hp. unfold dtype_of.
  assert (E : forallb (fun c : option A =>
                         match c with None => true | Some _ => false end) l
              = forallb (fun c : option A =>
                           match c with None => true | Some _ => false end) l').
  { apply eq_true_iff_eq. rewrite !forallb_forall.
    split; intros H x Hx; apply H.
    - eapply Permutation_in; [symmetry; exact Hp|exact Hx].
    - eapply Permutation_in; [exact Hp|exact Hx]. }
  destruct l as [|a l], l' as [|a' l'].
  - reflexivity.
  - apply Permutation_nil in Hp. discriminate Hp.
  - symmetry in Hp. apply Permutation_nil in Hp. discriminate Hp.
  - rewrite E. reflexivity.
Qed.

(** Whether the merge accepts its keys does not depend on the left rows. *)
Lemma merge_accepts (left left' : list Daily.Row) (k : dtype)
      (fg : list FG.Row) (m : list Merged.Row) :
  merge left k fg = Ok m -> merge left' k fg = Ok (merge_inner left' fg).
Proof.
  unfold merge.
  destruct k, (dtype_of (map (fun r => FG.Date (FG.dated r)) fg));
    intros H; try discriminate H; reflexivity.
Qed.

Lemma load_steps parse_date clock group_sum group_mean
      (df_fg : list FG.Raw) (df_hd : list HD.Raw)
      (merged : list Merged.Row) (hd : list HD.Row) :
  load_and_preprocess_data parse_date clock group_sum group_mean df_fg df_hd
  = Ok (merged, hd) ->
  exists fg m,
    process_fear_greed parse_date df_fg = Ok fg
    /\ process_traders clock df_hd = Ok hd
    /\ merge (daily_stats group_sum group_mean hd) (dtype_of (map HD.Date hd)) fg
       = Ok m.
Proof.
  unfold load_and_preprocess_data, rbind.
  destruct (process_fear_greed parse_date df_fg) as [fg|]; [|discriminate].
  destruct (process_traders clock df_hd) as [hd'|] eqn:Ehd; [|discriminate].
  destruct (merge _ _ fg) as [m|] eqn:Em; [|discriminate].
  intros H. injection H as <- <-. exists fg, m. auto.
Qed.

(** X13: when no timestamp text is read as the time of the clock, the
    order of the rows of the trade file does not matter to the summary: a
    load of the same rows in another order returns too, with the same days
    in the same order and, day by day, the same counts, ratios, score,
    classification and regime.  (The two float columns, sums of floats, are
    left aside.) *)
Theorem trade_order_irrelevant parse_date clock group_sum group_mean
        (df_fg : list FG.Raw) (df_hd df_hd' : list HD.Raw)
        (merged : list Merged.Row) (hd : list HD.Row) :
  load_and_preprocess_data parse_date clock group_sum group_mean df_fg df_hd
  = Ok (merged, hd) ->
  Permutation df_hd df_hd' ->
  clock_free df_hd ->
  exists merged' hd',
    load_and_preprocess_data parse_date clock group_sum group_mean df_fg df_hd'
    = Ok (merged', hd')
    /\ Permutation hd hd'
    /\ Forall2 same_summary merged merged'.
Proof.
  intros Hload Hp Hfree.
  destruct (summary_is_join _ _ _ _ _ _ _ _ Hload) as (fg & Hfg & _ & Hm & _).
  destruct (load_steps _ _ _ _ _ _ _ _ Hload) as (fg0 & m0 & Hfg0 & Hhd & Hmerge).
  assert (fg0 = fg) by congruence. subst fg0.
  apply (clock_free_rows clock df_hd hd Hfree) in Hhd.
  destruct (traverse_perm (hd_row 0) df_hd df_hd' hd Hp Hhd) as (hd' & Hhd' & Hperm).
  assert (Hfree' : clock_free df_hd').
  { intros t s Ht Hs. apply (Hfree t s); [|exact Hs].
    eapply Permutation_in; [symmetry; exact Hp|exact Ht]. }
  apply (clock_free_rows clock df_hd' hd' Hfree') in Hhd'.
  assert (Hmerge' :
            merge (daily_stats group_sum group_mean hd')
                  (dtype_of (map HD.Date hd')) fg
            = Ok (merge_inner (daily_stats group_sum group_mean hd') fg)).
  { rewrite <- (dtype_of_perm _ _ (Permutation_map HD.Date Hperm)).
    eapply merge_accepts. exact Hmerge. }
  assert (Hload' :
            load_and_preprocess_data parse_date clock group_sum group_mean
              df_fg df_hd'
            = Ok (sort_values merged_leb
                    (merge_inner (daily_stats group_sum group_mean hd') fg), hd')).
  { unfold load_and_preprocess_data, rbind.
    rewrite Hfg, Hhd', Hmerge'. reflexivity. }
  destruct (summary_is_join _ _ _ _ _ _ _ _ Hload') as (fg' & Hfg' & _ & Hm' & _).
  assert (fg' = fg) by congruence. subst fg'.
  eexists _, hd'. split; [exact Hload'|]. split; [exact Hperm|].
  rewrite Hm, Hm'. apply merge_inner_same. apply daily_stats_perm. exact Hperm.
Qed.

(* ================================================================== *)
(** * Totals, errors and the size of the summary *)
(* ================================================================== *)

Lemma to_datetime_ist_value (now : Z) (c : option string) (ist : option Z) :
  to_datetime_ist now c = Ok ist ->
  (ist <> None <-> exists s, c = Some s /\ is_nat_string s = false).
Proof.
  unfold to_datetime_ist. destruct c as [s|].
  - destruct (is_nat_string s) eqn:En.
    + intros H. injection H as <-.
      split; [congruence|]. intros (s' & E & Hs). congruence.
    + intros H. assert (Hv : ist <> None).
      { destruct (reads_clock s).
        - destruct (in_bounds now); [|discriminate]. congruence.
        - destruct (strptime s) as [f|]; [|discriminate].
          destruct (in_bounds (naive_ns f)); [|discriminate]. congruence. }
      split; [intros _; eauto|intros _; exact Hv].
  - intros H. injection H as <-.
    split; [congruence|]. intros (s' & E & _). discriminate E.
Qed.

Lemma has_date_timestamp (now : Z) (r : HD.Raw) (row : HD.Row) :
  hd_row now r = Ok row ->
  (has_date row = true
   <-> exists s, HD.Timestamp_IST (HD.raw row) = Some s
                 /\ is_nat_string s = false).
Proof.
  intros Hr.
  destruct (hd_row_inv _ _ _ Hr) as (Hraw & Hutc & Hdate & _ & _ & _ & _ & Hist).
  rewrite Hraw. rewrite <- (to_datetime_ist_value _ _ _ Hist).
  unfold has_date. rewrite Hdate. apply to_utc_inv in Hutc.
  destruct (HD.Timestamp_IST_DT row) as [local|].
  - destruct Hutc as (u & -> & _). simpl. split; [discriminate|reflexivity].
  - rewrite Hutc. simpl. split; [discriminate|congruence].
Qed.

(** X3: the daily counts add up over the days to the counts over the trade
    frame: winning, losing and taker trades, [Total_Trades] (trades with an
    [Account]) and the trades themselves, each trade with a date counted in
    one day and once; a trade has a date exactly when its timestamp cell
    holds a text other than those read as missing. *)
Theorem daily_counts_add_up parse_date clock group_sum group_mean
        (df_fg : list FG.Raw) (df_hd : list HD.Raw)
        (merged : list Merged.Row) (hd : list HD.Row) :
  load_and_preprocess_data parse_date clock group_sum group_mean df_fg df_hd
  = Ok (merged, hd) ->
  column_total Daily.Winning_Trades (daily_stats group_sum group_mean hd)
  = sum_bool HD.Is_Win (filter has_date hd)
  /\ column_total Daily.Losing_Trades (daily_stats group_sum group_mean hd)
     = sum_bool HD.Is_Loss (filter has_date hd)
  /\ column_total Daily.Taker_Trades (daily_stats group_sum group_mean hd)
     = sum_bool HD.Is_Taker (filter has_date hd)
  /\ column_total Daily.Total_Trades (daily_stats group_sum group_mean hd)
     = sum_bool has_account (filter has_date hd)
  /\ sum_Z (map (fun r => Z.of_nat (length (trades_of hd r)))
                (daily_stats group_sum group_mean hd))
     = Z.of_nat (length (filter has_date hd))
  /\ (forall t, In t hd ->
                (has_date t = true
                 <-> exists s, HD.Timestamp_IST (HD.raw t) = Some s
                               /\ is_nat_string s = false)).
Proof.
  intros Hload.
  split; [apply column_total_groups; intros d g; reflexivity|].
  split; [apply column_total_groups; intros d g; reflexivity|].
  split; [apply column_total_groups; intros d g; reflexivity|].
  split; [|split].
  - apply column_total_groups. intros d g. cbn [aggregate Daily.Total_Trades].
    apply accounts_count.
  - unfold daily_stats. rewrite map_map.
    transitivity (sum_bool (fun _ => true) (filter has_date hd)).
    + rewrite <- groups_count_dated. apply sum_Z_ext. intros d.
      unfold trades_of, daily_date.
      cbn [with_ratios Daily.agg aggregate Daily.Date].
      unfold sum_bool. f_equal. f_equal. symmetry.
      apply forallb_filter_id. apply forallb_forall. reflexivity.
    + unfold sum_bool. f_equal. f_equal.
      apply forallb_filter_id. apply forallb_forall. reflexivity.
  - intros t Ht.
    destruct (load_row _ _ _ _ _ _ _ _ _ Hload Ht) as (now & r & _ & Hr).
    eapply has_date_timestamp. exact Hr.
Qed.

(** X2: what makes the load raise.  A sentiment date text that cannot be
    read does, whatever the trades and the clock; so does a trade timestamp
    text that the reader refuses (one that is not read as missing or as the
    time of the clock, and that the format does not match or that names a
    day that does not exist).  A failure of the sentiment step is the
    exception of the load; a failure of the trade step is when the sentiment
    step passed. *)
Theorem load_raises parse_date clock group_sum group_mean
        (df_fg : list FG.Raw) (df_hd : list HD.Raw) :
  ((exists r s, In r df_fg /\ FG.date r = Some s /\ parse_date s = None) ->
   exists e, load_and_preprocess_data parse_date clock group_sum group_mean
               df_fg df_hd = Raise e)
  /\ ((exists t s, In t df_hd /\ HD.Timestamp_IST t = Some s
                   /\ refused s = true) ->
      exists e, load_and_preprocess_data parse_date clock group_sum group_mean
                  df_fg df_hd = Raise e)
  /\ (forall e, process_fear_greed parse_date df_fg = Raise e ->
                load_and_preprocess_data parse_date clock group_sum group_mean
                  df_fg df_hd = Raise e)
  /\ (forall fg e, process_fear_greed parse_date df_fg = Ok fg ->
                   process_traders clock df_hd = Raise e ->
                   load_and_preprocess_data parse_date clock group_sum group_mean
                     df_fg df_hd = Raise e).
Proof.
  split; [intros H; apply load_raises_unread; left; exact H|].
  split; [intros H; apply load_raises_unread; right; exact H|].
  unfold load_and_preprocess_data, rbind. split.
  - intros e ->. reflexivity.
  - intros fg e -> ->. reflexivity.
Qed.

Lemma traverse_length {A B} (f : A -> result B) (l : list A) (bs : list B) :
  traverse f l = Ok bs -> length bs = length l.
Proof.
  revert bs. induction l as [|a l IH]; simpl; intros bs H.
  - injection H as <-. reflexivity.
  - destruct (f a) as [b|]; simpl in H; [|discriminate].
    destruct (traverse f l) as [bl|]; simpl in H; [|discriminate].
    injection H as <-. simpl. f_equal. apply IH. reflexivity.
Qed.

Lemma sorted_lt_NoDup (l : list CalendarDate) :
  StronglySorted date_lt l -> NoDup l.
Proof.
  induction l as [|d l IH]; intros Hs; constructor.
  - apply sorted_lt_head. exact Hs.
  - apply IH. inversion Hs; assumption.
Qed.

Lemma NoDup_map_Some {A} (l : list A) : NoDup l -> NoDup (map Some l).
Proof.
  induction 1 as [|a l Hn Hnd IH]; simpl; constructor; [|exact IH].
  intros Hin. apply in_map_iff in Hin as (b & E & Hb).
  injection E as ->. contradiction.
Qed.

Lemma summary_dates parse_date clock group_sum group_mean
      (df_fg : list FG.Raw) (df_hd : list HD.Raw)
      (merged : list Merged.Row) (hd : list HD.Row) (d : CalendarDate) :
  load_and_preprocess_data parse_date clock group_sum group_mean df_fg df_hd
  = Ok (merged, hd) ->
  (In d (map Merged.Date merged) <->
   (exists t, In t hd /\ HD.Date t = Some d)
   /\ (exists r s, In r df_fg /\ FG.date r = Some s /\ parse_date s = Some d)).
Proof.
  intros Hload.
  destruct (summary_is_join _ _ _ _ _ _ _ _ Hload) as (fg & Hfg & _ & -> & _).
  rewrite merge_inner_dates, daily_stats_dates, group_keys_In.
  rewrite (process_fear_greed_dates parse_date df_fg fg d Hfg). tauto.
Qed.

(** X14: the summary of a load that returns has at most one row per day of
    the daily aggregates, which has at most one day per trade, and at most
    one row per sentiment record; it is empty exactly when no date has both
    a trade and a sentiment record. *)
Theorem summary_size parse_date clock group_sum group_mean
        (df_fg : list FG.Raw) (df_hd : list HD.Raw)
        (merged : list Merged.Row) (hd : list HD.Row) :
  load_and_preprocess_data parse_date clock group_sum group_mean df_fg df_hd
  = Ok (merged, hd) ->
  (length merged <= length (daily_stats group_sum group_mean hd))%nat
  /\ (length (daily_stats group_sum group_mean hd) <= length df_hd)%nat
  /\ (length merged <= length df_fg)%nat
  /\ (merged = [] <->
      forall d, ~ ((exists t, In t hd /\ HD.Date t = Some d)
                   /\ (exists r s, In r df_fg /\ FG.date r = Some s
                                   /\ parse_date s = Some d))).
Proof.
  intros Hload.
  destruct (summary_is_join _ _ _ _ _ _ _ _ Hload) as (fg & Hfg & Hhd & Hm & Hs).
  pose proof (sorted_lt_NoDup _ Hs) as Hnd.
  assert (L1 : (length merged <= length (daily_stats group_sum group_mean hd))%nat).
  { rewrite <- (length_map Merged.Date merged).
    rewrite <- (length_map daily_date (daily_stats group_sum group_mean hd)).
    apply NoDup_incl_length; [exact Hnd|].
    intros d Hd. rewrite Hm in Hd. apply merge_inner_dates in Hd. tauto. }
  assert (L2 : (length (daily_stats group_sum group_mean hd) <= length df_hd)%nat).
  { rewrite <- (length_map daily_date), daily_stats_dates.
    rewrite <- (traverse_raw _ _ _ Hhd), length_map.
    rewrite <- (length_map Some (group_keys hd)), <- (length_map HD.Date hd).
    apply NoDup_incl_length.
    - apply NoDup_map_Some, group_keys_NoDup.
    - intros x Hx. apply in_map_iff in Hx as (d & <- & Hd).
      apply group_keys_In in Hd as (row & Hin & E). rewrite <- E.
      apply in_map. exact Hin. }
  assert (L3 : (length merged <= length df_fg)%nat).
  { destruct (process_fear_greed_inv _ _ _ Hfg) as (dated & Ht & Efg).
    rewrite <- (traverse_length _ _ _ Ht).
    pose proof (drop_duplicates_length (option_eqb date_eqb) FG.Date dated) as Hle.
    assert (Hfgl : (length merged <= length fg)%nat).
    { rewrite <- (length_map Merged.Date merged).
      rewrite <- (length_map Some (map Merged.Date merged)).
      rewrite <- (length_map fg_date fg).
      apply NoDup_incl_length.
      - apply NoDup_map_Some. exact Hnd.
      - intros x Hx. apply in_map_iff in Hx as (d & <- & Hd).
        rewrite Hm in Hd. apply merge_inner_dates in Hd. tauto. }
    rewrite Efg, length_map in Hfgl. lia. }
  split; [exact L1|]. split; [exact L2|]. split; [exact L3|].
  split.
  - intros E d Hd. apply (summary_dates _ _ _ _ _ _ _ _ d Hload) in Hd.
    rewrite E in Hd. destruct Hd.
  - intros Hno. destruct merged as [|m rest] eqn:E; [reflexivity|].
    exfalso. apply (Hno (Merged.Date m)).
    apply (summary_dates _ _ _ _ _ _ _ _ _ Hload). left. reflexivity.
Qed.

(* ================================================================== *)
(** * The further properties on the example inputs *)
(* ================================================================== *)

Lemma scenario_win_In : In scenario_win scenario_hd.
Proof. left. reflexivity. Qed.

Lemma scenario_loss_In : In scenario_loss scenario_hd.
Proof. right. left. reflexivity. Qed.

(** The two trades of 1 May 2023, at the same minute, share their date. *)
Lemma same_utc_day_same_date_witness :
  In scenario_win scenario_hd /\ In scenario_loss scenario_hd
  /\ exists da db,
       HD.Date scenario_win = Some da /\ HD.Date scenario_loss = Some db
       /\ (da = db <-> 1682922600000000000 / ns_per_day
                       = 1682922600000000000 / ns_per_day)
       /\ (date_ltb da db = true <-> 1682922600000000000 / ns_per_day
                                     < 1682922600000000000 / ns_per_day)
       /\ (1682922600000000000 <= 1682922600000000000 ->
           date_leb da db = true).
Proof.
  split; [exact scenario_win_In|]. split; [exact scenario_loss_In|].
  exact (same_utc_day_same_date parse_iso_date noon_1_may_2023 plain_sum plain_mean
           scenario_fg two_trades scenario_merged scenario_hd
           scenario_win scenario_loss 1682922600000000000 1682922600000000000
           scenario_load scenario_win_In scenario_loss_In eq_refl eq_refl).
Defined.

Lemma iso_order_refused :
  exists t s, In t [iso_order_trade] /\ HD.Timestamp_IST t = Some s
              /\ refused s = true.
Proof.
  exists iso_order_trade, "2023-05-01 12:00"%string.
  split; [left; reflexivity|]. split; reflexivity.
Qed.

(** A date that is no date, and a timestamp with the year first: the load
    raises on each. *)
Lemma load_raises_witness :
  ((exists r s, In r [fear_day; bad_date_day]
                /\ FG.date r = Some s /\ parse_iso_date s = None)
   /\ exists e,
        load_and_preprocess_data parse_iso_date noon_1_may_2023 plain_sum
          plain_mean [fear_day; bad_date_day] two_trades = Raise e)
  /\ ((exists t s, In t [iso_order_trade] /\ HD.Timestamp_IST t = Some s
                   /\ refused s = true)
      /\ exists e,
           load_and_preprocess_data parse_iso_date noon_1_may_2023 plain_sum
             plain_mean scenario_fg [iso_order_trade] = Raise e).
Proof.
  split.
  - split; [exact bad_date_rejected|].
    exact (proj1 (load_raises parse_iso_date noon_1_may_2023 plain_sum plain_mean
                    [fear_day; bad_date_day] two_trades)
                 bad_date_rejected).
  - split; [exact iso_order_refused|].
    exact (proj1 (proj2 (load_raises parse_iso_date noon_1_may_2023 plain_sum
                           plain_mean scenario_fg [iso_order_trade]))
                 iso_order_refused).
Defined.

Lemma daily_counts_add_up_witness :
  load_and_preprocess_data parse_iso_date noon_1_may_2023 plain_sum plain_mean
    scenario_fg two_trades
  = Ok (scenario_merged, scenario_hd)
  /\ column_total Daily.Winning_Trades
       (daily_stats plain_sum plain_mean scenario_hd)
     = sum_bool HD.Is_Win (filter has_date scenario_hd).
Proof.
  split; [exact scenario_load|].
  exact (proj1 (daily_counts_add_up parse_iso_date noon_1_may_2023 plain_sum plain_mean
                  scenario_fg two_trades scenario_merged scenario_hd
                  scenario_load)).
Defined.

Lemma daily_count_bounds_witness :
  daily_row plain_sum plain_mean scenario_hd scenario_merged scenario_row
  /\ 1 <= Z.of_nat (length (trades_of scenario_hd scenario_row)).
Proof.
  split; [exact scenario_daily_row|].
  exact (proj1 (daily_count_bounds parse_iso_date noon_1_may_2023 plain_sum plain_mean
                  scenario_fg two_trades scenario_merged scenario_hd
                  scenario_row scenario_load scenario_daily_row)).
Defined.

Lemma win_rate_extremes_witness :
  daily_row plain_sum plain_mean scenario_hd scenario_merged scenario_row
  /\ exists q,
       Daily.Win_Rate scenario_row = Some q
       /\ ((q == 0)%Q <-> forall t, In t (trades_of scenario_hd scenario_row) ->
                                    HD.Is_Win t = false)
       /\ ((q == 1)%Q <-> (exists t, In t (trades_of scenario_hd scenario_row)
                                     /\ HD.Is_Win t = true)
                          /\ forall t, In t (trades_of scenario_hd scenario_row) ->
                                       HD.Is_Loss t = false).
Proof.
  split; [exact scenario_daily_row|].
  exact (win_rate_extremes parse_iso_date noon_1_may_2023 plain_sum plain_mean
           scenario_fg two_trades scenario_merged scenario_hd
           scenario_row scenario_load scenario_daily_row).
Defined.

Lemma taker_ratio_fraction_witness :
  (forall t, In t (trades_of scenario_hd scenario_row) ->
             HD.Account (HD.raw t) <> None)
  /\ Daily.Total_Trades (Daily.agg scenario_row)
     = Z.of_nat (length (trades_of scenario_hd scenario_row)).
Proof.
  split; [exact scenario_accounts|].
  exact (proj1 (taker_ratio_fraction parse_iso_date noon_1_may_2023 plain_sum plain_mean
                  scenario_fg two_trades scenario_merged scenario_hd
                  scenario_row scenario_load scenario_daily_row
                  scenario_accounts)).
Defined.

(** The day shows the label of the first of its two sentiment records. *)
Lemma summary_shows_first_record_witness :
  In scenario_summary_row scenario_merged
  /\ exists pre r post,
       scenario_fg = pre ++ r :: post
       /\ date_of parse_iso_date r = Ok (Some (Merged.Date scenario_summary_row))
       /\ (forall r', In r' pre ->
                      date_of parse_iso_date r'
                      <> Ok (Some (Merged.Date scenario_summary_row)))
       /\ Merged.value scenario_summary_row = FG.value r
       /\ Merged.classification scenario_summary_row = FG.classification r
       /\ Merged.Regime scenario_summary_row
          = categorize_regime (FG.classification r).
Proof.
  split; [exact scenario_summary_row_In|].
  exact (summary_shows_first_record parse_iso_date noon_1_may_2023 plain_sum plain_mean
           scenario_fg two_trades scenario_merged scenario_hd
           scenario_summary_row scenario_load scenario_summary_row_In).
Defined.

Lemma regime_of_longer_text_witness :
  categorize_regime (Some "Fear"%string) = "Fear"%string
  /\ categorize_regime (Some ("Extreme " ++ "Fear" ++ " (index 20)")%string)
     = "Fear"%string.
Proof.
  split; [reflexivity|].
  exact (proj1 (regime_of_longer_text "Fear" "Extreme " " (index 20)") eq_refl).
Defined.

Lemma filtered_table_witness :
  load_and_preprocess_data parse_iso_date noon_1_may_2023 plain_sum plain_mean
    scenario_fg two_trades
  = Ok (scenario_merged, scenario_hd)
  /\ StronglySorted date_lt
       (map Merged.Date (filter_regimes ["Fear"%string] scenario_merged)).
Proof.
  split; [exact scenario_load|].
  exact (proj1 (proj2 (filtered_table parse_iso_date noon_1_may_2023 plain_sum plain_mean
                         scenario_fg two_trades scenario_merged scenario_hd
                         ["Fear"%string] scenario_load))).
Defined.

Lemma every_day_selectable_witness :
  load_and_preprocess_data parse_iso_date noon_1_may_2023 plain_sum plain_mean
    scenario_fg two_trades
  = Ok (scenario_merged, scenario_hd)
  /\ filter_regimes regime_options scenario_merged = scenario_merged.
Proof.
  split; [exact scenario_load|].
  exact (proj1 (every_day_selectable parse_iso_date noon_1_may_2023 plain_sum plain_mean
                  scenario_fg two_trades scenario_merged scenario_hd
                  scenario_load)).
Defined.

(** A date that is no date: the page stops on the error, whatever is
    selected. *)
Lemma page_outcome_witness :
  (exists r s, In r [fear_day; bad_date_day]
               /\ FG.date r = Some s /\ parse_iso_date s = None)
  /\ exists e,
       run_page parse_iso_date noon_1_may_2023 plain_sum plain_mean
         [fear_day; bad_date_day] two_trades regime_options
       = ErrorShown e.
Proof.
  split; [exact bad_date_rejected|].
  exact (proj1 (proj2 (page_outcome parse_iso_date noon_1_may_2023 plain_sum
                         plain_mean [fear_day; bad_date_day] two_trades
                         regime_options))
               (or_introl bad_date_rejected)).
Defined.

Lemma two_trades_swap : Permutation two_trades two_trades_swapped.
Proof. apply perm_swap. Qed.

Lemma trade_order_irrelevant_witness :
  Permutation two_trades two_trades_swapped
  /\ clock_free two_trades
  /\ exists merged' hd',
       load_and_preprocess_data parse_iso_date noon_1_may_2023 plain_sum
         plain_mean scenario_fg two_trades_swapped
       = Ok (merged', hd')
       /\ Permutation scenario_hd hd'
       /\ Forall2 same_summary scenario_merged merged'.
Proof.
  split; [exact two_trades_swap|]. split; [exact two_trades_clock_free|].
  exact (trade_order_irrelevant parse_iso_date noon_1_may_2023
           plain_sum plain_mean
           scenario_fg two_trades two_trades_swapped
           scenario_merged scenario_hd scenario_load two_trades_swap
           two_trades_clock_free).
Defined.

Lemma summary_size_witness :
  load_and_preprocess_data parse_iso_date noon_1_may_2023 plain_sum plain_mean
    scenario_fg two_trades
  = Ok (scenario_merged, scenario_hd)
  /\ (length scenario_merged <= length scenario_fg)%nat.
Proof.
  split; [exact scenario_load|].
  exact (proj1 (proj2 (proj2 (summary_size parse_iso_date noon_1_may_2023 plain_sum plain_mean
                                scenario_fg two_trades scenario_merged
                                scenario_hd scenario_load)))).
Defined.
